(** * Passenger routes of the ride-share backend: identity, sign-in and
      status-gated disclosure

    Shallow embedding of the Express router for passengers
    (registration, local sign-in, federated sign-up, profile update,
    profile aggregation and the join-request listing) together with the
    properties of its natural-language specification.

    Conventions of the embedding
    - a JavaScript string is a [string]; its code units are restricted to
      the 8-bit range;
    - a JavaScript value handed to [res.json] / [res.send] is a [Value];
      an object is an association list in property-insertion order;
    - a promise that rejects and an expression that throws are the [Throw]
      case of [Result];
    - a request body as the body parser leaves it is a [Json.fields]; the
      handlers [register], [signin] and [update] take the fields once they
      are known to be strings, and [register_request], [signin_request] and
      [update_request] take the body as parsed, its fields absent or of any
      JSON type;
    - collections of the database are lists of documents; what the outside
      world decides (bcrypt, the database failing, Google's verification,
      [Math.random], base64) is read from an [Env] record. *)

From Stdlib Require Import String Ascii List Bool Arith ZArith Lia.
Import ListNotations.
Open Scope string_scope.

Set Warnings "-register-all".

(* ================================================================== *)
(** ** JavaScript strings *)
(* ================================================================== *)

Module JsString.

(** White space removed by [String.prototype.trim]: TAB, LF, VT, FF, CR,
    SPACE and NBSP (the 8-bit part of WhiteSpace and LineTerminator). *)
Definition is_white_space (c : ascii) : bool :=
  match nat_of_ascii c with
  | 9 | 10 | 11 | 12 | 13 | 32 | 160 => true
  | _ => false
  end.

Fixpoint trimStart (s : string) : string :=
  match s with
  | EmptyString => EmptyString
  | String c s' => if is_white_space c then trimStart s' else s
  end.

Fixpoint trimEnd (s : string) : string :=
  match s with
  | EmptyString => EmptyString
  | String c s' =>
      let t := trimEnd s' in
      if is_white_space c && (t =? "") then "" else String c t
  end.

(** [s.trim()] *)
Definition trim (s : string) : string := trimEnd (trimStart s).

(** Truthiness of a string: [if (s)] holds unless [s] is empty. *)
Definition truthy (s : string) : bool := negb (s =? "").

Fixpoint forallb (p : ascii -> bool) (s : string) : bool :=
  match s with
  | EmptyString => true
  | String c s' => p c && forallb p s'
  end.

Fixpoint existsb (p : ascii -> bool) (s : string) : bool :=
  match s with
  | EmptyString => false
  | String c s' => p c || existsb p s'
  end.

End JsString.

(* ================================================================== *)
(** ** Regular expressions

    The three patterns of the registration handler are anchored at both
    ends ([^...$], no flags), so [RegExp.prototype.test] is a whole-string
    match.  Patterns are data; matching is by derivatives. *)
(* ================================================================== *)

Module RegExp.

Inductive regex : Type :=
| Empty : regex                        (* matches no string *)
| Eps : regex                          (* matches the empty string *)
| Class : (ascii -> bool) -> regex     (* one character of a class *)
| Cat : regex -> regex -> regex
| Alt : regex -> regex -> regex
| Star : regex -> regex.

(** [r+] *)
Definition Plus (r : regex) : regex := Cat r (Star r).

(** [r{n}] *)
Fixpoint Repeat (n : nat) (r : regex) : regex :=
  match n with
  | O => Eps
  | S n' => Cat r (Repeat n' r)
  end.

(** [r{0,n}] *)
Fixpoint UpTo (n : nat) (r : regex) : regex :=
  match n with
  | O => Eps
  | S n' => Alt Eps (Cat r (UpTo n' r))
  end.

(** [r{lo,hi}] *)
Definition Range (lo hi : nat) (r : regex) : regex :=
  Cat (Repeat lo r) (UpTo (hi - lo) r).

Fixpoint nullable (r : regex) : bool :=
  match r with
  | Empty => false
  | Eps => true
  | Class _ => false
  | Cat r1 r2 => nullable r1 && nullable r2
  | Alt r1 r2 => nullable r1 || nullable r2
  | Star _ => true
  end.

Fixpoint deriv (c : ascii) (r : regex) : regex :=
  match r with
  | Empty => Empty
  | Eps => Empty
  | Class p => if p c then Eps else Empty
  | Cat r1 r2 =>
      if nullable r1
      then Alt (Cat (deriv c r1) r2) (deriv c r2)
      else Cat (deriv c r1) r2
  | Alt r1 r2 => Alt (deriv c r1) (deriv c r2)
  | Star r1 => Cat (deriv c r1) (Star r1)
  end.

Fixpoint matches (r : regex) (s : string) : bool :=
  match s with
  | EmptyString => nullable r
  | String c s' => matches (deriv c r) s'
  end.

(** [/^r$/.test(s)] *)
Definition test (r : regex) (s : string) : bool := matches r s.

(** The strings a pattern denotes; [matches] decides this relation
    ([RegExpFacts.matches_lang]). *)
Inductive lang : regex -> string -> Prop :=
| lang_Eps : lang Eps ""
| lang_Class (p : ascii -> bool) (c : ascii) :
    p c = true -> lang (Class p) (String c "")
| lang_Cat (r1 r2 : regex) (s1 s2 : string) :
    lang r1 s1 -> lang r2 s2 -> lang (Cat r1 r2) (s1 ++ s2)
| lang_Alt_l (r1 r2 : regex) (s : string) : lang r1 s -> lang (Alt r1 r2) s
| lang_Alt_r (r1 r2 : regex) (s : string) : lang r2 s -> lang (Alt r1 r2) s
| lang_Star_nil (r : regex) : lang (Star r) ""
| lang_Star_app (r : regex) (s1 s2 : string) :
    lang r s1 -> lang (Star r) s2 -> lang (Star r) (s1 ++ s2).

(** Character classes. *)
Definition code_in (lo hi : nat) (c : ascii) : bool :=
  ((lo <=? nat_of_ascii c) && (nat_of_ascii c <=? hi))%nat.

Definition chr (a : ascii) : ascii -> bool := fun c => Ascii.eqb c a.

Definition one_of (ps : list (ascii -> bool)) : ascii -> bool :=
  fun c => existsb (fun p => p c) ps.

(** [a-b] inside a bracket: every code unit from [a] to [b]. *)
Definition range (a b : ascii) : ascii -> bool :=
  code_in (nat_of_ascii a) (nat_of_ascii b).

(** [\d] *)
Definition digit : ascii -> bool := range "0"%char "9"%char.

(** [\w] is [A-Za-z0-9_] *)
Definition word : ascii -> bool :=
  one_of [range "A"%char "Z"%char; range "a"%char "z"%char;
          range "0"%char "9"%char; chr "_"%char].

(** [/^[\w-\.]+@([\w-]+\.)+[\w-]{2,4}$/] *)
Definition email_re : regex :=
  Cat (Plus (Class (one_of [word; chr "-"%char; chr "."%char])))
    (Cat (Class (chr "@"%char))
       (Cat (Plus (Cat (Plus (Class (one_of [word; chr "-"%char])))
                       (Class (chr "."%char))))
            (Range 2 4 (Class (one_of [word; chr "-"%char]))))).

(** [/^[a-zA-z]*$/]: the second range of the source runs from upper-case
    [A] to lower-case [z]. *)
Definition name_re : regex :=
  Star (Class (one_of [range "a"%char "z"%char; range "A"%char "z"%char])).

(** [/^\d{10}$/] *)
Definition phone_re : regex := Repeat 10 (Class digit).

End RegExp.

(* ================================================================== *)
(** ** JavaScript values, objects and exceptions *)
(* ================================================================== *)

Module Js.

Inductive Value : Type :=
| VUndefined : Value
| VNull : Value
| VBool : bool -> Value
| VNum : Z -> Value
| VStr : string -> Value
| VId : nat -> Value                               (* an ObjectId *)
| VArr : list Value -> Value
| VObj : list (string * Value) -> Value
| VJwt : list (string * Value) -> string -> Value. (* signed payload, expiresIn *)

(** An object: its own enumerable properties, in insertion order. *)
Definition Obj : Type := list (string * Value).

Fixpoint has_key (k : string) (o : Obj) : bool :=
  match o with
  | [] => false
  | (k', _) :: o' => (k =? k') || has_key k o'
  end.

(** [o[k]], [undefined] when the key is absent. *)
Fixpoint obj_get (k : string) (o : Obj) : Value :=
  match o with
  | [] => VUndefined
  | (k', v) :: o' => if k =? k' then v else obj_get k o'
  end.

(** Defining [k] on [o]: an existing key keeps its place and takes the new
    value, a new key goes last. *)
Fixpoint obj_set (k : string) (v : Value) (o : Obj) : Obj :=
  match o with
  | [] => [(k, v)]
  | (k', v') :: o' =>
      if k =? k' then (k, v) :: o' else (k', v') :: obj_set k v o'
  end.

(** What a spread copies: the own properties of an object, nothing for
    [undefined], [null], booleans and numbers. *)
Definition own_props (v : Value) : Obj :=
  match v with
  | VObj o => o
  | _ => []
  end.

(** The members of an object literal: [k: v] and [...v]. *)
Inductive Member : Type :=
| Field : string -> Value -> Member
| Spread : Value -> Member.

Definition define (o : Obj) (m : Member) : Obj :=
  match m with
  | Field k v => obj_set k v o
  | Spread v => fold_left (fun acc kv => obj_set (fst kv) (snd kv) acc) (own_props v) o
  end.

(** [{ m1, m2, ... }], members evaluated left to right. *)
Definition object (ms : list Member) : Obj := fold_left define ms [].

(** [c && v] for a boolean [c]. *)
Definition js_and (c : bool) (v : Value) : Value :=
  if c then v else VBool false.

Inductive Error : Type :=
| TypeError : string -> Error      (* raised by the language itself *)
| Failure : string -> Error.       (* a collaborator threw or rejected *)

Definition message (e : Error) : string :=
  match e with
  | TypeError m => m
  | Failure m => m
  end.

Inductive Result (A : Type) : Type :=
| Ok : A -> Result A
| Throw : Error -> Result A.

Arguments Ok {A} _.
Arguments Throw {A} _.

Definition bind {A B : Type} (r : Result A) (k : A -> Result B) : Result B :=
  match r with
  | Ok a => k a
  | Throw e => Throw e
  end.

(** [l.map(f)] where [f] may throw: the first exception ends the loop. *)
Fixpoint mapM {A B : Type} (f : A -> Result B) (l : list A) : Result (list B) :=
  match l with
  | [] => Ok []
  | a :: l' =>
      bind (f a) (fun b => bind (mapM f l') (fun bs => Ok (b :: bs)))
  end.

(** [v.k]: throws on [undefined] and [null]; a primitive without that
    property yields [undefined]. *)
Definition member (v : Value) (k : string) : Result Value :=
  match v with
  | VUndefined =>
      Throw (TypeError ("Cannot read properties of undefined (reading '" ++ k ++ "')"))
  | VNull =>
      Throw (TypeError ("Cannot read properties of null (reading '" ++ k ++ "')"))
  | VObj o => Ok (obj_get k o)
  | _ => Ok VUndefined
  end.

End Js.

Import Js.

Declare Scope result_scope.
Delimit Scope result_scope with result.
Notation "x <- e ;; k" := (bind e (fun x => k))
  (at level 61, e at next level, right associativity) : result_scope.
Open Scope result_scope.

(* ================================================================== *)
(** ** Documents and collections *)
(* ================================================================== *)

Definition ObjectId : Type := nat.

Module Avatar.
Record t : Type := { data : string; contentType : string }.
End Avatar.

(** Modelled from the spec: the Passenger schema (models/passenger_model) is
    not among the sources.  The fields are the ones the router writes and
    reads ([email], [password], [name], [phonenumber], [avatar], [_id]),
    which are also the attributes the specification gives an Identity. *)
Module Passenger.
Record t : Type := {
  _id : ObjectId;
  email : string;
  password : string;
  name : string;
  phonenumber : string;
  avatar : option Avatar.t
}.

(** [user._doc], the raw stored document. *)
Definition _doc (p : t) : Obj :=
  ([ ("_id", VId (_id p));
     ("email", VStr (email p));
     ("password", VStr (password p));
     ("name", VStr (name p));
     ("phonenumber", VStr (phonenumber p)) ]
   ++ match avatar p with
      | Some a => [ ("avatar", VObj [ ("data", VStr (Avatar.data a));
                                      ("contentType", VStr (Avatar.contentType a)) ]) ]
      | None => []
      end)%list.
End Passenger.

(** Modelled from the spec: the Driver schema (models/driver_model) is not
    among the sources; this router only queries drivers by [email]. *)
Module Driver.
Record t : Type := { _id : ObjectId; email : string }.
End Driver.

(** Modelled from the spec: the DriverPost schema (models/driverpost_model)
    is not among the sources.  The fields are the ones the router reads;
    each is a [Value], [VUndefined] when the document lacks it. *)
Module DriverPost.
Record t : Type := {
  _id : ObjectId;
  startingLocation : Value;
  endingLocation : Value;
  startTime : Value;
  additionalNotes : Value;
  numberOfSeats : Value;
  licensenumber : Value;
  model : Value;
  phonenumber : Value;
  email : Value
}.
End DriverPost.

(** Modelled from the spec: the JoinRequest schema (models/joinrequest_model)
    is not among the sources: a passenger, a reference to a driver post and
    a status. *)
Module JoinRequest.
Record t : Type := {
  _id : ObjectId;
  passengerId : ObjectId;
  driverPostId : ObjectId;
  status : string
}.

(** A join request after [.populate('driverPostId')]: the reference is
    replaced by the referenced document, or by [null] ([None]) when no
    driver post has that identifier. *)
Record populated : Type := {
  p_status : string;
  p_driverPostId : option DriverPost.t
}.
End JoinRequest.

(** Modelled from the spec: the PassengerPost schema
    (models/passengerpost_model) is not among the sources; the router only
    filters the posts by [passengerId] and returns them. *)
Module PassengerPost.
Record t : Type := { _id : ObjectId; passengerId : ObjectId; fields : Obj }.

Definition toValue (p : t) : Value :=
  VObj (("_id", VId (_id p)) :: ("passengerId", VId (passengerId p)) :: fields p).
End PassengerPost.

Record Store : Type := {
  passengers : list Passenger.t;
  drivers : list Driver.t;
  joinRequests : list JoinRequest.t;
  driverPosts : list DriverPost.t;
  passengerPosts : list PassengerPost.t
}.

(** What the collaborators of one request decide. *)
Record Env : Type := {
  (** [Some m]: the database queries of this request reject with message [m] *)
  db_read_error : option string;
  (** [Some m]: [doc.save()] rejects with message [m] *)
  db_save_error : option string;
  (** [bcrypt.hash(s, 10)] *)
  bcrypt_hash : string -> Result string;
  (** [bcrypt.compare(s, hash)] *)
  bcrypt_compare : string -> string -> Result bool;
  (** [verifyGoogleToken(token)], giving the verified [email] and [name] *)
  verifyGoogleToken : string -> Result (string * string);
  (** the text of [Math.random()*1000000] *)
  math_random : string;
  (** the ObjectId given to a document made with [new] *)
  new_object_id : ObjectId;
  (** [buffer.toString('base64')] *)
  base64 : string -> string
}.

(* ================================================================== *)
(** ** Requests, responses and the database operations *)
(* ================================================================== *)

Record Response : Type := { code : nat; body : Value }.

(** [res.json(v)] and [res.send(v)] without [res.status]: Express answers
    with status 200. *)
Definition json (v : Value) : Response := {| code := 200; body := v |}.

(** [res.status(c).send(v)] and [res.status(c).json(v)] *)
Definition status (c : nat) (v : Value) : Response := {| code := c; body := v |}.

(** A line of [console.error] / [console.log]: a label and the error. *)
Inductive LogLine : Type :=
| LogError : string -> Error -> LogLine.

Record Outcome : Type := {
  store : Store;
  response : Response;
  console : list LogLine
}.

Definition reply (st : Store) (r : Response) : Outcome :=
  {| store := st; response := r; console := [] |}.

(** The fields of a [POST /register] body once the handler has read them
    as strings; [register_request] takes the body as parsed. *)
Module RegisterBody.
Record t : Type := {
  email : string; password : string; name : string; phonenumber : string
}.
End RegisterBody.

(** The fields of a [POST /signin] body once read as strings;
    [signin_request] takes the body as parsed. *)
Module SigninBody.
Record t : Type := { email : string; password : string }.
End SigninBody.

(** The body of [PUT /update] when each field is a string or absent; every
    parameter is optional.  [update_request] takes the body as parsed. *)
Module UpdateBody.
Record t : Type := {
  name : option string;
  phonenumber : option string;
  email : option string;
  newPassword : option string
}.
End UpdateBody.

(** [if (x)] for an optional string: absent and empty are both falsy. *)
Definition given (x : option string) : option string :=
  match x with
  | Some s => if JsString.truthy s then Some s else None
  | None => None
  end.

Section Database.

Variable env : Env.
Variable st : Store.

(** A query against the database: its result, unless the database fails. *)
Definition query {A : Type} (a : A) : Result A :=
  match db_read_error env with
  | Some m => Throw (Failure m)
  | None => Ok a
  end.

(** [Passenger.findById(id)] *)
Definition Passenger_findById (id : ObjectId) : Result (option Passenger.t) :=
  query (find (fun p => Nat.eqb (Passenger._id p) id) (passengers st)).

(** [Passenger.findOne({ email })] *)
Definition Passenger_findOne (email : string) : Result (option Passenger.t) :=
  query (find (fun p => Passenger.email p =? email) (passengers st)).

(** [Passenger.find({ email })] *)
Definition Passenger_find (email : string) : Result (list Passenger.t) :=
  query (filter (fun p => Passenger.email p =? email) (passengers st)).

(** [Driver.findOne({ email })] *)
Definition Driver_findOne (email : string) : Result (option Driver.t) :=
  query (find (fun d => Driver.email d =? email) (drivers st)).

Definition populate (r : JoinRequest.t) : JoinRequest.populated :=
  {| JoinRequest.p_status := JoinRequest.status r;
     JoinRequest.p_driverPostId :=
       find (fun d => Nat.eqb (DriverPost._id d) (JoinRequest.driverPostId r))
            (driverPosts st) |}.

(** [joinRequest.find({ passengerId }).populate('driverPostId').exec()] *)
Definition joinRequest_find_populate (passengerId : ObjectId)
  : Result (list JoinRequest.populated) :=
  query (map populate
           (filter (fun r => Nat.eqb (JoinRequest.passengerId r) passengerId)
                   (joinRequests st))).

(** [Passengerpost.find({ passengerId })] *)
Definition Passengerpost_find (passengerId : ObjectId) : Result (list PassengerPost.t) :=
  query (filter (fun p => Nat.eqb (PassengerPost.passengerId p) passengerId)
                (passengerPosts st)).

Definition with_passengers (ps : list Passenger.t) : Store :=
  {| passengers := ps;
     drivers := drivers st;
     joinRequests := joinRequests st;
     driverPosts := driverPosts st;
     passengerPosts := passengerPosts st |}.

(** [doc.save()] of a document made with [new Passenger(...)] *)
Definition save_new (p : Passenger.t) : Result Store :=
  match db_save_error env with
  | Some m => Throw (Failure m)
  | None => Ok (with_passengers (passengers st ++ [p]))
  end.

(** [user.save()] of a document that was read from the collection *)
Definition save (p : Passenger.t) : Result Store :=
  match db_save_error env with
  | Some m => Throw (Failure m)
  | None =>
      Ok (with_passengers
            (map (fun q => if Nat.eqb (Passenger._id q) (Passenger._id p) then p else q)
                 (passengers st)))
  end.

Definition is_some {A : Type} (x : option A) : bool :=
  match x with Some _ => true | None => false end.

Definition emailExistsInBoth (email : string) : Result bool :=
  passengerExists <- Passenger_findOne email ;;
  driverExists <- Driver_findOne email ;;
  Ok (if is_some passengerExists || is_some driverExists then true else false).

End Database.

(** [jwt.sign(payload, process.env.ACCESS_TOKEN_SECRET, { expiresIn })], the
    secret being configured: the token is the payload and its validity,
    sealed. *)
Definition jwt_sign (payload : Obj) (expiresIn : string) : Value :=
  VJwt payload expiresIn.

(* ================================================================== *)
(** ** The join-request views *)
(* ================================================================== *)

(** The callback of [JoinRequests.map] in [GET /profile] and in
    [GET /my-join-requests] (the two are the same text). *)
Definition rideshareDetails (request : JoinRequest.populated) : Result Obj :=
  match JoinRequest.p_driverPostId request with
  | None => Throw (TypeError "Cannot read properties of null (reading '_id')")
  | Some driverPost =>
      Ok (object
            [ Field "postId" (VId (DriverPost._id driverPost));
              Field "startingLocation" (DriverPost.startingLocation driverPost);
              Field "endingLocation" (DriverPost.endingLocation driverPost);
              Field "startTime" (DriverPost.startTime driverPost);
              Field "status" (VStr (JoinRequest.p_status request));
              Field "additionalNotes" (DriverPost.additionalNotes driverPost);
              Field "numberOfSeats" (DriverPost.numberOfSeats driverPost);
              Spread (js_and (JoinRequest.p_status request =? "accepted")
                        (VObj (object
                           [ Field "licensenumber" (DriverPost.licensenumber driverPost);
                             Field "model" (DriverPost.model driverPost);
                             Field "phonenumber" (DriverPost.phonenumber driverPost);
                             Field "email" (DriverPost.email driverPost) ]))) ])
  end.

Definition message_body (m : string) : Value :=
  VObj (object [ Field "message" (VStr m) ]).

(** The object literal [userProfile] of [GET /profile]: the stored document
    spread first, then [avatar], [rideshares] and [passengerPosts]. *)
Definition userProfile (user : Passenger.t) (avatar rideshares passengerPosts : Value) : Obj :=
  object [ Spread (VObj (Passenger._doc user));
           Field "avatar" avatar;
           Field "rideshares" rideshares;
           Field "passengerPosts" passengerPosts ].

Arguments userProfile : simpl never.

(** [GET /profile], after [authenticateToken] has put the token's subject
    in [req.user.userId]. *)
Definition profile (env : Env) (st : Store) (userId : ObjectId) : Outcome :=
  let handler : Result Response :=
    user <- Passenger_findById env st userId ;;
    match user with
    | None => Ok (status 404 (message_body "User not found"))
    | Some user =>
        let avatarBase64 :=
          match Passenger.avatar user with
          | Some a =>
              VStr ("data:" ++ Avatar.contentType a ++ ";base64,"
                      ++ base64 env (Avatar.data a))
          | None => VUndefined
          end in
        JoinRequests <- joinRequest_find_populate env st userId ;;
        rideshares <- mapM rideshareDetails JoinRequests ;;
        passengerPosts <- Passengerpost_find env st userId ;;
        let userProfile :=
          userProfile user avatarBase64
            (VArr (map VObj rideshares))
            (VArr (map PassengerPost.toValue passengerPosts)) in
        Ok (json (VObj userProfile))
    end in
  match handler with
  | Ok r => reply st r
  | Throw error =>
      {| store := st;
         response := status 500 (message_body (message error));
         console := [LogError "" error] |}
  end.

(** [GET /my-join-requests] *)
Definition my_join_requests (env : Env) (st : Store) (passengerId : ObjectId) : Outcome :=
  let handler : Result Response :=
    JoinRequests <- joinRequest_find_populate env st passengerId ;;
    rideshares <- mapM rideshareDetails JoinRequests ;;
    Ok (json (VArr (map VObj rideshares))) in
  match handler with
  | Ok r => reply st r
  | Throw error =>
      {| store := st;
         response := status 500 (VObj (object [ Field "message" (VStr "Server error");
                                                Field "error" (VStr (message error)) ]));
         console := [LogError "" error] |}
  end.

(* ================================================================== *)
(** ** Registration, sign-in, update and federated sign-up *)
(* ================================================================== *)

Definition failed (m : string) : Value :=
  VObj (object [ Field "status" (VStr "FAILED"); Field "message" (VStr m) ]).

Definition duplicate_email_message : string :=
  "User with this email already exist as a driver or passenger".

(** [POST /register] *)
Definition register (env : Env) (st : Store) (body : RegisterBody.t) : Outcome :=
  let email := JsString.trim (RegisterBody.email body) in
  let password := JsString.trim (RegisterBody.password body) in
  let name := JsString.trim (RegisterBody.name body) in
  let phonenumber := JsString.trim (RegisterBody.phonenumber body) in
  if (email =? "") || (password =? "") || (name =? "") || (phonenumber =? "") then
    reply st (json (failed "Empty Input for some fields"))
  else if negb (RegExp.test RegExp.email_re email) then
    reply st (json (failed "Invalid Email"))
  else if negb (RegExp.test RegExp.name_re name) then
    reply st (json (failed "Invalid Name"))
  else if negb (RegExp.test RegExp.phone_re phonenumber) then
    reply st (json (failed "Invalid PhoneNumber"))
  else if (String.length password <? 8)%nat then
    reply st (json (failed "Invalid Password"))
  else
    match emailExistsInBoth env st email with
    | Ok emailExists =>
        if emailExists then
          reply st (json (failed duplicate_email_message))
        else
          match bcrypt_hash env password with
          | Ok hashPassword =>
              let newPassenger :=
                {| Passenger._id := new_object_id env;
                   Passenger.email := email;
                   Passenger.password := hashPassword;
                   Passenger.name := name;
                   Passenger.phonenumber := phonenumber;
                   Passenger.avatar := None |} in
              match save_new env st newPassenger with
              | Ok st' =>
                  reply st'
                    (json (VObj (object
                       [ Field "status" (VStr "SUCCESS");
                         Field "message" (VStr "Registration Successfully");
                         Field "data" (VObj (Passenger._doc newPassenger)) ])))
              | Throw _ =>
                  reply st (json (failed "Error Occur when trying to save user account"))
              end
          | Throw _ =>
              reply st (json (failed "Error Occur when hashing password"))
          end
    | Throw err =>
        {| store := st;
           response := json (failed "Error Occur when trying to check for existing User");
           console := [LogError "" err] |}
    end.

(** [if (data)] for an array: an array is an object, and every object is
    truthy, the empty array included. *)
Definition truthy_array {A : Type} (data : list A) : bool := true.

(** [POST /signin].  Reading [data[0]._id] of an empty array throws inside
    the [then] callback, which rejects the chained promise and lands in the
    outer [catch]. *)
Definition signin (env : Env) (st : Store) (body : SigninBody.t) : Outcome :=
  let email := JsString.trim (SigninBody.email body) in
  let password := JsString.trim (SigninBody.password body) in
  if (email =? "") || (password =? "") then
    reply st (json (failed "Empty input"))
  else
    match Passenger_find env st email with
    | Ok data =>
        if truthy_array data then
          match data with
          | first :: _ =>
              let token :=
                jwt_sign (object [ Field "userId" (VId (Passenger._id first)) ]) "24h" in
              let hashPassword := Passenger.password first in
              match bcrypt_compare env password hashPassword with
              | Ok result =>
                  if result then
                    reply st
                      (json (VObj (object
                         [ Field "status" (VStr "Success");
                           Field "message" (VStr "User Successfully logged in");
                           Field "data" (VArr (map (fun p => VObj (Passenger._doc p)) data));
                           Field "token" token ])))
                  else
                    reply st (json (failed "Wrong password"))
              | Throw _ =>
                  reply st (json (failed "Error Occur when trying to check for password"))
              end
          | [] =>
              (* TypeError on [data[0]._id], caught by the outer [catch] *)
              reply st (json (failed "No existing User with input email"))
          end
        else
          reply st (json (failed "Invalid credential"))
    | Throw _ =>
        reply st (json (failed "No existing User with input email"))
    end.

Definition set_name (u : Passenger.t) (v : string) : Passenger.t :=
  {| Passenger._id := Passenger._id u; Passenger.email := Passenger.email u;
     Passenger.password := Passenger.password u; Passenger.name := v;
     Passenger.phonenumber := Passenger.phonenumber u;
     Passenger.avatar := Passenger.avatar u |}.

Definition set_phonenumber (u : Passenger.t) (v : string) : Passenger.t :=
  {| Passenger._id := Passenger._id u; Passenger.email := Passenger.email u;
     Passenger.password := Passenger.password u; Passenger.name := Passenger.name u;
     Passenger.phonenumber := v;
     Passenger.avatar := Passenger.avatar u |}.

Definition set_email (u : Passenger.t) (v : string) : Passenger.t :=
  {| Passenger._id := Passenger._id u; Passenger.email := v;
     Passenger.password := Passenger.password u; Passenger.name := Passenger.name u;
     Passenger.phonenumber := Passenger.phonenumber u;
     Passenger.avatar := Passenger.avatar u |}.

Definition set_password (u : Passenger.t) (v : string) : Passenger.t :=
  {| Passenger._id := Passenger._id u; Passenger.email := Passenger.email u;
     Passenger.password := v; Passenger.name := Passenger.name u;
     Passenger.phonenumber := Passenger.phonenumber u;
     Passenger.avatar := Passenger.avatar u |}.

(** The three assignments of [PUT /update] that precede the e-mail check. *)
Definition update_name_phone (user : Passenger.t) (body : UpdateBody.t) : Passenger.t :=
  let user :=
    match given (UpdateBody.name body) with
    | Some name => set_name user (JsString.trim name)
    | None => user
    end in
  match given (UpdateBody.phonenumber body) with
  | Some phonenumber => set_phonenumber user (JsString.trim phonenumber)
  | None => user
  end.

(** [PUT /update], after [authenticateToken]. *)
Definition update (env : Env) (st : Store) (userId : ObjectId) (body : UpdateBody.t)
  : Outcome :=
  let handler : Result (Store * Response) :=
    user <- Passenger_findById env st userId ;;
    match user with
    | None => Ok (st, status 404 (message_body "User not found"))
    | Some user =>
        let user := update_name_phone user body in
        (* the e-mail block: [inl] is its early return *)
        checked <-
          match given (UpdateBody.email body) with
          | Some email =>
              if negb (email =? Passenger.email user) then
                emailTaken <- emailExistsInBoth env st email ;;
                if emailTaken then
                  Ok (inl (status 400 (message_body "Email already in use")))
                else
                  Ok (inr (set_email user (JsString.trim email)))
              else Ok (inr user)
          | None => Ok (inr user)
          end ;;
        match checked with
        | inl early => Ok (st, early)
        | inr user =>
            user <-
              match given (UpdateBody.newPassword body) with
              | Some newPassword =>
                  hashPassword <- bcrypt_hash env newPassword ;;
                  Ok (set_password user hashPassword)
              | None => Ok user
              end ;;
            st' <- save env st user ;;
            Ok (st', status 200 (VObj (object
                   [ Field "status" (VStr "SUCCESS");
                     Field "message" (VStr "Profile updated successfully");
                     Field "data" (VObj (Passenger._doc user)) ])))
        end
    end in
  match handler with
  | Ok (st', r) => reply st' r
  | Throw err => reply st (status 500 (message_body (message err)))
  end.

(** [POST /google-signup].  The variable [user] first holds the boolean
    that [emailExistsInBoth] resolves to and is reassigned only when that
    boolean is false. *)
Definition google_signup (env : Env) (st : Store) (token : string) : Outcome :=
  let handler : Result (Store * Response) :=
    payload <- verifyGoogleToken env token ;;
    let email := fst payload in
    let name := snd payload in
    user <- emailExistsInBoth env st email ;;
    created <-
      (if negb user then
         hashed <- bcrypt_hash env (math_random env) ;;
         let user :=
           {| Passenger._id := new_object_id env;
              Passenger.email := email;
              Passenger.password := hashed;
              Passenger.name := name;
              Passenger.phonenumber := "";
              Passenger.avatar := None |} in
         st' <- save_new env st user ;;
         Ok (st', VObj (Passenger._doc user))
       else
         Ok (st, VBool user)) ;;
    let st' := fst created in
    let user := snd created in
    userId <- member user "_id" ;;
    let authToken := jwt_sign (object [ Field "userId" userId ]) "24h" in
    Ok (st', status 200 (VObj (object
           [ Field "message" (VStr "User authenticated successfully");
             Field "token" authToken;
             Field "user" user ]))) in
  match handler with
  | Ok (st', r) => reply st' r
  | Throw error =>
      {| store := st;
         response := status 500 (message_body "Internal server error");
         console := [LogError "Error verifying Google token:" error] |}
  end.

(* ================================================================== *)
(** ** Observations on responses, sample data *)
(* ================================================================== *)

Definition contact_keys : list string :=
  [ "licensenumber"; "model"; "phonenumber"; "email" ].

Definition route_keys : list string :=
  [ "startingLocation"; "endingLocation"; "startTime"; "numberOfSeats";
    "additionalNotes"; "status" ].

(** The join-request views carried by an answer of [GET /profile]. *)
Definition profile_rideshares (r : Response) : list Value :=
  match body r with
  | VObj o => match obj_get "rideshares" o with VArr l => l | _ => [] end
  | _ => []
  end.

(** The join-request views carried by an answer of [GET /my-join-requests]. *)
Definition listing_rideshares (r : Response) : list Value :=
  match body r with
  | VArr l => l
  | _ => []
  end.

(** The join requests of a passenger whose driver post does not resolve. *)
Definition dangling (st : Store) (passengerId : ObjectId) (r : JoinRequest.t) : Prop :=
  In r (joinRequests st) /\
  JoinRequest.passengerId r = passengerId /\
  find (fun d => Nat.eqb (DriverPost._id d) (JoinRequest.driverPostId r))
       (driverPosts st) = None.

Module Sample.

(** A well-behaved environment: bcrypt prefixes the secret, the database
    works, one Google token is valid. *)
Definition env : Env :=
  {| db_read_error := None;
     db_save_error := None;
     bcrypt_hash := fun s => Ok ("$2b$10$" ++ s);
     bcrypt_compare := fun s h => Ok (h =? "$2b$10$" ++ s);
     verifyGoogleToken := fun t =>
       if t =? "google-id-token-of-alice" then Ok ("a@b.com", "Alice")
       else Throw (Failure "Invalid token signature");
     math_random := "271828.1828";
     new_object_id := 100;
     base64 := fun s => s |}.

Definition alice : Passenger.t :=
  {| Passenger._id := 1; Passenger.email := "a@b.com";
     Passenger.password := "$2b$10$password1"; Passenger.name := "Alice";
     Passenger.phonenumber := "1234567890"; Passenger.avatar := None |}.

Definition bob : Passenger.t :=
  {| Passenger._id := 2; Passenger.email := "bob@x.org";
     Passenger.password := "$2b$10$hunter2hunter2"; Passenger.name := "Bob";
     Passenger.phonenumber := "5550001111"; Passenger.avatar := None |}.

Definition dave : Driver.t := {| Driver._id := 7; Driver.email := "dave@cars.io" |}.

Definition post (id : ObjectId) (from to : string) : DriverPost.t :=
  {| DriverPost._id := id;
     DriverPost.startingLocation := VStr from;
     DriverPost.endingLocation := VStr to;
     DriverPost.startTime := VStr "2024-03-01T08:00:00.000Z";
     DriverPost.additionalNotes := VStr "no pets";
     DriverPost.numberOfSeats := VNum 3;
     DriverPost.licensenumber := VStr "7ABC123";
     DriverPost.model := VStr "Civic";
     DriverPost.phonenumber := VStr "5559998888";
     DriverPost.email := VStr "dave@cars.io" |}.

Definition request (id passenger driverPost : ObjectId) (s : string) : JoinRequest.t :=
  {| JoinRequest._id := id; JoinRequest.passengerId := passenger;
     JoinRequest.driverPostId := driverPost; JoinRequest.status := s |}.

(** Alice has a pending and an accepted request against two posts. *)
Definition st : Store :=
  {| passengers := [alice; bob];
     drivers := [dave];
     joinRequests := [request 20 1 10 "pending"; request 21 1 11 "accepted"];
     driverPosts := [post 10 "UCLA" "LAX"; post 11 "UCLA" "SFO"];
     passengerPosts := [] |}.

(** The same, after the driver post of the pending request was deleted. *)
Definition st_deleted : Store :=
  {| passengers := [alice; bob];
     drivers := [dave];
     joinRequests := [request 20 1 10 "pending"; request 21 1 11 "accepted"];
     driverPosts := [post 11 "UCLA" "SFO"];
     passengerPosts := [] |}.

Definition pending_view : Obj :=
  [ ("postId", VId 10); ("startingLocation", VStr "UCLA");
    ("endingLocation", VStr "LAX"); ("startTime", VStr "2024-03-01T08:00:00.000Z");
    ("status", VStr "pending"); ("additionalNotes", VStr "no pets");
    ("numberOfSeats", VNum 3) ].

End Sample.

(** Some identity, passenger or driver, has this e-mail. *)
Definition email_in_use (st : Store) (email : string) : bool :=
  List.existsb (fun p => Passenger.email p =? email) (passengers st) ||
  List.existsb (fun d => Driver.email d =? email) (drivers st).

(** The messages of the failure answers of [POST /register]. *)
Definition register_failures : list string :=
  [ "Empty Input for some fields";
    "Invalid Email";
    "Invalid Name";
    "Invalid PhoneNumber";
    "Invalid Password";
    duplicate_email_message;
    "Error Occur when hashing password";
    "Error Occur when trying to save user account";
    "Error Occur when trying to check for existing User" ].

(** An alphabetic letter, [A] to [Z] or [a] to [z]. *)
Definition is_letter (c : ascii) : bool :=
  RegExp.range "a"%char "z"%char c || RegExp.range "A"%char "Z"%char c.

(** The six characters whose codes lie between [Z] and [a]: the opening
    bracket, the backslash, the closing bracket, the caret, the underscore
    and the backquote (codes 91 to 96). *)
Definition between_Z_and_a (c : ascii) : bool := RegExp.code_in 91 96 c.

(* ================================================================== *)
(** ** The driver-post listing and the avatar upload *)
(* ================================================================== *)

(** A driver post as [res.json] sends it: its identifier and the fields of
    [DriverPost.t]. *)
Definition DriverPost_doc (p : DriverPost.t) : Obj :=
  [ ("_id", VId (DriverPost._id p));
    ("startingLocation", DriverPost.startingLocation p);
    ("endingLocation", DriverPost.endingLocation p);
    ("startTime", DriverPost.startTime p);
    ("additionalNotes", DriverPost.additionalNotes p);
    ("numberOfSeats", DriverPost.numberOfSeats p);
    ("licensenumber", DriverPost.licensenumber p);
    ("model", DriverPost.model p);
    ("phonenumber", DriverPost.phonenumber p);
    ("email", DriverPost.email p) ].

(** [Driverpost.find({})] *)
Definition Driverpost_find (env : Env) (st : Store) : Result (list DriverPost.t) :=
  query env (driverPosts st).

(** [GET /driverposts], after [authenticateToken]. *)
Definition driverposts (env : Env) (st : Store) : Outcome :=
  match Driverpost_find env st with
  | Ok driverPosts =>
      reply st (status 200 (VArr (map (fun p => VObj (DriverPost_doc p)) driverPosts)))
  | Throw error =>
      {| store := st;
         response := status 500 (message_body "Failed to fetch driver posts");
         console := [LogError "Failed to fetch driver posts:" error] |}
  end.

(** The file part of a multipart request, as multer describes it. *)
Module UploadedFile.
Record t : Type := {
  originalname : string;
  size : N;                 (* bytes *)
  buffer : string
}.
End UploadedFile.

Module Upload.

(** A literal run of characters inside a pattern. *)
Fixpoint lit (s : string) : RegExp.regex :=
  match s with
  | EmptyString => RegExp.Eps
  | String c s' => RegExp.Cat (RegExp.Class (RegExp.chr c)) (lit s')
  end.

(** The part of [/\.(jpg|jpeg|png)$/] before the end anchor. *)
Definition image_re : RegExp.regex :=
  RegExp.Cat (RegExp.Class (RegExp.chr "."%char))
    (RegExp.Alt (lit "jpg") (RegExp.Alt (lit "jpeg") (lit "png"))).

(** [/r$/] against [s], as [s.match] searches: the pattern may start at any
    position and must reach the end of the string. *)
Fixpoint match_to_end (r : RegExp.regex) (s : string) : bool :=
  RegExp.matches r s
  || match s with
     | EmptyString => false
     | String _ s' => match_to_end r s'
     end.

(** [limits: { fileSize: 16 * 1024 * 1024 }] *)
Definition fileSize : N := 16 * 1024 * 1024.

(** [fileFilter(req, file, cb)]: [cb(new Error(...))] is [Throw],
    [cb(undefined, true)] is [Ok true]. *)
Definition fileFilter (file : UploadedFile.t) : Result bool :=
  if negb (match_to_end image_re (UploadedFile.originalname file)) then
    Throw (Failure "Please upload an image file (jpg, jpeg, or png).")
  else Ok true.

(** [upload.single("avatar")]: a request without the file part goes on
    with [req.file] undefined; the filter sees the file's name before its
    bytes are read; multer refuses a file that reaches the limit, so only
    files of fewer than [fileSize] bytes pass. *)
Definition single (file : option UploadedFile.t) : Result (option UploadedFile.t) :=
  match file with
  | None => Ok None
  | Some f =>
      accepted <- fileFilter f ;;
      if (fileSize <=? UploadedFile.size f)%N then Throw (Failure "File too large")
      else Ok (if accepted then Some f else None)
  end.

End Upload.

Definition set_avatar (u : Passenger.t) (v : option Avatar.t) : Passenger.t :=
  {| Passenger._id := Passenger._id u; Passenger.email := Passenger.email u;
     Passenger.password := Passenger.password u; Passenger.name := Passenger.name u;
     Passenger.phonenumber := Passenger.phonenumber u;
     Passenger.avatar := v |}.

Definition error_body (m : string) : Value :=
  VObj (object [ Field "error" (VStr m) ]).

(** [POST /avatar], after [authenticateToken].  [sharp_png] stands for
    [sharp(buffer).resize(250, 250, ...).png().toBuffer()]; an error of
    multer goes to the error-handling middleware given last. *)
Definition avatar (env : Env) (sharp_png : string -> Result string)
    (st : Store) (userId : ObjectId) (file : option UploadedFile.t) : Outcome :=
  match Upload.single file with
  | Throw error => reply st (status 400 (error_body (message error)))
  | Ok None => reply st (status 400 (message_body "Avatar is required."))
  | Ok (Some file) =>
      let handler : Result (Store * Response) :=
        passenger <- Passenger_findById env st userId ;;
        match passenger with
        | None => Ok (st, status 404 (error_body "Passenger not found"))
        | Some passenger =>
            buffer <- sharp_png (UploadedFile.buffer file) ;;
            let passenger :=
              set_avatar passenger
                (Some {| Avatar.data := buffer; Avatar.contentType := "image/png" |}) in
            st' <- save env st passenger ;;
            Ok (st', json (message_body "Avatar updated successfully"))
        end in
      match handler with
      | Ok (st', r) => reply st' r
      | Throw error => reply st (status 400 (error_body (message error)))
      end
  end.

(* ================================================================== *)
(** ** Further observations *)
(* ================================================================== *)

(** The e-mails of all identities, passengers first. *)
Definition emails (st : Store) : list string :=
  (map Passenger.email (passengers st) ++ map Driver.email (drivers st))%list.

(** A registration body with its four fields trimmed. *)
Definition trimmed (req : RegisterBody.t) : RegisterBody.t :=
  {| RegisterBody.email := JsString.trim (RegisterBody.email req);
     RegisterBody.password := JsString.trim (RegisterBody.password req);
     RegisterBody.name := JsString.trim (RegisterBody.name req);
     RegisterBody.phonenumber := JsString.trim (RegisterBody.phonenumber req) |}.

(** The passenger that [POST /register] makes from a body and the hash of
    its password. *)
Definition registered (env : Env) (req : RegisterBody.t) (hashPassword : string)
  : Passenger.t :=
  {| Passenger._id := new_object_id env;
     Passenger.email := JsString.trim (RegisterBody.email req);
     Passenger.password := hashPassword;
     Passenger.name := JsString.trim (RegisterBody.name req);
     Passenger.phonenumber := JsString.trim (RegisterBody.phonenumber req);
     Passenger.avatar := None |}.

(** The answer of a successful registration. *)
Definition registration_succeeded (p : Passenger.t) : Response :=
  json (VObj [ ("status", VStr "SUCCESS");
               ("message", VStr "Registration Successfully");
               ("data", VObj (Passenger._doc p)) ]).

(** The characters of an e-mail other than the at sign: [\w], [-] and [.]. *)
Definition address_char (c : ascii) : bool :=
  RegExp.word c || RegExp.chr "-"%char c || RegExp.chr "."%char c.

(** Every character class of a pattern lies within [q]. *)
Fixpoint classes_within (q : ascii -> bool) (r : RegExp.regex) : Prop :=
  match r with
  | RegExp.Empty | RegExp.Eps => True
  | RegExp.Class p => forall c, p c = true -> q c = true
  | RegExp.Cat r1 r2 | RegExp.Alt r1 r2 => classes_within q r1 /\ classes_within q r2
  | RegExp.Star r1 => classes_within q r1
  end.

(** The messages of the failure answers that [POST /signin] gives. *)
Definition signin_failures : list string :=
  [ "Empty input";
    "Wrong password";
    "Error Occur when trying to check for password";
    "No existing User with input email" ].

(** The answer of a successful sign-in with the passengers found. *)
Definition signed_in (data : list Passenger.t) (userId : ObjectId) : Response :=
  json (VObj [ ("status", VStr "Success");
               ("message", VStr "User Successfully logged in");
               ("data", VArr (map (fun p => VObj (Passenger._doc p)) data));
               ("token", VJwt [ ("userId", VId userId) ] "24h") ]).

(** The five reasons for which [PUT /update] stores nothing: the database
    does not answer, the passenger is unknown, the submitted e-mail differs
    from the current one and is in use, bcrypt fails on the new password, or
    the save fails. *)
Definition update_refused (env : Env) (st : Store) (userId : ObjectId)
    (req : UpdateBody.t) : Prop :=
  db_read_error env <> None \/
  find (fun p => Nat.eqb (Passenger._id p) userId) (passengers st) = None \/
  (exists user e,
     find (fun p => Nat.eqb (Passenger._id p) userId) (passengers st) = Some user /\
     given (UpdateBody.email req) = Some e /\
     e <> Passenger.email user /\ email_in_use st e = true) \/
  (exists p err,
     given (UpdateBody.newPassword req) = Some p /\ bcrypt_hash env p = Throw err) \/
  db_save_error env <> None.

(** The join requests of a passenger, in stored order. *)
Definition requests_of (st : Store) (passengerId : ObjectId) : list JoinRequest.t :=
  filter (fun r => Nat.eqb (JoinRequest.passengerId r) passengerId) (joinRequests st).

(** What the view [v] of the join request [r] against the driver post [p]
    holds: the post's identifier and route members, the request's status
    and, for an accepted request, the post's four contact members. *)
Definition view_of (r : JoinRequest.t) (p : DriverPost.t) (v : Obj) : Prop :=
  obj_get "postId" v = VId (JoinRequest.driverPostId r) /\
  obj_get "status" v = VStr (JoinRequest.status r) /\
  obj_get "startingLocation" v = DriverPost.startingLocation p /\
  obj_get "endingLocation" v = DriverPost.endingLocation p /\
  obj_get "startTime" v = DriverPost.startTime p /\
  obj_get "additionalNotes" v = DriverPost.additionalNotes p /\
  obj_get "numberOfSeats" v = DriverPost.numberOfSeats p /\
  (JoinRequest.status r = "accepted" ->
   obj_get "licensenumber" v = DriverPost.licensenumber p /\
   obj_get "model" v = DriverPost.model p /\
   obj_get "phonenumber" v = DriverPost.phonenumber p /\
   obj_get "email" v = DriverPost.email p).

(** The elements of an answer whose body is an array. *)
Definition answer_array (r : Response) : list Value :=
  match body r with
  | VArr l => l
  | _ => []
  end.

(** The avatar that [POST /avatar] stores for the bytes [sharp] returns. *)
Definition png_avatar (buffer : string) : Avatar.t :=
  {| Avatar.data := buffer; Avatar.contentType := "image/png" |}.

(** The status member of an answer's body, when it has one. *)
Definition answer_status (r : Response) : Value :=
  match body r with
  | VObj o => obj_get "status" o
  | _ => VUndefined
  end.

(** The token member of an answer's body, when it has one. *)
Definition answer_token (r : Response) : Value :=
  match body r with
  | VObj o => obj_get "token" o
  | _ => VUndefined
  end.

(* ================================================================== *)
(** ** Request bodies as the body parser hands them over *)
(* ================================================================== *)

Module Json.

(** A value of a parsed JSON body.  A number is an integer here; in what
    follows a fractional number is handled like any non-zero one. *)
Inductive t : Type :=
| JNull : t
| JBool : bool -> t
| JNum : Z -> t
| JStr : string -> t
| JArr : list t -> t
| JObj : list (string * t) -> t.

(** [req.body]: the members of the parsed object. *)
Definition fields : Type := list (string * t).

(** [body[k]], [None] standing for [undefined]. *)
Fixpoint get (k : string) (o : fields) : option t :=
  match o with
  | [] => None
  | (k', v) :: o' => if k =? k' then Some v else get k o'
  end.

(** [if (v)]: [undefined], [null], [false], zero and the empty string are
    falsy, every array and object is truthy. *)
Definition truthy (v : option t) : bool :=
  match v with
  | None => false
  | Some JNull => false
  | Some (JBool b) => b
  | Some (JNum n) => negb (n =? 0)%Z
  | Some (JStr s) => JsString.truthy s
  | Some (JArr _) => true
  | Some (JObj _) => true
  end.

(** [x.trim()] for the variable [x] holding [v]: only a string has the
    method; reading it off [undefined] or [null] throws, and calling what
    any other value has under that name throws too. *)
Definition trim (x : string) (v : option t) : Result string :=
  match v with
  | Some (JStr s) => Ok (JsString.trim s)
  | None => Throw (TypeError "Cannot read properties of undefined (reading 'trim')")
  | Some JNull => Throw (TypeError "Cannot read properties of null (reading 'trim')")
  | Some _ => Throw (TypeError (x ++ ".trim is not a function"))
  end.

(** [v !== s] for a string [s]: values of another type always differ. *)
Definition differs (v : option t) (s : string) : bool :=
  match v with
  | Some (JStr s') => negb (s' =? s)
  | _ => true
  end.

(** The string a field holds, if it holds one. *)
Definition string_field (k : string) (o : fields) : option string :=
  match get k o with
  | Some (JStr s) => Some s
  | _ => None
  end.

(** A field as [UpdateBody.t] has it: a string, or nothing when the value
    is falsy; a truthy value that is not a string has no such reading. *)
Definition typed (v : option t) : option (option string) :=
  match v with
  | Some (JStr s) => Some (Some s)
  | _ => if truthy v then None else Some None
  end.

End Json.

(** What becomes of a request in a handler that has no [try] around its
    body: the handler answers, or it throws before any answer. *)
Inductive Handled : Type :=
| Answered : Outcome -> Handled
| Thrown : Error -> Handled.

(** The status the client sees.  Express catches what a route handler
    throws and hands it to the error handling; the router installs none for
    these routes and the application's is not among the sources, Express's
    own answers with status 500. *)
Definition status_code (h : Handled) : nat :=
  match h with
  | Answered o => code (response o)
  | Thrown _ => 500
  end.

Definition store_after (st : Store) (h : Handled) : Store :=
  match h with
  | Answered o => store o
  | Thrown _ => st
  end.

(** [POST /register] from [req.body].  The four [.trim()] calls that open
    the handler run on whatever the body holds; once they have returned, the
    handler goes on as [register] does, whose own trimming leaves trimmed
    strings as they are. *)
Definition register_request (env : Env) (st : Store) (body : Json.fields) : Handled :=
  let email := Json.get "email" body in
  let password := Json.get "password" body in
  let name := Json.get "name" body in
  let phonenumber := Json.get "phonenumber" body in
  let trimmed : Result RegisterBody.t :=
    email <- Json.trim "email" email ;;
    password <- Json.trim "password" password ;;
    name <- Json.trim "name" name ;;
    phonenumber <- Json.trim "phonenumber" phonenumber ;;
    Ok {| RegisterBody.email := email; RegisterBody.password := password;
          RegisterBody.name := name; RegisterBody.phonenumber := phonenumber |} in
  match trimmed with
  | Ok fields => Answered (register env st fields)
  | Throw e => Thrown e
  end.

(** The registration body whose four fields are strings. *)
Definition register_typed (body : Json.fields) : option RegisterBody.t :=
  match Json.string_field "email" body, Json.string_field "password" body,
        Json.string_field "name" body, Json.string_field "phonenumber" body with
  | Some email, Some password, Some name, Some phonenumber =>
      Some {| RegisterBody.email := email; RegisterBody.password := password;
              RegisterBody.name := name; RegisterBody.phonenumber := phonenumber |}
  | _, _, _, _ => None
  end.

(** [POST /signin] from [req.body], in the same way. *)
Definition signin_request (env : Env) (st : Store) (body : Json.fields) : Handled :=
  let email := Json.get "email" body in
  let password := Json.get "password" body in
  let trimmed : Result SigninBody.t :=
    email <- Json.trim "email" email ;;
    password <- Json.trim "password" password ;;
    Ok {| SigninBody.email := email; SigninBody.password := password |} in
  match trimmed with
  | Ok fields => Answered (signin env st fields)
  | Throw e => Thrown e
  end.

Definition signin_typed (body : Json.fields) : option SigninBody.t :=
  match Json.string_field "email" body, Json.string_field "password" body with
  | Some email, Some password =>
      Some {| SigninBody.email := email; SigninBody.password := password |}
  | _, _ => None
  end.

(** [if (x) user.x = x.trim()] *)
Definition assign (set : Passenger.t -> string -> Passenger.t) (x : string)
    (v : option Json.t) (user : Passenger.t) : Result Passenger.t :=
  if Json.truthy v then
    s <- Json.trim x v ;;
    Ok (set user s)
  else Ok user.

(** [emailExistsInBoth(email)] for whatever the body holds.  What Mongoose
    makes of a filter whose [email] is not a string (a cast, a query
    operator, a CastError) depends on the schemas, which are not among the
    sources; [other] stands for it. *)
Definition emailExistsInBoth_of (env : Env) (st : Store)
    (other : option Json.t -> Result bool) (email : option Json.t) : Result bool :=
  match email with
  | Some (Json.JStr s) => emailExistsInBoth env st s
  | v => other v
  end.

(** [bcrypt.hash(data, 10)] for whatever the body holds: the package
    rejects data that is neither a string nor a Buffer. *)
Definition bcrypt_hash_of (env : Env) (data : option Json.t) : Result string :=
  match data with
  | Some (Json.JStr s) => bcrypt_hash env s
  | _ =>
      Throw (Failure ("data must be a string or Buffer and salt must either be "
                        ++ "a salt string or a number of rounds"))
  end.

(** The e-mail block of [PUT /update]; [inl] is its early return. *)
Definition email_block (env : Env) (st : Store) (other : option Json.t -> Result bool)
    (email : option Json.t) (user : Passenger.t) : Result (Response + Passenger.t) :=
  if Json.truthy email && Json.differs email (Passenger.email user) then
    emailTaken <- emailExistsInBoth_of env st other email ;;
    if emailTaken then
      Ok (inl (status 400 (message_body "Email already in use")))
    else
      s <- Json.trim "email" email ;;
      Ok (inr (set_email user s))
  else Ok (inr user).

(** The password block of [PUT /update]. *)
Definition password_block (env : Env) (newPassword : option Json.t) (user : Passenger.t)
  : Result Passenger.t :=
  if Json.truthy newPassword then
    hashPassword <- bcrypt_hash_of env newPassword ;;
    Ok (set_password user hashPassword)
  else Ok user.

(** [PUT /update] from [req.body], after [authenticateToken]: the handler
    of [update], its four fields being whatever the body holds. *)
Definition update_request (env : Env) (other : option Json.t -> Result bool)
    (st : Store) (userId : ObjectId) (body : Json.fields) : Outcome :=
  let name := Json.get "name" body in
  let phonenumber := Json.get "phonenumber" body in
  let email := Json.get "email" body in
  let newPassword := Json.get "newPassword" body in
  let handler : Result (Store * Response) :=
    user <- Passenger_findById env st userId ;;
    match user with
    | None => Ok (st, status 404 (message_body "User not found"))
    | Some user =>
        user <- assign set_name "name" name user ;;
        user <- assign set_phonenumber "phonenumber" phonenumber user ;;
        checked <- email_block env st other email user ;;
        match checked with
        | inl early => Ok (st, early)
        | inr user =>
            user <- password_block env newPassword user ;;
            st' <- save env st user ;;
            Ok (st', status 200 (VObj (object
                   [ Field "status" (VStr "SUCCESS");
                     Field "message" (VStr "Profile updated successfully");
                     Field "data" (VObj (Passenger._doc user)) ])))
        end
    end in
  match handler with
  | Ok (st', r) => reply st' r
  | Throw err => reply st (status 500 (message_body (message err)))
  end.

(** The update body whose four fields are strings or falsy. *)
Definition update_typed (body : Json.fields) : option UpdateBody.t :=
  match Json.typed (Json.get "name" body), Json.typed (Json.get "phonenumber" body),
        Json.typed (Json.get "email" body), Json.typed (Json.get "newPassword" body) with
  | Some name, Some phonenumber, Some email, Some newPassword =>
      Some {| UpdateBody.name := name; UpdateBody.phonenumber := phonenumber;
              UpdateBody.email := email; UpdateBody.newPassword := newPassword |}
  | _, _, _, _ => None
  end.

(* ================================================================== *)
(** ** Requests that overlap *)
(* ================================================================== *)

(** [POST /register] when other requests run while it waits.  The
    existence check, [bcrypt.hash] and [save] are separate asynchronous
    steps: the check reads the store as it is then, [st_check]; by the time
    the handler is through the other requests have left [st_save], to which
    its own save, if any, appends.  With [st_check] and [st_save] the same
    store this is [register]. *)
Definition register_interleaved (env : Env) (st_check st_save : Store)
    (body : RegisterBody.t) : Outcome :=
  let email := JsString.trim (RegisterBody.email body) in
  let password := JsString.trim (RegisterBody.password body) in
  let name := JsString.trim (RegisterBody.name body) in
  let phonenumber := JsString.trim (RegisterBody.phonenumber body) in
  if (email =? "") || (password =? "") || (name =? "") || (phonenumber =? "") then
    reply st_save (json (failed "Empty Input for some fields"))
  else if negb (RegExp.test RegExp.email_re email) then
    reply st_save (json (failed "Invalid Email"))
  else if negb (RegExp.test RegExp.name_re name) then
    reply st_save (json (failed "Invalid Name"))
  else if negb (RegExp.test RegExp.phone_re phonenumber) then
    reply st_save (json (failed "Invalid PhoneNumber"))
  else if (String.length password <? 8)%nat then
    reply st_save (json (failed "Invalid Password"))
  else
    match emailExistsInBoth env st_check email with
    | Ok emailExists =>
        if emailExists then
          reply st_save (json (failed duplicate_email_message))
        else
          match bcrypt_hash env password with
          | Ok hashPassword =>
              let newPassenger :=
                {| Passenger._id := new_object_id env;
                   Passenger.email := email;
                   Passenger.password := hashPassword;
                   Passenger.name := name;
                   Passenger.phonenumber := phonenumber;
                   Passenger.avatar := None |} in
              match save_new env st_save newPassenger with
              | Ok st' =>
                  reply st'
                    (json (VObj (object
                       [ Field "status" (VStr "SUCCESS");
                         Field "message" (VStr "Registration Successfully");
                         Field "data" (VObj (Passenger._doc newPassenger)) ])))
              | Throw _ =>
                  reply st_save (json (failed "Error Occur when trying to save user account"))
              end
          | Throw _ =>
              reply st_save (json (failed "Error Occur when hashing password"))
          end
    | Throw err =>
        {| store := st_save;
           response := json (failed "Error Occur when trying to check for existing User");
           console := [LogError "" err] |}
    end.

(** [POST /google-signup] when other requests run while it waits, in the
    same way: [emailExistsInBoth] reads [st_check], [user.save()] appends to
    [st_save]. *)
Definition google_signup_interleaved (env : Env) (st_check st_save : Store)
    (token : string) : Outcome :=
  let handler : Result (Store * Response) :=
    payload <- verifyGoogleToken env token ;;
    let email := fst payload in
    let name := snd payload in
    user <- emailExistsInBoth env st_check email ;;
    created <-
      (if negb user then
         hashed <- bcrypt_hash env (math_random env) ;;
         let user :=
           {| Passenger._id := new_object_id env;
              Passenger.email := email;
              Passenger.password := hashed;
              Passenger.name := name;
              Passenger.phonenumber := "";
              Passenger.avatar := None |} in
         st' <- save_new env st_save user ;;
         Ok (st', VObj (Passenger._doc user))
       else
         Ok (st_save, VBool user)) ;;
    let st' := fst created in
    let user := snd created in
    userId <- member user "_id" ;;
    let authToken := jwt_sign (object [ Field "userId" userId ]) "24h" in
    Ok (st', status 200 (VObj (object
           [ Field "message" (VStr "User authenticated successfully");
             Field "token" authToken;
             Field "user" user ]))) in
  match handler with
  | Ok (st', r) => reply st' r
  | Throw error =>
      {| store := st_save;
         response := status 500 (message_body "Internal server error");
         console := [LogError "Error verifying Google token:" error] |}
  end.

(* ================================================================== *)
(** ** What a view gives away *)
(* ================================================================== *)

(** The contact or vehicle member of a driver post under the key [k]. *)
Definition contact_member (p : DriverPost.t) (k : string) : Value :=
  if k =? "licensenumber" then DriverPost.licensenumber p
  else if k =? "model" then DriverPost.model p
  else if k =? "phonenumber" then DriverPost.phonenumber p
  else if k =? "email" then DriverPost.email p
  else VUndefined.

(** The member [k] of [v] reaches the client: [res.json] leaves out the
    members whose value is [undefined]. *)
Definition sent (k : string) (v : Obj) : bool :=
  has_key k v &&
  match obj_get k v with
  | VUndefined => false
  | _ => true
  end.

(** The value [x] is the view of the stored join request [r]: an object
    made from the driver post that [r] references, carrying the status
    stored in [r] and the route members always, and each contact member if
    and only if the stored status of [r] is [accepted], then with the
    post's value. *)
Definition discloses (st : Store) (r : JoinRequest.t) (x : Value) : Prop :=
  exists p v,
    x = VObj v /\
    In p (driverPosts st) /\
    DriverPost._id p = JoinRequest.driverPostId r /\
    view_of r p v /\
    (forall k, In k route_keys -> has_key k v = true) /\
    (forall k, In k contact_keys ->
       (has_key k v = true <-> JoinRequest.status r = "accepted") /\
       (JoinRequest.status r = "accepted" -> obj_get k v = contact_member p k) /\
       (sent k v = true <->
        JoinRequest.status r = "accepted" /\ contact_member p k <> VUndefined)).

(** Closes a branch of [register] that answers [json (failed m)] with [m]
    one of the listed messages. *)
Ltac listed_failure :=
  split; [reflexivity | left; eexists; split; [|reflexivity]; simpl; tauto].

(* ================================================================== *)
(** ** Checks of the embedding on concrete inputs *)
(* ================================================================== *)

Example trim_both_ends : JsString.trim "  ab c	 " = "ab c".
Proof. reflexivity. Qed.

Example trim_blank : JsString.trim "   " = "".
Proof. reflexivity. Qed.

Example email_re_accepts : RegExp.test RegExp.email_re "a.b-c@mail.x.info" = true.
Proof. reflexivity. Qed.

Example email_re_short_tld : RegExp.test RegExp.email_re "a@b.c" = false.
Proof. reflexivity. Qed.

Example email_re_long_tld : RegExp.test RegExp.email_re "a@b.comms" = false.
Proof. reflexivity. Qed.

Example phone_re_accepts : RegExp.test RegExp.phone_re "1234567890" = true.
Proof. reflexivity. Qed.

Example phone_re_nine_digits : RegExp.test RegExp.phone_re "123456789" = false.
Proof. reflexivity. Qed.

Example name_re_accepts_empty : RegExp.test RegExp.name_re "" = true.
Proof. reflexivity. Qed.

(** The scenario of the specification: a first registration succeeds. *)
Example register_alice :
  register Sample.env (with_passengers Sample.st [])
    {| RegisterBody.email := "a@b.com"; RegisterBody.password := "password1";
       RegisterBody.name := "Alice"; RegisterBody.phonenumber := "1234567890" |}
  = let alice :=
      {| Passenger._id := 100; Passenger.email := "a@b.com";
         Passenger.password := "$2b$10$password1"; Passenger.name := "Alice";
         Passenger.phonenumber := "1234567890"; Passenger.avatar := None |} in
    reply (with_passengers Sample.st [alice])
      (json (VObj [ ("status", VStr "SUCCESS");
                    ("message", VStr "Registration Successfully");
                    ("data", VObj (Passenger._doc alice)) ])).
Proof. reflexivity. Qed.

(** The scenario of the specification: one pending and one accepted request
    give two entries, and only the accepted one has the contact members. *)
Example my_join_requests_alice :
  my_join_requests Sample.env Sample.st 1 =
    reply Sample.st
      (json (VArr
         [ VObj Sample.pending_view;
           VObj [ ("postId", VId 11); ("startingLocation", VStr "UCLA");
                  ("endingLocation", VStr "SFO");
                  ("startTime", VStr "2024-03-01T08:00:00.000Z");
                  ("status", VStr "accepted"); ("additionalNotes", VStr "no pets");
                  ("numberOfSeats", VNum 3); ("licensenumber", VStr "7ABC123");
                  ("model", VStr "Civic"); ("phonenumber", VStr "5559998888");
                  ("email", VStr "dave@cars.io") ] ])).
Proof. reflexivity. Qed.

(** A successful sign-in carries the token signed over the identifier. *)
Example signin_alice :
  body (response (signin Sample.env Sample.st
                    {| SigninBody.email := " a@b.com"; SigninBody.password := "password1 " |}))
  = VObj [ ("status", VStr "Success");
           ("message", VStr "User Successfully logged in");
           ("data", VArr [ VObj (Passenger._doc Sample.alice) ]);
           ("token", VJwt [ ("userId", VId 1) ] "24h") ].
Proof. reflexivity. Qed.

(* ================================================================== *)
(** ** Lemmas on objects and on the exception monad *)
(* ================================================================== *)

Lemma mapM_ok_In {A B : Type} (f : A -> Result B) (l : list A) (bs : list B) (b : B) :
  mapM f l = Ok bs -> In b bs -> exists a, In a l /\ f a = Ok b.
Proof.
  revert bs. induction l as [|a l IH]; intros bs Hm Hin; simpl in Hm.
  - inversion Hm; subst. contradiction.
  - destruct (f a) as [b0|e] eqn:Ea; simpl in Hm; [|discriminate].
    destruct (mapM f l) as [bs0|e] eqn:El; simpl in Hm; [|discriminate].
    inversion Hm; subst. destruct Hin as [<-|Hin].
    + exists a. split; [left; reflexivity | assumption].
    + destruct (IH bs0 eq_refl Hin) as [a' [Ha' Hf]].
      exists a'. split; [right; assumption | assumption].
Qed.

Lemma mapM_throw_In {A B : Type} (f : A -> Result B) (l : list A) (a : A) (e : Error) :
  In a l -> f a = Throw e -> exists e', mapM f l = Throw e'.
Proof.
  induction l as [|a0 l IH]; intros Hin Hf; [contradiction|].
  simpl. destruct (f a0) as [b0|e0] eqn:E0; simpl.
  - destruct Hin as [->|Hin]; [congruence|].
    destruct (IH Hin Hf) as [e' ->]. exists e'. reflexivity.
  - exists e0. reflexivity.
Qed.

Lemma mapM_all_ok {A B : Type} (f : A -> Result B) (l : list A) :
  (forall a, In a l -> exists b, f a = Ok b) -> exists bs, mapM f l = Ok bs.
Proof.
  induction l as [|a l IH]; intros H; simpl.
  - exists []. reflexivity.
  - destruct (H a (or_introl eq_refl)) as [b ->]. simpl.
    destruct IH as [bs ->]; [intros; apply H; right; assumption|].
    exists (b :: bs). reflexivity.
Qed.

(** The shape of a view: the seven unconditional members, then the four
    contact members exactly when the status is the string [accepted]. *)
Lemma rideshareDetails_ok (request : JoinRequest.populated) (v : Obj) :
  rideshareDetails request = Ok v ->
  exists p,
    JoinRequest.p_driverPostId request = Some p /\
    v = ([ ("postId", VId (DriverPost._id p));
           ("startingLocation", DriverPost.startingLocation p);
           ("endingLocation", DriverPost.endingLocation p);
           ("startTime", DriverPost.startTime p);
           ("status", VStr (JoinRequest.p_status request));
           ("additionalNotes", DriverPost.additionalNotes p);
           ("numberOfSeats", DriverPost.numberOfSeats p) ]
         ++ if JoinRequest.p_status request =? "accepted"
            then [ ("licensenumber", DriverPost.licensenumber p);
                   ("model", DriverPost.model p);
                   ("phonenumber", DriverPost.phonenumber p);
                   ("email", DriverPost.email p) ]
            else [])%list.
Proof.
  unfold rideshareDetails. intros H.
  destruct (JoinRequest.p_driverPostId request) as [p|]; [|discriminate].
  exists p. split; [reflexivity|].
  inversion H as [Hv]. clear H Hv.
  destruct (JoinRequest.p_status request =? "accepted"); reflexivity.
Qed.

Lemma userProfile_get (user : Passenger.t) (a rs pp : Value) :
  obj_get "rideshares" (userProfile user a rs pp) = rs /\
  obj_get "avatar" (userProfile user a rs pp) = a /\
  obj_get "_id" (userProfile user a rs pp) = VId (Passenger._id user) /\
  obj_get "email" (userProfile user a rs pp) = VStr (Passenger.email user) /\
  obj_get "name" (userProfile user a rs pp) = VStr (Passenger.name user) /\
  obj_get "phonenumber" (userProfile user a rs pp) = VStr (Passenger.phonenumber user) /\
  obj_get "password" (userProfile user a rs pp) = VStr (Passenger.password user) /\
  has_key "password" (userProfile user a rs pp) = true.
Proof.
  unfold userProfile, Passenger._doc.
  destruct (Passenger.avatar user); repeat split; reflexivity.
Qed.

Lemma view_keys (request : JoinRequest.populated) (v : Obj) :
  rideshareDetails request = Ok v ->
  obj_get "status" v = VStr (JoinRequest.p_status request) /\
  (forall k, In k route_keys -> has_key k v = true) /\
  (forall k, In k contact_keys ->
     has_key k v = (JoinRequest.p_status request =? "accepted")).
Proof.
  intros H. destruct (rideshareDetails_ok _ _ H) as [p [_ ->]].
  split; [reflexivity|]. split.
  - intros k Hk. simpl in Hk.
    repeat (destruct Hk as [<-|Hk]; [reflexivity|]). contradiction.
  - intros k Hk. simpl in Hk.
    destruct (JoinRequest.p_status request =? "accepted");
      repeat (destruct Hk as [<-|Hk]; [reflexivity|]); contradiction.
Qed.

Lemma profile_views (env : Env) (st : Store) (userId : ObjectId) (x : Value) :
  In x (profile_rideshares (response (profile env st userId))) ->
  exists request v, rideshareDetails request = Ok v /\ x = VObj v.
Proof.
  unfold profile, Passenger_findById, joinRequest_find_populate,
    Passengerpost_find, query.
  destruct (db_read_error env); simpl; [contradiction|].
  destruct (find _ (passengers st)) as [user|]; simpl; [|contradiction].
  destruct (mapM rideshareDetails _) as [rideshares|e] eqn:Em; simpl;
    [|contradiction].
  match goal with
  | |- context [userProfile user ?a ?r ?p] =>
      unfold profile_rideshares; cbv beta iota delta [body json];
      destruct (userProfile_get user a r p) as [-> _]
  end.
  intros Hin. apply in_map_iff in Hin. destruct Hin as [v [<- Hv]].
  destruct (mapM_ok_In _ _ _ _ Em Hv) as [request [_ Hr]].
  exists request, v. split; [assumption | reflexivity].
Qed.

Lemma listing_views (env : Env) (st : Store) (passengerId : ObjectId) (x : Value) :
  In x (listing_rideshares (response (my_join_requests env st passengerId))) ->
  exists request v, rideshareDetails request = Ok v /\ x = VObj v.
Proof.
  unfold my_join_requests, joinRequest_find_populate, query.
  destruct (db_read_error env); simpl; [contradiction|].
  destruct (mapM rideshareDetails _) as [rideshares|e] eqn:Em; simpl;
    [|contradiction].
  intros Hin. apply in_map_iff in Hin. destruct Hin as [v [<- Hv]].
  destruct (mapM_ok_In _ _ _ _ Em Hv) as [request [_ Hr]].
  exists request, v. split; [assumption | reflexivity].
Qed.

(* ================================================================== *)
(** ** Status-gated disclosure *)
(* ================================================================== *)

(** A view read on its own: every join-request view returned by the
    passenger profile aggregation or by the my-join-requests listing is an
    object that always has the route, time, seat-count, additional-notes
    and status members, and has each of the four contact and vehicle
    members if and only if its own status member is the string [accepted].
    How the view relates to the stored join request is the matter of
    [discloses]. *)
Lemma rideshare_contact_fields_iff_accepted
    (env : Env) (st : Store) (userId : ObjectId) (x : Value) :
  In x (profile_rideshares (response (profile env st userId))) \/
  In x (listing_rideshares (response (my_join_requests env st userId))) ->
  exists v,
    x = VObj v /\
    (forall k, In k route_keys -> has_key k v = true) /\
    (forall k, In k contact_keys ->
       (has_key k v = true <-> obj_get "status" v = VStr "accepted")) /\
    (obj_get "status" v <> VStr "accepted" ->
       forall k, In k contact_keys -> has_key k v = false).
Proof.
  intros H.
  assert (Hv : exists request v, rideshareDetails request = Ok v /\ x = VObj v).
  { destruct H as [H|H]; [eapply profile_views | eapply listing_views]; eassumption. }
  destruct Hv as [request [v [Hr ->]]].
  destruct (view_keys _ _ Hr) as [Hs [Hroute Hcontact]].
  exists v. split; [reflexivity|]. split; [assumption|]. rewrite Hs. split.
  - intros k Hk. rewrite (Hcontact k Hk). split.
    + intros E. apply String.eqb_eq in E. rewrite E. reflexivity.
    + intros E. inversion E as [E']. apply String.eqb_refl.
  - intros Hne k Hk. rewrite (Hcontact k Hk).
    apply String.eqb_neq. intros E. apply Hne. rewrite E. reflexivity.
Qed.

(** Alice's pending request is in her profile and carries no contact key. *)
Lemma rideshare_contact_fields_iff_accepted_witness :
  exists v,
    VObj Sample.pending_view = VObj v /\
    (forall k, In k route_keys -> has_key k v = true) /\
    (forall k, In k contact_keys ->
       (has_key k v = true <-> obj_get "status" v = VStr "accepted")) /\
    (obj_get "status" v <> VStr "accepted" ->
       forall k, In k contact_keys -> has_key k v = false).
Proof.
  apply (rideshare_contact_fields_iff_accepted Sample.env Sample.st 1).
  left. vm_compute. left. reflexivity.
Defined.

(* ================================================================== *)
(** ** Dangling references *)
(* ================================================================== *)

Lemma populated_of_passenger (st : Store) (passengerId : ObjectId) (r : JoinRequest.t) :
  In r (joinRequests st) ->
  JoinRequest.passengerId r = passengerId ->
  In (populate st r)
     (map (populate st)
        (filter (fun r => Nat.eqb (JoinRequest.passengerId r) passengerId)
                (joinRequests st))).
Proof.
  intros Hin Hp. apply in_map. apply filter_In. split; [assumption|].
  apply Nat.eqb_eq. assumption.
Qed.

Lemma dangling_throws (st : Store) (passengerId : ObjectId) (r : JoinRequest.t) :
  dangling st passengerId r ->
  exists e,
    mapM rideshareDetails
      (map (populate st)
         (filter (fun r => Nat.eqb (JoinRequest.passengerId r) passengerId)
                 (joinRequests st))) = Throw e.
Proof.
  intros [Hin [Hp Hf]].
  apply mapM_throw_In
    with (a := populate st r)
         (e := TypeError "Cannot read properties of null (reading '_id')").
  - apply populated_of_passenger; assumption.
  - unfold rideshareDetails, populate. simpl. rewrite Hf. reflexivity.
Qed.

Lemma resolved_maps (st : Store) (passengerId : ObjectId) :
  (forall r, ~ dangling st passengerId r) ->
  exists vs,
    mapM rideshareDetails
      (map (populate st)
         (filter (fun r => Nat.eqb (JoinRequest.passengerId r) passengerId)
                 (joinRequests st))) = Ok vs.
Proof.
  intros Hnone. apply mapM_all_ok. intros a Ha.
  apply in_map_iff in Ha. destruct Ha as [r [<- Hr]].
  apply filter_In in Hr. destruct Hr as [Hin Hp]. apply Nat.eqb_eq in Hp.
  unfold rideshareDetails, populate. simpl.
  destruct (find _ (driverPosts st)) as [p|] eqn:Ef.
  - eexists. reflexivity.
  - exfalso. apply (Hnone r). repeat split; assumption.
Qed.

(** C3, as stated, fails: with one join request whose driver post was
    deleted and one valid accepted request, both routes answer 500 and
    return no entry at all. *)
Lemma dangling_reference_skipped_counterexample :
  dangling Sample.st_deleted 1 (Sample.request 20 1 10 "pending") /\
  my_join_requests Sample.env Sample.st_deleted 1 =
    {| store := Sample.st_deleted;
       response :=
         status 500
           (VObj [ ("message", VStr "Server error");
                   ("error", VStr "Cannot read properties of null (reading '_id')") ]);
       console :=
         [ LogError "" (TypeError "Cannot read properties of null (reading '_id')") ] |} /\
  profile Sample.env Sample.st_deleted 1 =
    {| store := Sample.st_deleted;
       response :=
         status 500
           (VObj [ ("message", VStr "Cannot read properties of null (reading '_id')") ]);
       console :=
         [ LogError "" (TypeError "Cannot read properties of null (reading '_id')") ] |}.
Proof.
  split; [|split]; [|reflexivity|reflexivity].
  unfold dangling. split; [left; reflexivity|]. split; reflexivity.
Qed.

(** C3, amended.  When one of a passenger's join requests references a
    driver post that does not resolve, the listing is aborted as a whole:
    the error is logged once, the answer has status 500 and carries the
    error's message, and no entry is returned.  [GET /profile] does the same
    for a passenger that exists. *)
Theorem dangling_reference_aborts_listing
    (env : Env) (st : Store) (passengerId : ObjectId) (r : JoinRequest.t) :
  dangling st passengerId r ->
  (exists e,
     my_join_requests env st passengerId =
       {| store := st;
          response := status 500 (VObj [ ("message", VStr "Server error");
                                         ("error", VStr (message e)) ]);
          console := [ LogError "" e ] |}) /\
  (forall user,
     find (fun p => Nat.eqb (Passenger._id p) passengerId) (passengers st) = Some user ->
     exists e,
       profile env st passengerId =
         {| store := st;
            response := status 500 (VObj [ ("message", VStr (message e)) ]);
            console := [ LogError "" e ] |}).
Proof.
  intros Hd. destruct (dangling_throws _ _ _ Hd) as [e He]. split.
  - unfold my_join_requests, joinRequest_find_populate, query.
    destruct (db_read_error env) as [m|]; simpl.
    + exists (Failure m). reflexivity.
    + rewrite He. simpl. exists e. reflexivity.
  - intros user Hu.
    unfold profile, Passenger_findById, joinRequest_find_populate, query.
    destruct (db_read_error env) as [m|]; simpl.
    + exists (Failure m). reflexivity.
    + rewrite Hu. simpl. rewrite He. simpl. exists e. reflexivity.
Qed.

Lemma dangling_reference_aborts_listing_witness :
  (exists e,
     my_join_requests Sample.env Sample.st_deleted 1 =
       {| store := Sample.st_deleted;
          response := status 500 (VObj [ ("message", VStr "Server error");
                                         ("error", VStr (message e)) ]);
          console := [ LogError "" e ] |}) /\
  (forall user,
     find (fun p => Nat.eqb (Passenger._id p) 1) (passengers Sample.st_deleted) = Some user ->
     exists e,
       profile Sample.env Sample.st_deleted 1 =
         {| store := Sample.st_deleted;
            response := status 500 (VObj [ ("message", VStr (message e)) ]);
            console := [ LogError "" e ] |}).
Proof.
  apply (dangling_reference_aborts_listing Sample.env Sample.st_deleted 1
           (Sample.request 20 1 10 "pending")).
  unfold dangling. split; [left; reflexivity|]. split; reflexivity.
Defined.

(* ================================================================== *)
(** ** The profile view *)
(* ================================================================== *)




(* ================================================================== *)
(** ** The matcher is correct; the name pattern *)
(* ================================================================== *)

Module RegExpFacts.
Import RegExp.

Lemma append_empty (s1 s2 : string) : s1 ++ s2 = "" -> s1 = "" /\ s2 = "".
Proof.
  destruct s1; simpl; intros H; [split; [reflexivity | exact H] | discriminate].
Qed.

Lemma nullable_lang (r : regex) : nullable r = true <-> lang r "".
Proof.
  induction r as [| |p|r1 IH1 r2 IH2|r1 IH1 r2 IH2|r IH]; simpl.
  - split; [discriminate | intros H; inversion H].
  - split; [intros _; constructor | reflexivity].
  - split; [discriminate | intros H; inversion H].
  - rewrite andb_true_iff, IH1, IH2. split.
    + intros [H1 H2]. change "" with ("" ++ ""). constructor; assumption.
    + intros H. inversion H as [| |a b s1 s2 H1 H2 E1 E2| | | |]; subst.
      apply append_empty in E2. destruct E2; subst. split; assumption.
  - rewrite orb_true_iff, IH1, IH2. split.
    + intros [H|H]; [apply lang_Alt_l | apply lang_Alt_r]; assumption.
    + intros H. inversion H; subst; [left | right]; assumption.
  - split; [intros _; constructor | reflexivity].
Qed.

(** A non-empty string of [r*] starts with a non-empty string of [r]. *)
Lemma lang_Star_cons (r : regex) (c : ascii) (s : string) :
  lang (Star r) (String c s) ->
  exists s1 s2, s = s1 ++ s2 /\ lang r (String c s1) /\ lang (Star r) s2.
Proof.
  intros H. remember (Star r) as r' eqn:Er. remember (String c s) as w eqn:Ew.
  revert c s Ew.
  induction H as [| | | | | |r0 s1 s2 H1 _ H2 IH2]; intros a w Ew;
    try discriminate.
  inversion Er; subst r0.
  destruct s1 as [|c1 s1]; simpl in Ew.
  - apply IH2; [reflexivity | assumption].
  - inversion Ew; subst. exists s1, s2. repeat split; assumption.
Qed.

Lemma deriv_lang (c : ascii) (r : regex) (s : string) :
  lang (deriv c r) s <-> lang r (String c s).
Proof.
  revert s.
  induction r as [| |p|r1 IH1 r2 IH2|r1 IH1 r2 IH2|r IH]; intros s; simpl.
  - split; intros H; inversion H.
  - split; intros H; inversion H.
  - destruct (p c) eqn:Ep; split; intros H.
    + inversion H; subst. constructor. assumption.
    + inversion H; subst. constructor.
    + inversion H.
    + inversion H; subst. congruence.
  - assert (Hcat : lang (Cat (deriv c r1) r2) s ->
                   lang (Cat r1 r2) (String c s)).
    { intros H. inversion H as [| |a b s1 s2 H1 H2 E1 E2| | | |]; subst.
      change (String c (s1 ++ s2)) with (String c s1 ++ s2).
      constructor; [apply IH1|]; assumption. }
    assert (Hinv : lang (Cat r1 r2) (String c s) ->
                   lang (Cat (deriv c r1) r2) s \/
                   (nullable r1 = true /\ lang (deriv c r2) s)).
    { intros H. inversion H as [| |a b s1 s2 H1 H2 E1 E2| | | |]; subst.
      destruct s1 as [|c1 s1]; simpl in E2.
      - right. subst s2. split; [apply nullable_lang | apply IH2]; assumption.
      - inversion E2; subst. left. constructor; [apply IH1|]; assumption. }
    destruct (nullable r1) eqn:En; split; intros H.
    + inversion H; subst; [apply Hcat; assumption|].
      change (String c s) with ("" ++ String c s).
      constructor; [apply nullable_lang | apply IH2]; assumption.
    + destruct (Hinv H) as [H'|[_ H']]; [apply lang_Alt_l | apply lang_Alt_r];
        assumption.
    + apply Hcat. assumption.
    + destruct (Hinv H) as [H'|[E _]]; [assumption | discriminate].
  - split; intros H.
    + inversion H; subst; [apply lang_Alt_l; apply IH1 | apply lang_Alt_r; apply IH2];
        assumption.
    + inversion H; subst; [apply lang_Alt_l; apply IH1 | apply lang_Alt_r; apply IH2];
        assumption.
  - split; intros H.
    + inversion H as [| |a b s1 s2 H1 H2 E1 E2| | | |]; subst.
      change (String c (s1 ++ s2)) with (String c s1 ++ s2).
      constructor; [apply IH|]; assumption.
    + destruct (lang_Star_cons _ _ _ H) as [s1 [s2 [-> [H1 H2]]]].
      constructor; [apply IH|]; assumption.
Qed.

(** The matcher decides membership in the language of the pattern. *)
Theorem matches_lang (r : regex) (s : string) : matches r s = true <-> lang r s.
Proof.
  revert r. induction s as [|c s IH]; intros r; simpl.
  - apply nullable_lang.
  - rewrite IH. apply deriv_lang.
Qed.

Lemma matches_Alt (r1 r2 : regex) (s : string) :
  matches (Alt r1 r2) s = matches r1 s || matches r2 s.
Proof.
  revert r1 r2. induction s as [|c s IH]; intros r1 r2; simpl.
  - reflexivity.
  - apply IH.
Qed.

Lemma matches_Cat_Empty (r : regex) (s : string) :
  matches (Cat Empty r) s = false.
Proof.
  induction s as [|c s IH]; simpl; [reflexivity | exact IH].
Qed.

Lemma matches_Cat_Eps (r : regex) (s : string) :
  matches (Cat Eps r) s = matches r s.
Proof.
  destruct s as [|c s]; simpl.
  - reflexivity.
  - rewrite matches_Alt, matches_Cat_Empty. reflexivity.
Qed.

(** [/^[class]*$/] holds of the strings whose characters are all in the
    class. *)
Lemma matches_Star_Class (p : ascii -> bool) (s : string) :
  matches (Star (Class p)) s = JsString.forallb p s.
Proof.
  induction s as [|c s IH]; simpl.
  - reflexivity.
  - destruct (p c); simpl.
    + rewrite matches_Cat_Eps. exact IH.
    + apply matches_Cat_Empty.
Qed.

Lemma forallb_ext (p q : ascii -> bool) (s : string) :
  (forall c, p c = q c) -> JsString.forallb p s = JsString.forallb q s.
Proof.
  intros H. induction s as [|c s IH]; simpl; [reflexivity|].
  rewrite H, IH. reflexivity.
Qed.

(** The class [[a-zA-z]] is the code range from [A] (65) to [z] (122). *)
Lemma name_class (c : ascii) :
  one_of [range "a"%char "z"%char; range "A"%char "z"%char] c = code_in 65 122 c.
Proof.
  unfold one_of, range, code_in. cbv [existsb].
  change (nat_of_ascii "a") with 97. change (nat_of_ascii "z") with 122.
  change (nat_of_ascii "A") with 65. rewrite orb_false_r.
  destruct (Nat.leb_spec 97 (nat_of_ascii c)), (Nat.leb_spec 65 (nat_of_ascii c)),
    (Nat.leb_spec (nat_of_ascii c) 122); simpl; try reflexivity; lia.
Qed.

Lemma name_re_spec (s : string) :
  test name_re s = JsString.forallb (code_in 65 122) s.
Proof.
  unfold test, name_re. rewrite matches_Star_Class.
  apply forallb_ext. exact name_class.
Qed.

End RegExpFacts.

(* ================================================================== *)
(** ** Registration *)
(* ================================================================== *)

Lemma is_some_find {A : Type} (f : A -> bool) (l : list A) :
  is_some (find f l) = List.existsb f l.
Proof.
  induction l as [|a l IH]; simpl; [reflexivity|].
  destruct (f a); simpl; [reflexivity | exact IH].
Qed.

Lemma emailExistsInBoth_ok (env : Env) (st : Store) (email : string) :
  db_read_error env = None ->
  emailExistsInBoth env st email = Ok (email_in_use st email).
Proof.
  intros Hdb. unfold emailExistsInBoth, Passenger_findOne, Driver_findOne, query.
  rewrite Hdb. simpl. rewrite !is_some_find. unfold email_in_use.
  destruct (_ || _); reflexivity.
Qed.

Lemma emailExistsInBoth_throw (env : Env) (st : Store) (email m : string) :
  db_read_error env = Some m ->
  emailExistsInBoth env st email = Throw (Failure m).
Proof.
  intros Hdb. unfold emailExistsInBoth, Passenger_findOne, query.
  rewrite Hdb. reflexivity.
Qed.

Lemma emailExistsInBoth_cases (env : Env) (st : Store) (email : string) :
  emailExistsInBoth env st email = Ok (email_in_use st email) \/
  exists m, emailExistsInBoth env st email = Throw (Failure m).
Proof.
  destruct (db_read_error env) as [m|] eqn:Hdb.
  - right. exists m. apply emailExistsInBoth_throw. assumption.
  - left. apply emailExistsInBoth_ok. assumption.
Qed.

(** Once the four fields have been read as strings, every outcome of a
    registration is answered with HTTP status 200: the answer is either the
    success object or a [FAILED] object whose message is one of the nine
    failure messages. *)
Lemma register_always_answers_200 (env : Env) (st : Store) (req : RegisterBody.t) :
  code (response (register env st req)) = 200 /\
  ((exists m, In m register_failures /\
            body (response (register env st req)) = failed m) \/
   (exists data,
    body (response (register env st req)) =
      VObj [ ("status", VStr "SUCCESS");
             ("message", VStr "Registration Successfully");
             ("data", data) ])).
Proof.
  unfold register.
  destruct (_ || _); [listed_failure|].
  destruct (negb _); [listed_failure|].
  destruct (negb _); [listed_failure|].
  destruct (negb _); [listed_failure|].
  destruct (_ <? _)%nat; [listed_failure|].
  destruct (emailExistsInBoth _ _ _) as [[|]|e]; [listed_failure| |listed_failure].
  destruct (bcrypt_hash env _) as [h|e]; [|listed_failure].
  destruct (save_new _ _ _) as [st'|e]; [|listed_failure].
  split; [reflexivity|]. right. eexists. reflexivity.
Qed.

(** The nine failures of [POST /register] all occur, each with status 200. *)
Lemma register_failures_all_occur (m : string) :
  In m register_failures ->
  exists env st req,
    response (register env st req) = {| code := 200; body := failed m |}.
Proof.
  intros Hm.
  pose (ok := {| RegisterBody.email := "carol@x.org"; RegisterBody.password := "password1";
                 RegisterBody.name := "Carol"; RegisterBody.phonenumber := "3105550000" |}).
  pose (hash_fails := {| db_read_error := None; db_save_error := None;
                         bcrypt_hash := fun _ => Throw (Failure "out of memory");
                         bcrypt_compare := bcrypt_compare Sample.env;
                         verifyGoogleToken := verifyGoogleToken Sample.env;
                         math_random := ""; new_object_id := 100;
                         base64 := fun s => s |}).
  pose (save_fails := {| db_read_error := None; db_save_error := Some "write failed";
                         bcrypt_hash := bcrypt_hash Sample.env;
                         bcrypt_compare := bcrypt_compare Sample.env;
                         verifyGoogleToken := verifyGoogleToken Sample.env;
                         math_random := ""; new_object_id := 100;
                         base64 := fun s => s |}).
  pose (read_fails := {| db_read_error := Some "connection lost"; db_save_error := None;
                         bcrypt_hash := bcrypt_hash Sample.env;
                         bcrypt_compare := bcrypt_compare Sample.env;
                         verifyGoogleToken := verifyGoogleToken Sample.env;
                         math_random := ""; new_object_id := 100;
                         base64 := fun s => s |}).
  simpl in Hm.
  destruct Hm as [<-|[<-|[<-|[<-|[<-|[<-|[<-|[<-|[<-|[]]]]]]]]]].
  + exists Sample.env, Sample.st,
      {| RegisterBody.email := "carol@x.org"; RegisterBody.password := "   ";
         RegisterBody.name := "Carol"; RegisterBody.phonenumber := "3105550000" |}.
    reflexivity.
  + exists Sample.env, Sample.st,
      {| RegisterBody.email := "carol.x.org"; RegisterBody.password := "password1";
         RegisterBody.name := "Carol"; RegisterBody.phonenumber := "3105550000" |}.
    reflexivity.
  + exists Sample.env, Sample.st,
      {| RegisterBody.email := "carol@x.org"; RegisterBody.password := "password1";
         RegisterBody.name := "Carol 2"; RegisterBody.phonenumber := "3105550000" |}.
    reflexivity.
  + exists Sample.env, Sample.st,
      {| RegisterBody.email := "carol@x.org"; RegisterBody.password := "password1";
         RegisterBody.name := "Carol"; RegisterBody.phonenumber := "310-555-0000" |}.
    reflexivity.
  + exists Sample.env, Sample.st,
      {| RegisterBody.email := "carol@x.org"; RegisterBody.password := "pass";
         RegisterBody.name := "Carol"; RegisterBody.phonenumber := "3105550000" |}.
    reflexivity.
  + exists Sample.env, Sample.st,
      {| RegisterBody.email := "dave@cars.io"; RegisterBody.password := "password1";
         RegisterBody.name := "Carol"; RegisterBody.phonenumber := "3105550000" |}.
    reflexivity.
  + exists hash_fails, Sample.st, ok. reflexivity.
  + exists save_fails, Sample.st, ok. reflexivity.
  + exists read_fails, Sample.st, ok. reflexivity.
Qed.




Lemma outside_A_z (c : ascii) :
  negb (is_letter c) && negb (between_Z_and_a c) = negb (RegExp.code_in 65 122 c).
Proof.
  unfold is_letter, between_Z_and_a, RegExp.range, RegExp.code_in.
  change (nat_of_ascii "a") with 97. change (nat_of_ascii "z") with 122.
  change (nat_of_ascii "A") with 65. change (nat_of_ascii "Z") with 90.
  destruct (Nat.leb_spec 97 (nat_of_ascii c)), (Nat.leb_spec 65 (nat_of_ascii c)),
    (Nat.leb_spec (nat_of_ascii c) 122), (Nat.leb_spec (nat_of_ascii c) 90),
    (Nat.leb_spec 91 (nat_of_ascii c)), (Nat.leb_spec (nat_of_ascii c) 96);
    simpl; try reflexivity; lia.
Qed.

Lemma forallb_false_of_existsb (p q : ascii -> bool) (s : string) :
  (forall c, q c = negb (p c)) ->
  JsString.existsb q s = true -> JsString.forallb p s = false.
Proof.
  intros Hq. induction s as [|c s IH]; simpl; [discriminate|].
  rewrite Hq. destruct (p c); simpl; [exact IH | reflexivity].
Qed.

Lemma name_re_rejects (name : string) :
  JsString.existsb (fun c => negb (is_letter c) && negb (between_Z_and_a c)) name = true ->
  RegExp.test RegExp.name_re name = false.
Proof.
  intros H. rewrite RegExpFacts.name_re_spec.
  apply forallb_false_of_existsb with (2 := H). exact outside_A_z.
Qed.

(** C6, as stated, fails twice.  A name with a digit next to a malformed
    e-mail is answered with the e-mail error, the check that comes first;
    and a name with an underscore passes the name pattern, whose second
    range runs from [A] to lower-case [z]: the passenger is created. *)
Lemma register_non_alphabetic_name_counterexample :
  (JsString.existsb (fun c => negb (is_letter c)) (JsString.trim "Al1ce") = true /\
   register Sample.env Sample.st
     {| RegisterBody.email := "alice-at-b.com"; RegisterBody.password := "password1";
        RegisterBody.name := "Al1ce"; RegisterBody.phonenumber := "1234567890" |}
   = reply Sample.st
       (json (VObj [ ("status", VStr "FAILED"); ("message", VStr "Invalid Email") ]))) /\
  (JsString.existsb (fun c => negb (is_letter c)) (JsString.trim "A_b") = true /\
   register Sample.env Sample.st
     {| RegisterBody.email := "carol@x.org"; RegisterBody.password := "password1";
        RegisterBody.name := "A_b"; RegisterBody.phonenumber := "3105550000" |}
   = let carol :=
       {| Passenger._id := 100; Passenger.email := "carol@x.org";
          Passenger.password := "$2b$10$password1"; Passenger.name := "A_b";
          Passenger.phonenumber := "3105550000"; Passenger.avatar := None |} in
     reply (with_passengers Sample.st [Sample.alice; Sample.bob; carol])
       (json (VObj [ ("status", VStr "SUCCESS");
                     ("message", VStr "Registration Successfully");
                     ("data", VObj (Passenger._doc carol)) ]))).
Proof.
  repeat split; reflexivity.
Qed.

(** C6, amended.  A registration whose trimmed name contains a character
    that is neither an alphabetic letter nor one of the six characters
    between [Z] and [a] always fails and creates no identity; its failure is
    [Invalid Name] whenever the four trimmed fields are non-empty and the
    trimmed e-mail is well formed.  (Nothing is said here of a name whose
    non-letters are all among those six characters.) *)
Theorem register_rejects_name_outside_A_z
    (env : Env) (st : Store) (req : RegisterBody.t) :
  JsString.existsb (fun c => negb (is_letter c) && negb (between_Z_and_a c))
    (JsString.trim (RegisterBody.name req)) = true ->
  store (register env st req) = st /\
  (exists m, response (register env st req) = json (failed m)) /\
  (JsString.trim (RegisterBody.email req) <> "" ->
   JsString.trim (RegisterBody.password req) <> "" ->
   JsString.trim (RegisterBody.name req) <> "" ->
   JsString.trim (RegisterBody.phonenumber req) <> "" ->
   RegExp.test RegExp.email_re (JsString.trim (RegisterBody.email req)) = true ->
   response (register env st req) = json (failed "Invalid Name")).
Proof.
  intros Hname. apply name_re_rejects in Hname. unfold register.
  set (email := JsString.trim (RegisterBody.email req)).
  set (password := JsString.trim (RegisterBody.password req)).
  set (name := JsString.trim (RegisterBody.name req)) in *.
  set (phonenumber := JsString.trim (RegisterBody.phonenumber req)).
  destruct (String.eqb_spec email "") as [He|He]; simpl;
    [split; [reflexivity | split; [eexists; reflexivity | intros; contradiction]]|].
  destruct (String.eqb_spec password "") as [Hp|Hp]; simpl;
    [split; [reflexivity | split; [eexists; reflexivity | intros; contradiction]]|].
  destruct (String.eqb_spec name "") as [Hn|Hn]; simpl;
    [split; [reflexivity | split; [eexists; reflexivity | intros; contradiction]]|].
  destruct (String.eqb_spec phonenumber "") as [Hph|Hph]; simpl;
    [split; [reflexivity | split; [eexists; reflexivity | intros; contradiction]]|].
  destruct (RegExp.test RegExp.email_re email); simpl;
    [|split; [reflexivity | split; [eexists; reflexivity | intros; discriminate]]].
  rewrite Hname. simpl.
  split; [reflexivity|]. split; [eexists|intros]; reflexivity.
Qed.

(** A name with a blank inside, all other fields well formed. *)
Lemma register_rejects_name_outside_A_z_witness :
  store (register Sample.env Sample.st
           {| RegisterBody.email := "carol@x.org"; RegisterBody.password := "password1";
              RegisterBody.name := "Mary Ann"; RegisterBody.phonenumber := "3105550000" |})
    = Sample.st /\
  response (register Sample.env Sample.st
              {| RegisterBody.email := "carol@x.org"; RegisterBody.password := "password1";
                 RegisterBody.name := "Mary Ann"; RegisterBody.phonenumber := "3105550000" |})
    = json (failed "Invalid Name").
Proof.
  destruct (register_rejects_name_outside_A_z Sample.env Sample.st
              {| RegisterBody.email := "carol@x.org"; RegisterBody.password := "password1";
                 RegisterBody.name := "Mary Ann"; RegisterBody.phonenumber := "3105550000" |})
    as [Hstore [_ Hmsg]].
  - reflexivity.
  - split; [exact Hstore|]. apply Hmsg.
    + vm_compute. discriminate.
    + vm_compute. discriminate.
    + vm_compute. discriminate.
    + vm_compute. discriminate.
    + reflexivity.
Defined.

(* ================================================================== *)
(** ** Local sign-in *)
(* ================================================================== *)




(* ================================================================== *)
(** ** Profile update *)
(* ================================================================== *)

Lemma find_replaced (l : list Passenger.t) (userId : ObjectId) (user user' : Passenger.t) :
  find (fun p => Nat.eqb (Passenger._id p) userId) l = Some user ->
  Passenger._id user' = Passenger._id user ->
  find (fun p => Nat.eqb (Passenger._id p) userId)
       (map (fun q => if Nat.eqb (Passenger._id q) (Passenger._id user') then user' else q) l)
  = Some user'.
Proof.
  intros Hfind Hid.
  assert (Hu : Passenger._id user' = userId).
  { apply find_some in Hfind. destruct Hfind as [_ H]. apply Nat.eqb_eq in H.
    congruence. }
  rewrite Hu. clear Hid.
  induction l as [|q l IH]; simpl in *; [discriminate|].
  destruct (Nat.eqb (Passenger._id q) userId) eqn:Eq; simpl.
  - rewrite Hu, Nat.eqb_refl. reflexivity.
  - rewrite Eq. apply IH. assumption.
Qed.

Lemma update_name_phone_keeps (user : Passenger.t) (req : UpdateBody.t) :
  Passenger._id (update_name_phone user req) = Passenger._id user /\
  Passenger.email (update_name_phone user req) = Passenger.email user /\
  Passenger.name (update_name_phone user req) =
    match given (UpdateBody.name req) with
    | Some name => JsString.trim name
    | None => Passenger.name user
    end /\
  Passenger.phonenumber (update_name_phone user req) =
    match given (UpdateBody.phonenumber req) with
    | Some phonenumber => JsString.trim phonenumber
    | None => Passenger.phonenumber user
    end.
Proof.
  unfold update_name_phone.
  destruct (given (UpdateBody.name req)), (given (UpdateBody.phonenumber req));
    repeat split; reflexivity.
Qed.

(** The guard of the profile update, for the e-mail string exactly as it
    is submitted: when that string differs from the passenger's current
    e-mail and is itself the e-mail of a passenger or a driver, nothing is
    stored and (the database answering) the answer is the 400 error
    [Email already in use]; when the submitted string equals the
    passenger's own current e-mail, the answer is never that error. *)
Lemma update_email_uniqueness_guard
    (env : Env) (st : Store) (userId : ObjectId) (user : Passenger.t)
    (req : UpdateBody.t) :
  find (fun p => Nat.eqb (Passenger._id p) userId) (passengers st) = Some user ->
  (forall email,
     given (UpdateBody.email req) = Some email ->
     email <> Passenger.email user ->
     email_in_use st email = true ->
     store (update env st userId req) = st /\
     (db_read_error env = None ->
      response (update env st userId req)
        = status 400 (VObj [ ("message", VStr "Email already in use") ]))) /\
  (UpdateBody.email req = Some (Passenger.email user) ->
   code (response (update env st userId req)) <> 400).
Proof.
  intros Hfind. split.
  - intros email Hgiven Hdiff Hused.
    unfold update, Passenger_findById, query.
    destruct (db_read_error env) as [m|] eqn:Hdb; simpl.
    { split; [reflexivity | intros; discriminate]. }
    rewrite Hfind. simpl. rewrite Hgiven.
    destruct (update_name_phone_keeps user req) as [_ [-> _]].
    destruct (String.eqb_spec email (Passenger.email user)) as [|_]; [contradiction|].
    simpl. rewrite (emailExistsInBoth_ok env st email Hdb), Hused. simpl.
    split; [reflexivity | intros; reflexivity].
  - intros Hown.
    unfold update, Passenger_findById, query.
    destruct (db_read_error env) as [m|] eqn:Hdb; simpl; [discriminate|].
    rewrite Hfind. simpl. rewrite Hown.
    destruct (update_name_phone_keeps user req) as [_ [-> _]].
    unfold given. destruct (JsString.truthy (Passenger.email user)); simpl.
    + rewrite String.eqb_refl. simpl.
      destruct (match match UpdateBody.newPassword req with
                      | Some s => if JsString.truthy s then Some s else None
                      | None => None
                      end with
                | Some newPassword => _
                | None => _
                end) as [u|e]; simpl; [|discriminate].
      destruct (save env st u); simpl; discriminate.
    + destruct (match match UpdateBody.newPassword req with
                      | Some s => if JsString.truthy s then Some s else None
                      | None => None
                      end with
                | Some newPassword => _
                | None => _
                end) as [u|e]; simpl; [|discriminate].
      destruct (save env st u); simpl; discriminate.
Qed.

(** Bob asks for Alice's e-mail, then for his own. *)
Lemma update_email_uniqueness_guard_witness :
  update Sample.env Sample.st 2
    {| UpdateBody.name := None; UpdateBody.phonenumber := None;
       UpdateBody.email := Some "a@b.com"; UpdateBody.newPassword := None |}
    = reply Sample.st (status 400 (VObj [ ("message", VStr "Email already in use") ])) /\
  code (response (update Sample.env Sample.st 2
                    {| UpdateBody.name := None; UpdateBody.phonenumber := None;
                       UpdateBody.email := Some "bob@x.org";
                       UpdateBody.newPassword := None |})) <> 400.
Proof.
  split.
  - destruct (update_email_uniqueness_guard Sample.env Sample.st 2 Sample.bob
                {| UpdateBody.name := None; UpdateBody.phonenumber := None;
                   UpdateBody.email := Some "a@b.com"; UpdateBody.newPassword := None |})
      as [Htaken _]; [reflexivity|].
    destruct (Htaken "a@b.com") as [Hstore Hresp].
    + reflexivity.
    + vm_compute. discriminate.
    + reflexivity.
    + specialize (Hresp eq_refl).
      destruct (update Sample.env Sample.st 2 _) as [s r c] eqn:E.
      simpl in Hstore, Hresp. subst s r.
      vm_compute in E. inversion E. reflexivity.
  - apply (update_email_uniqueness_guard Sample.env Sample.st 2 Sample.bob
             {| UpdateBody.name := None; UpdateBody.phonenumber := None;
                UpdateBody.email := Some "bob@x.org"; UpdateBody.newPassword := None |});
      reflexivity.
Defined.

(** C9, as stated, fails: the submitted strings are not stored as they
    are.  Bob's padded name is stored trimmed and his empty phone number is
    not stored at all. *)
Lemma update_stores_as_is_counterexample :
  update Sample.env Sample.st 2
    {| UpdateBody.name := Some "  B0b  "; UpdateBody.phonenumber := Some "";
       UpdateBody.email := None; UpdateBody.newPassword := None |}
  = let bob' :=
      {| Passenger._id := 2; Passenger.email := "bob@x.org";
         Passenger.password := "$2b$10$hunter2hunter2"; Passenger.name := "B0b";
         Passenger.phonenumber := "5550001111"; Passenger.avatar := None |} in
    reply (with_passengers Sample.st [Sample.alice; bob'])
      (status 200 (VObj [ ("status", VStr "SUCCESS");
                          ("message", VStr "Profile updated successfully");
                          ("data", VObj (Passenger._doc bob')) ])).
Proof.
  reflexivity.
Qed.

(** C9, amended.  The profile update applies none of the registration
    format checks.  For an existing passenger, the database answering and
    any new password hashing, every update whose e-mail, if it differs from
    the current one, is not in use is answered with status 200, and the
    stored record then holds, for each of name, phone number and e-mail that
    was submitted non-empty, the submitted string with its surrounding white
    space trimmed, whatever its content (a field submitted empty or not at
    all keeps its stored value).  So the formats established at registration
    are not preserved: one update of a well-formed record leaves a name, a
    phone number and an e-mail that each fail the registration pattern. *)
Theorem update_stores_trimmed_without_format_checks :
  (forall (env : Env) (st : Store) (userId : ObjectId) (user : Passenger.t)
          (req : UpdateBody.t),
     db_read_error env = None ->
     db_save_error env = None ->
     find (fun p => Nat.eqb (Passenger._id p) userId) (passengers st) = Some user ->
     (forall email, given (UpdateBody.email req) = Some email ->
                    email <> Passenger.email user -> email_in_use st email = false) ->
     (forall p, given (UpdateBody.newPassword req) = Some p ->
                exists h, bcrypt_hash env p = Ok h) ->
     exists user',
       code (response (update env st userId req)) = 200 /\
       find (fun p => Nat.eqb (Passenger._id p) userId)
            (passengers (store (update env st userId req))) = Some user' /\
       Passenger.name user' =
         match given (UpdateBody.name req) with
         | Some name => JsString.trim name
         | None => Passenger.name user
         end /\
       Passenger.phonenumber user' =
         match given (UpdateBody.phonenumber req) with
         | Some phonenumber => JsString.trim phonenumber
         | None => Passenger.phonenumber user
         end /\
       Passenger.email user' =
         match given (UpdateBody.email req) with
         | Some email =>
             if email =? Passenger.email user then Passenger.email user
             else JsString.trim email
         | None => Passenger.email user
         end) /\
  (RegExp.test RegExp.name_re (Passenger.name Sample.bob) = true /\
   RegExp.test RegExp.phone_re (Passenger.phonenumber Sample.bob) = true /\
   RegExp.test RegExp.email_re (Passenger.email Sample.bob) = true /\
   exists bob',
     find (fun p => Nat.eqb (Passenger._id p) 2)
          (passengers (store (update Sample.env Sample.st 2
             {| UpdateBody.name := Some "B0b the 2nd!";
                UpdateBody.phonenumber := Some "call me";
                UpdateBody.email := Some "nowhere";
                UpdateBody.newPassword := None |}))) = Some bob' /\
     RegExp.test RegExp.name_re (Passenger.name bob') = false /\
     RegExp.test RegExp.phone_re (Passenger.phonenumber bob') = false /\
     RegExp.test RegExp.email_re (Passenger.email bob') = false).
Proof.
  split.
  - intros env st userId user req Hdb Hsave Hfind Hfree Hhash.
    destruct (update_name_phone_keeps user req) as [Kid [Kemail [Kname Kphone]]].
    unfold update, Passenger_findById, query. rewrite Hdb. simpl.
    rewrite Hfind. simpl. rewrite Kemail.
    assert (Hchecked :
      exists u,
        match given (UpdateBody.email req) with
        | Some email =>
            if negb (email =? Passenger.email user)
            then
              emailTaken <- emailExistsInBoth env st email;;
              (if emailTaken
               then Ok (inl (status 400 (message_body "Email already in use")))
               else Ok (inr (set_email (update_name_phone user req) (JsString.trim email))))
            else Ok (inr (update_name_phone user req))
        | None => Ok (inr (update_name_phone user req))
        end = Ok (inr u) /\
        Passenger._id u = Passenger._id user /\
        Passenger.name u = Passenger.name (update_name_phone user req) /\
        Passenger.phonenumber u = Passenger.phonenumber (update_name_phone user req) /\
        Passenger.email u =
          match given (UpdateBody.email req) with
          | Some email =>
              if email =? Passenger.email user then Passenger.email user
              else JsString.trim email
          | None => Passenger.email user
          end).
    { destruct (given (UpdateBody.email req)) as [email|].
      - destruct (String.eqb_spec email (Passenger.email user)) as [He|He]; simpl.
        + eexists. split; [reflexivity|]. repeat split; assumption.
        + rewrite (emailExistsInBoth_ok env st email Hdb).
          rewrite (Hfree email eq_refl He). simpl.
          eexists. split; [reflexivity|]. repeat split; assumption.
      - eexists. split; [reflexivity|]. repeat split; assumption. }
    destruct Hchecked as [u [-> [Uid [Uname [Uphone Uemail]]]]]. simpl.
    assert (Hpw :
      exists u',
        match given (UpdateBody.newPassword req) with
        | Some newPassword =>
            hashPassword <- bcrypt_hash env newPassword;;
            Ok (set_password u hashPassword)
        | None => Ok u
        end = Ok u' /\
        Passenger._id u' = Passenger._id u /\ Passenger.name u' = Passenger.name u /\
        Passenger.phonenumber u' = Passenger.phonenumber u /\
        Passenger.email u' = Passenger.email u).
    { destruct (given (UpdateBody.newPassword req)) as [p|].
      - destruct (Hhash p eq_refl) as [h ->]. simpl.
        eexists. split; [reflexivity|]. repeat split; reflexivity.
      - eexists. split; [reflexivity|]. repeat split; reflexivity. }
    destruct Hpw as [u' [-> [Pid [Pname [Pphone Pemail]]]]]. simpl.
    unfold save. rewrite Hsave. simpl.
    exists u'. split; [reflexivity|]. split.
    + apply find_replaced with (user := user); [assumption | congruence].
    + repeat split; congruence.
  - split; [reflexivity|]. split; [reflexivity|]. split; [reflexivity|].
    eexists. split; [vm_compute; reflexivity|]. repeat split; reflexivity.
Qed.

(** Bob sends a name with a digit, a phone number of two digits and an
    e-mail without an at sign. *)
Lemma update_stores_trimmed_without_format_checks_witness :
  exists bob',
    code (response (update Sample.env Sample.st 2
                      {| UpdateBody.name := Some " B0b ";
                         UpdateBody.phonenumber := Some "12";
                         UpdateBody.email := Some "nowhere ";
                         UpdateBody.newPassword := Some "x" |})) = 200 /\
    find (fun p => Nat.eqb (Passenger._id p) 2)
         (passengers (store (update Sample.env Sample.st 2
                      {| UpdateBody.name := Some " B0b ";
                         UpdateBody.phonenumber := Some "12";
                         UpdateBody.email := Some "nowhere ";
                         UpdateBody.newPassword := Some "x" |}))) = Some bob' /\
    Passenger.name bob' = "B0b" /\
    Passenger.phonenumber bob' = "12" /\
    Passenger.email bob' = "nowhere".
Proof.
  apply (proj1 update_stores_trimmed_without_format_checks
           Sample.env Sample.st 2 Sample.bob
           {| UpdateBody.name := Some " B0b ";
              UpdateBody.phonenumber := Some "12";
              UpdateBody.email := Some "nowhere ";
              UpdateBody.newPassword := Some "x" |}).
  - reflexivity.
  - reflexivity.
  - reflexivity.
  - intros email Hg _. vm_compute in Hg. inversion Hg. reflexivity.
  - intros p Hg. vm_compute in Hg. inversion Hg. eexists. reflexivity.
Defined.

(* ================================================================== *)
(** ** Federated sign-up *)
(* ================================================================== *)

(** When the verified e-mail is already in use, [user] stays the boolean
    [true]: no identity is created, the signed payload has an undefined
    [userId], and the [user] member of the answer is [true]. *)
Lemma google_signup_existing_email
    (env : Env) (st : Store) (token email name : string) :
  verifyGoogleToken env token = Ok (email, name) ->
  db_read_error env = None ->
  email_in_use st email = true ->
  google_signup env st token =
    reply st
      (status 200
         (VObj [ ("message", VStr "User authenticated successfully");
                 ("token", VJwt [ ("userId", VUndefined) ] "24h");
                 ("user", VBool true) ])).
Proof.
  intros Hv Hdb Hused. unfold google_signup. rewrite Hv. simpl.
  rewrite (emailExistsInBoth_ok env st email Hdb), Hused. reflexivity.
Qed.

(** C5, evaluated where the code departs from it.  Alice exists with
    identifier 1 and signs up again through Google: no identity is created,
    but the token is signed over an undefined [userId] instead of her
    identifier, and the answer's [user] is the boolean [true]. *)
Theorem google_signup_existing_user_token_has_no_subject :
  find (fun p => Passenger.email p =? "a@b.com") (passengers Sample.st)
    = Some Sample.alice /\
  Passenger._id Sample.alice = 1 /\
  google_signup Sample.env Sample.st "google-id-token-of-alice" =
    reply Sample.st
      (status 200
         (VObj [ ("message", VStr "User authenticated successfully");
                 ("token", VJwt [ ("userId", VUndefined) ] "24h");
                 ("user", VBool true) ])).
Proof.
  repeat split; reflexivity.
Qed.

(** A first federated sign-up, for comparison: the new passenger is stored
    and the token is signed over its identifier. *)
Lemma google_signup_new_user :
  google_signup Sample.env
    (with_passengers Sample.st [Sample.bob]) "google-id-token-of-alice" =
    let alice :=
      {| Passenger._id := 100; Passenger.email := "a@b.com";
         Passenger.password := "$2b$10$271828.1828"; Passenger.name := "Alice";
         Passenger.phonenumber := ""; Passenger.avatar := None |} in
    reply (with_passengers Sample.st [Sample.bob; alice])
      (status 200
         (VObj [ ("message", VStr "User authenticated successfully");
                 ("token", VJwt [ ("userId", VId 100) ] "24h");
                 ("user", VObj (Passenger._doc alice)) ])).
Proof.
  reflexivity.
Qed.

(* ================================================================== *)
(** ** Further properties: trimming and registration *)
(* ================================================================== *)

Lemma trimEnd_idempotent (s : string) :
  JsString.trimEnd (JsString.trimEnd s) = JsString.trimEnd s.
Proof.
  induction s as [|c s IH]; simpl; [reflexivity|].
  destruct (JsString.is_white_space c && (JsString.trimEnd s =? "")) eqn:E; simpl.
  - reflexivity.
  - rewrite IH, E. reflexivity.
Qed.

Lemma trimStart_shape (s : string) :
  JsString.trimStart s = "" \/
  exists c t, JsString.trimStart s = String c t /\ JsString.is_white_space c = false.
Proof.
  induction s as [|c s IH]; simpl.
  - left. reflexivity.
  - destruct (JsString.is_white_space c) eqn:E; [exact IH|].
    right. exists c, s. split; [reflexivity | exact E].
Qed.

Lemma trim_idempotent (s : string) : JsString.trim (JsString.trim s) = JsString.trim s.
Proof.
  unfold JsString.trim.
  destruct (trimStart_shape s) as [->|[c [t [-> Hc]]]]; [reflexivity|].
  assert (H : JsString.trimEnd (String c t) = String c (JsString.trimEnd t)).
  { simpl. rewrite Hc. reflexivity. }
  rewrite H. simpl JsString.trimStart. rewrite Hc. rewrite <- H.
  apply trimEnd_idempotent.
Qed.

Lemma existsb_email_In {A : Type} (email_of : A -> string) (l : list A) (e : string) :
  List.existsb (fun x => email_of x =? e) l = true <-> In e (map email_of l).
Proof.
  rewrite existsb_exists, in_map_iff. split.
  - intros [x [Hx He]]. apply String.eqb_eq in He. exists x. split; assumption.
  - intros [x [He Hx]]. exists x. split; [assumption | apply String.eqb_eq; assumption].
Qed.

Lemma email_in_use_In (st : Store) (e : string) :
  email_in_use st e = true <-> In e (emails st).
Proof.
  unfold email_in_use, emails.
  rewrite orb_true_iff, in_app_iff, !existsb_email_In. reflexivity.
Qed.

Lemma email_re_rejects_empty : RegExp.test RegExp.email_re "" = false.
Proof. reflexivity. Qed.

Lemma phone_re_rejects_empty : RegExp.test RegExp.phone_re "" = false.
Proof. reflexivity. Qed.

(** The two ways [POST /register] ends: a failure that leaves the store as
    it was, or the success that appends the new passenger. *)
Lemma register_cases (env : Env) (st : Store) (req : RegisterBody.t) :
  (exists m, register env st req = reply st (json (failed m)) \/
             exists err,
               db_read_error env <> None /\
               register env st req =
                 {| store := st; response := json (failed m);
                    console := [LogError "" err] |}) \/
  (exists h,
     bcrypt_hash env (JsString.trim (RegisterBody.password req)) = Ok h /\
     db_save_error env = None /\
     email_in_use st (JsString.trim (RegisterBody.email req)) = false /\
     JsString.trim (RegisterBody.name req) <> "" /\
     RegExp.test RegExp.email_re (JsString.trim (RegisterBody.email req)) = true /\
     RegExp.test RegExp.name_re (JsString.trim (RegisterBody.name req)) = true /\
     RegExp.test RegExp.phone_re (JsString.trim (RegisterBody.phonenumber req)) = true /\
     8 <= String.length (JsString.trim (RegisterBody.password req)) /\
     register env st req =
       reply (with_passengers st (passengers st ++ [registered env req h]))
             (registration_succeeded (registered env req h))).
Proof.
  unfold register.
  set (email := JsString.trim (RegisterBody.email req)).
  set (password := JsString.trim (RegisterBody.password req)).
  set (name := JsString.trim (RegisterBody.name req)).
  set (phonenumber := JsString.trim (RegisterBody.phonenumber req)).
  destruct (String.eqb_spec email "") as [He|He]; simpl;
    [left; eexists; left; reflexivity|].
  destruct (String.eqb_spec password "") as [Hp|Hp]; simpl;
    [left; eexists; left; reflexivity|].
  destruct (String.eqb_spec name "") as [Hn|Hn]; simpl;
    [left; eexists; left; reflexivity|].
  destruct (String.eqb_spec phonenumber "") as [Hph|Hph]; simpl;
    [left; eexists; left; reflexivity|].
  destruct (RegExp.test RegExp.email_re email) eqn:Te; simpl;
    [|left; eexists; left; reflexivity].
  destruct (RegExp.test RegExp.name_re name) eqn:Tn; simpl;
    [|left; eexists; left; reflexivity].
  destruct (RegExp.test RegExp.phone_re phonenumber) eqn:Tp; simpl;
    [|left; eexists; left; reflexivity].
  destruct (Nat.ltb_spec (String.length password) 8) as [Hl|Hl];
    [left; eexists; left; reflexivity|].
  destruct (emailExistsInBoth_cases env st email) as [Hq|[m Hq]]; rewrite Hq;
    [|left; eexists; right; eexists; split; [|reflexivity];
      intros Hdb; rewrite (emailExistsInBoth_ok env st email Hdb) in Hq; discriminate].
  destruct (email_in_use st email) eqn:Hu; [left; eexists; left; reflexivity|].
  destruct (bcrypt_hash env password) as [h|e] eqn:Hh;
    [|left; eexists; left; reflexivity].
  unfold save_new. destruct (db_save_error env) as [m|] eqn:Hs;
    [left; eexists; left; reflexivity|].
  right. exists h. repeat split; try assumption; reflexivity.
Qed.

(** X1.  When the database answers, [emailExistsInBoth] resolves to a
    boolean that is true exactly when the e-mail is, character for
    character, the e-mail of some passenger or of some driver; when the
    database fails it rejects with the database's error. *)
Theorem emailExistsInBoth_decides_membership (env : Env) (st : Store) (email : string) :
  (db_read_error env = None ->
   exists b, emailExistsInBoth env st email = Ok b /\
             (b = true <-> In email (emails st))) /\
  (forall m, db_read_error env = Some m ->
             emailExistsInBoth env st email = Throw (Failure m)).
Proof.
  split.
  - intros Hdb. exists (email_in_use st email). split.
    + apply emailExistsInBoth_ok. assumption.
    + apply email_in_use_In.
  - intros m Hdb. apply emailExistsInBoth_throw. assumption.
Qed.

(** A driver's e-mail is found, and it is among the e-mails of the store. *)
Lemma emailExistsInBoth_decides_membership_witness :
  exists b, emailExistsInBoth Sample.env Sample.st "dave@cars.io" = Ok b /\
            (b = true <-> In "dave@cars.io" (emails Sample.st)).
Proof.
  apply (proj1 (emailExistsInBoth_decides_membership Sample.env Sample.st "dave@cars.io")).
  reflexivity.
Defined.

(** X2.  Registration sees each field only through its trimmed value:
    white space around the e-mail, password, name or phone number changes
    neither the answer nor what is stored. *)
Theorem register_ignores_surrounding_white_space
    (env : Env) (st : Store) (req : RegisterBody.t) :
  register env st (trimmed req) = register env st req.
Proof.
  unfold register, trimmed. simpl. rewrite !trim_idempotent. reflexivity.
Qed.

(** A registration that passes every check stores [registered]. *)
Lemma register_accepts
    (env : Env) (st : Store) (req : RegisterBody.t) (h : string) :
  db_read_error env = None ->
  db_save_error env = None ->
  JsString.trim (RegisterBody.name req) <> "" ->
  RegExp.test RegExp.email_re (JsString.trim (RegisterBody.email req)) = true ->
  RegExp.test RegExp.name_re (JsString.trim (RegisterBody.name req)) = true ->
  RegExp.test RegExp.phone_re (JsString.trim (RegisterBody.phonenumber req)) = true ->
  8 <= String.length (JsString.trim (RegisterBody.password req)) ->
  email_in_use st (JsString.trim (RegisterBody.email req)) = false ->
  bcrypt_hash env (JsString.trim (RegisterBody.password req)) = Ok h ->
  register env st req =
    reply (with_passengers st (passengers st ++ [registered env req h]))
          (registration_succeeded (registered env req h)).
Proof.
  intros Hdb Hsave Hn Te Tn Tp Hl Hu Hh. unfold register.
  set (email := JsString.trim (RegisterBody.email req)) in *.
  set (password := JsString.trim (RegisterBody.password req)) in *.
  set (name := JsString.trim (RegisterBody.name req)) in *.
  set (phonenumber := JsString.trim (RegisterBody.phonenumber req)) in *.
  destruct (String.eqb_spec email "") as [He|_].
  { rewrite He, email_re_rejects_empty in Te. discriminate. }
  destruct (String.eqb_spec password "") as [Hp|_].
  { rewrite Hp in Hl. simpl in Hl. lia. }
  destruct (String.eqb_spec name "") as [|_]; [contradiction|].
  destruct (String.eqb_spec phonenumber "") as [Hph|_].
  { rewrite Hph, phone_re_rejects_empty in Tp. discriminate. }
  simpl. rewrite Te, Tn, Tp. simpl.
  destruct (Nat.ltb_spec (String.length password) 8) as [Hlt|_]; [lia|].
  rewrite (emailExistsInBoth_ok env st email Hdb), Hu, Hh.
  unfold save_new. rewrite Hsave. reflexivity.
Qed.

(** X3.  A registration whose trimmed fields pass the four format checks,
    with a name that is not empty and an e-mail not in use, the database
    and bcrypt working, appends exactly one passenger and touches nothing
    else: the new record holds the trimmed e-mail, name and phone number,
    the bcrypt hash of the trimmed password in place of the password, and
    no avatar; the answer is the success object carrying that document. *)
Theorem register_success
    (env : Env) (st : Store) (req : RegisterBody.t) (h : string) :
  db_read_error env = None ->
  db_save_error env = None ->
  JsString.trim (RegisterBody.name req) <> "" ->
  RegExp.test RegExp.email_re (JsString.trim (RegisterBody.email req)) = true ->
  RegExp.test RegExp.name_re (JsString.trim (RegisterBody.name req)) = true ->
  RegExp.test RegExp.phone_re (JsString.trim (RegisterBody.phonenumber req)) = true ->
  8 <= String.length (JsString.trim (RegisterBody.password req)) ->
  email_in_use st (JsString.trim (RegisterBody.email req)) = false ->
  bcrypt_hash env (JsString.trim (RegisterBody.password req)) = Ok h ->
  let p :=
    {| Passenger._id := new_object_id env;
       Passenger.email := JsString.trim (RegisterBody.email req);
       Passenger.password := h;
       Passenger.name := JsString.trim (RegisterBody.name req);
       Passenger.phonenumber := JsString.trim (RegisterBody.phonenumber req);
       Passenger.avatar := None |} in
  passengers (store (register env st req)) = (passengers st ++ [p])%list /\
  drivers (store (register env st req)) = drivers st /\
  joinRequests (store (register env st req)) = joinRequests st /\
  driverPosts (store (register env st req)) = driverPosts st /\
  passengerPosts (store (register env st req)) = passengerPosts st /\
  response (register env st req) =
    json (VObj [ ("status", VStr "SUCCESS");
                 ("message", VStr "Registration Successfully");
                 ("data", VObj (Passenger._doc p)) ]).
Proof.
  intros Hdb Hsave Hn Te Tn Tp Hl Hu Hh p.
  rewrite (register_accepts env st req h Hdb Hsave Hn Te Tn Tp Hl Hu Hh).
  repeat split; reflexivity.
Qed.

Lemma register_success_witness :
  let carol :=
    {| Passenger._id := 100; Passenger.email := "carol@x.org";
       Passenger.password := "$2b$10$password1"; Passenger.name := "Carol";
       Passenger.phonenumber := "3105550000"; Passenger.avatar := None |} in
  let outcome :=
    register Sample.env Sample.st
      {| RegisterBody.email := " carol@x.org"; RegisterBody.password := "password1 ";
         RegisterBody.name := "Carol"; RegisterBody.phonenumber := "3105550000" |} in
  passengers (store outcome) = [Sample.alice; Sample.bob; carol] /\
  drivers (store outcome) = drivers Sample.st /\
  joinRequests (store outcome) = joinRequests Sample.st /\
  driverPosts (store outcome) = driverPosts Sample.st /\
  passengerPosts (store outcome) = passengerPosts Sample.st /\
  response outcome =
    json (VObj [ ("status", VStr "SUCCESS");
                 ("message", VStr "Registration Successfully");
                 ("data", VObj (Passenger._doc carol)) ]).
Proof.
  apply (register_success Sample.env Sample.st
           {| RegisterBody.email := " carol@x.org"; RegisterBody.password := "password1 ";
              RegisterBody.name := "Carol"; RegisterBody.phonenumber := "3105550000" |}
           "$2b$10$password1").
  - reflexivity.
  - reflexivity.
  - vm_compute. discriminate.
  - reflexivity.
  - reflexivity.
  - reflexivity.
  - vm_compute. lia.
  - reflexivity.
  - reflexivity.
Defined.

(** X4.  Registration writes only when it succeeds: either the answer is a
    [FAILED] object and the store is exactly as before, or the answer is the
    [SUCCESS] object and the store differs only by one passenger appended to
    the passengers. *)
Theorem register_writes_only_on_success
    (env : Env) (st : Store) (req : RegisterBody.t) :
  (answer_status (response (register env st req)) = VStr "FAILED" /\
   store (register env st req) = st) \/
  (answer_status (response (register env st req)) = VStr "SUCCESS" /\
   exists p,
     store (register env st req) = with_passengers st (passengers st ++ [p]) /\
     response (register env st req) = registration_succeeded p).
Proof.
  destruct (register_cases env st req) as [[m [H|[err [_ H]]]]|[h H]].
  - left. rewrite H. split; reflexivity.
  - left. rewrite H. split; reflexivity.
  - right. destruct H as [_ [_ [_ [_ [_ [_ [_ [_ H]]]]]]]]. rewrite H.
    split; [reflexivity|]. eexists. split; reflexivity.
Qed.

(** X5.  Every passenger that a registration adds satisfies the formats:
    its e-mail, name and phone number pass the three patterns and are
    stored trimmed, the name is not empty, the e-mail was in use by nobody,
    the stored password is the bcrypt hash of a secret of 8 characters or
    more, and there is no avatar. *)
Theorem register_created_is_well_formed
    (env : Env) (st : Store) (req : RegisterBody.t) (p : Passenger.t) :
  In p (passengers (store (register env st req))) ->
  ~ In p (passengers st) ->
  RegExp.test RegExp.email_re (Passenger.email p) = true /\
  RegExp.test RegExp.name_re (Passenger.name p) = true /\
  Passenger.name p <> "" /\
  RegExp.test RegExp.phone_re (Passenger.phonenumber p) = true /\
  JsString.trim (Passenger.email p) = Passenger.email p /\
  JsString.trim (Passenger.name p) = Passenger.name p /\
  JsString.trim (Passenger.phonenumber p) = Passenger.phonenumber p /\
  ~ In (Passenger.email p) (emails st) /\
  (exists secret, 8 <= String.length secret /\
                  bcrypt_hash env secret = Ok (Passenger.password p)) /\
  Passenger.avatar p = None.
Proof.
  intros Hin Hnew.
  destruct (register_cases env st req) as [[m [H|[err [_ H]]]]|[h H]].
  - rewrite H in Hin. contradiction.
  - rewrite H in Hin. contradiction.
  - destruct H as [Hh [_ [Hu [Hn [Te [Tn [Tp [Hl H]]]]]]]].
    rewrite H in Hin. simpl in Hin. apply in_app_or in Hin.
    destruct Hin as [Hin|[<-|[]]]; [contradiction|]. simpl.
    repeat split; try assumption; try apply trim_idempotent.
    + intros Hc. apply email_in_use_In in Hc. congruence.
    + eexists. split; eassumption.
Qed.

Lemma register_created_is_well_formed_witness :
  let carol :=
    {| Passenger._id := 100; Passenger.email := "carol@x.org";
       Passenger.password := "$2b$10$password1"; Passenger.name := "Carol";
       Passenger.phonenumber := "3105550000"; Passenger.avatar := None |} in
  RegExp.test RegExp.email_re (Passenger.email carol) = true /\
  RegExp.test RegExp.name_re (Passenger.name carol) = true /\
  Passenger.name carol <> "" /\
  RegExp.test RegExp.phone_re (Passenger.phonenumber carol) = true /\
  JsString.trim (Passenger.email carol) = Passenger.email carol /\
  JsString.trim (Passenger.name carol) = Passenger.name carol /\
  JsString.trim (Passenger.phonenumber carol) = Passenger.phonenumber carol /\
  ~ In (Passenger.email carol) (emails Sample.st) /\
  (exists secret, 8 <= String.length secret /\
                  bcrypt_hash Sample.env secret = Ok (Passenger.password carol)) /\
  Passenger.avatar carol = None.
Proof.
  intros carol.
  apply (register_created_is_well_formed Sample.env Sample.st
           {| RegisterBody.email := " carol@x.org"; RegisterBody.password := "password1 ";
              RegisterBody.name := "Carol"; RegisterBody.phonenumber := "3105550000" |}).
  - vm_compute. right. right. left. reflexivity.
  - simpl. intros [H|[H|[]]]; discriminate.
Defined.

(** A registration that runs with no other write between its existence
    check and its save keeps e-mails unique: if no e-mail occurs twice among
    the passengers and drivers before it, none does after it. *)
Lemma register_preserves_unique_emails
    (env : Env) (st : Store) (req : RegisterBody.t) :
  NoDup (emails st) -> NoDup (emails (store (register env st req))).
Proof.
  intros Hnd.
  destruct (register_cases env st req) as [[m [H|[err [_ H]]]]|[h H]].
  - rewrite H. exact Hnd.
  - rewrite H. exact Hnd.
  - destruct H as [_ [_ [Hu [_ [_ [_ [_ [_ H]]]]]]]]. rewrite H.
    assert (Hfresh : ~ In (JsString.trim (RegisterBody.email req)) (emails st)).
    { intros Hc. apply email_in_use_In in Hc. congruence. }
    unfold emails in *. simpl. rewrite map_app. simpl.
    rewrite <- app_assoc. simpl.
    apply NoDup_app.
    + apply NoDup_app_remove_r in Hnd. exact Hnd.
    + constructor.
      * intros Hc. apply Hfresh. apply in_or_app. right. exact Hc.
      * apply NoDup_app_remove_l in Hnd. exact Hnd.
    + intros a Ha [<-|Hd].
      * apply Hfresh. apply in_or_app. left. exact Ha.
      * revert a Ha Hd. clear -Hnd.
        induction (map Passenger.email (passengers st)) as [|x l IH];
          intros a Ha Hd; [contradiction|].
        simpl in Hnd. inversion Hnd as [|y l' Hx Hl]; subst.
        destruct Ha as [->|Ha].
        -- apply Hx. apply in_or_app. right. exact Hd.
        -- apply (IH Hl a Ha Hd).
Qed.

Lemma register_preserves_unique_emails_witness :
  NoDup (emails (store (register Sample.env Sample.st
    {| RegisterBody.email := " carol@x.org"; RegisterBody.password := "password1 ";
       RegisterBody.name := "Carol"; RegisterBody.phonenumber := "3105550000" |}))).
Proof.
  apply register_preserves_unique_emails.
  vm_compute.
  repeat (constructor; [simpl; intuition discriminate|]). constructor.
Defined.

Lemma no_passenger_with_email (st : Store) (e : string) :
  email_in_use st e = false ->
  filter (fun p => Passenger.email p =? e) (passengers st) = [].
Proof.
  unfold email_in_use. intros H. apply orb_false_iff in H. destruct H as [H _].
  induction (passengers st) as [|p l IH]; simpl in *; [reflexivity|].
  apply orb_false_iff in H. destruct H as [Hp Hl]. rewrite Hp. apply IH. exact Hl.
Qed.

(** The answer of a successful sign-in. *)
Lemma signin_accepts (env : Env) (st : Store) (req : SigninBody.t)
    (first : Passenger.t) (others : list Passenger.t) :
  JsString.trim (SigninBody.email req) <> "" ->
  JsString.trim (SigninBody.password req) <> "" ->
  Passenger_find env st (JsString.trim (SigninBody.email req)) = Ok (first :: others) ->
  bcrypt_compare env (JsString.trim (SigninBody.password req)) (Passenger.password first)
    = Ok true ->
  signin env st req =
    reply st
      (json (VObj [ ("status", VStr "Success");
                    ("message", VStr "User Successfully logged in");
                    ("data", VArr (map (fun p => VObj (Passenger._doc p)) (first :: others)));
                    ("token", VJwt [ ("userId", VId (Passenger._id first)) ] "24h") ])).
Proof.
  intros He Hp Hfind Hcmp. unfold signin.
  destruct (String.eqb_spec (JsString.trim (SigninBody.email req)) "") as [|_];
    [contradiction|].
  destruct (String.eqb_spec (JsString.trim (SigninBody.password req)) "") as [|_];
    [contradiction|].
  simpl. rewrite Hfind. simpl. rewrite Hcmp. reflexivity.
Qed.

(** X7.  Registration and sign-in compose: after a successful registration,
    signing in with the same e-mail and password as submitted (bcrypt
    recognising the password it hashed) succeeds, and the token is signed
    over the identifier of the passenger just created, valid for 24 hours;
    the sign-in itself stores nothing. *)
Theorem register_then_signin
    (env : Env) (st : Store) (req : RegisterBody.t) (h : string) :
  db_read_error env = None ->
  db_save_error env = None ->
  JsString.trim (RegisterBody.name req) <> "" ->
  RegExp.test RegExp.email_re (JsString.trim (RegisterBody.email req)) = true ->
  RegExp.test RegExp.name_re (JsString.trim (RegisterBody.name req)) = true ->
  RegExp.test RegExp.phone_re (JsString.trim (RegisterBody.phonenumber req)) = true ->
  8 <= String.length (JsString.trim (RegisterBody.password req)) ->
  email_in_use st (JsString.trim (RegisterBody.email req)) = false ->
  bcrypt_hash env (JsString.trim (RegisterBody.password req)) = Ok h ->
  bcrypt_compare env (JsString.trim (RegisterBody.password req)) h = Ok true ->
  let st' := store (register env st req) in
  let answer :=
    signin env st' {| SigninBody.email := RegisterBody.email req;
                      SigninBody.password := RegisterBody.password req |} in
  answer_status (response answer) = VStr "Success" /\
  answer_token (response answer) = VJwt [ ("userId", VId (new_object_id env)) ] "24h" /\
  store answer = st'.
Proof.
  intros Hdb Hsave Hn Te Tn Tp Hl Hu Hh Hcmp st' answer.
  assert (Hst : st' = with_passengers st (passengers st ++ [registered env req h])).
  { unfold st'. rewrite (register_accepts env st req h Hdb Hsave Hn Te Tn Tp Hl Hu Hh).
    reflexivity. }
  assert (Hans : answer =
    reply st'
      (json (VObj [ ("status", VStr "Success");
                    ("message", VStr "User Successfully logged in");
                    ("data", VArr [ VObj (Passenger._doc (registered env req h)) ]);
                    ("token", VJwt [ ("userId", VId (new_object_id env)) ] "24h") ]))).
  { unfold answer.
    apply (signin_accepts env st' _ (registered env req h) []); simpl.
    - intros He. rewrite He, email_re_rejects_empty in Te. discriminate.
    - intros Hp. rewrite Hp in Hl. simpl in Hl. lia.
    - unfold Passenger_find, query. rewrite Hdb, Hst. simpl.
      rewrite filter_app, (no_passenger_with_email st _ Hu). simpl.
      rewrite String.eqb_refl. reflexivity.
    - exact Hcmp. }
  rewrite Hans. repeat split; reflexivity.
Qed.

Lemma register_then_signin_witness :
  let req :=
    {| RegisterBody.email := " carol@x.org"; RegisterBody.password := "password1 ";
       RegisterBody.name := "Carol"; RegisterBody.phonenumber := "3105550000" |} in
  let st' := store (register Sample.env Sample.st req) in
  let answer :=
    signin Sample.env st' {| SigninBody.email := RegisterBody.email req;
                             SigninBody.password := RegisterBody.password req |} in
  answer_status (response answer) = VStr "Success" /\
  answer_token (response answer) = VJwt [ ("userId", VId 100) ] "24h" /\
  store answer = st'.
Proof.
  intros req.
  apply (register_then_signin Sample.env Sample.st req "$2b$10$password1").
  - reflexivity.
  - reflexivity.
  - vm_compute. discriminate.
  - reflexivity.
  - reflexivity.
  - reflexivity.
  - vm_compute. lia.
  - reflexivity.
  - reflexivity.
  - reflexivity.
Defined.

(** X8.  An e-mail can be registered once: after a successful registration,
    a second registration with the same e-mail, whatever its other fields
    and its padding, fails and stores nothing, and when its fields pass the
    format checks its failure is the duplicate-email message. *)
Theorem register_twice_is_refused
    (env : Env) (st : Store) (req again : RegisterBody.t) (h : string) :
  db_read_error env = None ->
  db_save_error env = None ->
  JsString.trim (RegisterBody.name req) <> "" ->
  RegExp.test RegExp.email_re (JsString.trim (RegisterBody.email req)) = true ->
  RegExp.test RegExp.name_re (JsString.trim (RegisterBody.name req)) = true ->
  RegExp.test RegExp.phone_re (JsString.trim (RegisterBody.phonenumber req)) = true ->
  8 <= String.length (JsString.trim (RegisterBody.password req)) ->
  email_in_use st (JsString.trim (RegisterBody.email req)) = false ->
  bcrypt_hash env (JsString.trim (RegisterBody.password req)) = Ok h ->
  JsString.trim (RegisterBody.email again) = JsString.trim (RegisterBody.email req) ->
  let st' := store (register env st req) in
  store (register env st' again) = st' /\
  answer_status (response (register env st' again)) = VStr "FAILED" /\
  (JsString.trim (RegisterBody.name again) <> "" ->
   RegExp.test RegExp.name_re (JsString.trim (RegisterBody.name again)) = true ->
   RegExp.test RegExp.phone_re (JsString.trim (RegisterBody.phonenumber again)) = true ->
   8 <= String.length (JsString.trim (RegisterBody.password again)) ->
   response (register env st' again) = json (failed duplicate_email_message)).
Proof.
  intros Hdb Hsave Hn Te Tn Tp Hl Hu Hh Hsame st'.
  assert (Hused : email_in_use st' (JsString.trim (RegisterBody.email again)) = true).
  { unfold st'. rewrite (register_accepts env st req h Hdb Hsave Hn Te Tn Tp Hl Hu Hh).
    rewrite Hsame. unfold email_in_use. simpl. rewrite existsb_app. simpl.
    rewrite String.eqb_refl. rewrite !orb_true_r. reflexivity. }
  destruct (register_cases env st' again) as [[m [H|[err [Hr _]]]]|[h' H]];
    [|contradiction|destruct H as [_ [_ [Hu' _]]]; congruence].
  rewrite H. split; [reflexivity|]. split; [reflexivity|].
  intros Hn' Tn' Tp' Hl'. revert H. unfold register.
  rewrite Hsame in *.
  set (email := JsString.trim (RegisterBody.email req)) in *.
  destruct (String.eqb_spec email "") as [He|_].
  { rewrite He, email_re_rejects_empty in Te. discriminate. }
  destruct (String.eqb_spec (JsString.trim (RegisterBody.password again)) "") as [Hp|_].
  { rewrite Hp in Hl'. simpl in Hl'. lia. }
  destruct (String.eqb_spec (JsString.trim (RegisterBody.name again)) "") as [|_];
    [contradiction|].
  destruct (String.eqb_spec (JsString.trim (RegisterBody.phonenumber again)) "")
    as [Hph|_].
  { rewrite Hph, phone_re_rejects_empty in Tp'. discriminate. }
  simpl. rewrite Te, Tn', Tp'. simpl.
  destruct (Nat.ltb_spec (String.length (JsString.trim (RegisterBody.password again))) 8)
    as [Hlt|_]; [lia|].
  rewrite (emailExistsInBoth_ok env st' email Hdb), Hused.
  intros H. inversion H. reflexivity.
Qed.

Lemma register_twice_is_refused_witness :
  let req :=
    {| RegisterBody.email := " carol@x.org"; RegisterBody.password := "password1 ";
       RegisterBody.name := "Carol"; RegisterBody.phonenumber := "3105550000" |} in
  let again :=
    {| RegisterBody.email := "carol@x.org  "; RegisterBody.password := "another-secret";
       RegisterBody.name := "Caroline"; RegisterBody.phonenumber := "3105559999" |} in
  let st' := store (register Sample.env Sample.st req) in
  store (register Sample.env st' again) = st' /\
  response (register Sample.env st' again) = json (failed duplicate_email_message).
Proof.
  intros req again st'.
  destruct (register_twice_is_refused Sample.env Sample.st req again "$2b$10$password1")
    as [Hstore [_ Hdup]].
  - reflexivity.
  - reflexivity.
  - vm_compute. discriminate.
  - reflexivity.
  - reflexivity.
  - reflexivity.
  - vm_compute. lia.
  - reflexivity.
  - reflexivity.
  - reflexivity.
  - split; [exact Hstore|]. apply Hdup.
    + vm_compute. discriminate.
    + reflexivity.
    + reflexivity.
    + vm_compute. lia.
Defined.

(* ================================================================== *)
(** ** Further properties: the phone and e-mail patterns *)
(* ================================================================== *)

Lemma matches_Empty (s : string) : RegExp.matches RegExp.Empty s = false.
Proof. induction s as [|c s IH]; simpl; [reflexivity | exact IH]. Qed.

Lemma matches_Eps (s : string) : RegExp.matches RegExp.Eps s = (s =? "").
Proof. destruct s as [|c s]; simpl; [reflexivity | apply matches_Empty]. Qed.

Lemma matches_Cat_Class (p : ascii -> bool) (r : RegExp.regex) (s : string) :
  RegExp.matches (RegExp.Cat (RegExp.Class p) r) s =
    match s with
    | EmptyString => false
    | String c s' => p c && RegExp.matches r s'
    end.
Proof.
  destruct s as [|c s]; simpl; [reflexivity|].
  destruct (p c); simpl.
  - apply RegExpFacts.matches_Cat_Eps.
  - apply RegExpFacts.matches_Cat_Empty.
Qed.

Lemma matches_Repeat_Class (p : ascii -> bool) (n : nat) (s : string) :
  RegExp.matches (RegExp.Repeat n (RegExp.Class p)) s =
    Nat.eqb (String.length s) n && JsString.forallb p s.
Proof.
  revert s. induction n as [|n IH]; intros s.
  - simpl RegExp.Repeat. rewrite matches_Eps. destruct s; reflexivity.
  - simpl RegExp.Repeat. rewrite matches_Cat_Class. destruct s as [|c s]; simpl.
    + reflexivity.
    + rewrite IH. destruct (p c), (Nat.eqb (String.length s) n); reflexivity.
Qed.

(** X9.  The phone pattern [/^\d{10}$/] accepts exactly the strings of ten
    characters that are all decimal digits (codes 48 to 57). *)
Theorem phone_re_language (s : string) :
  RegExp.test RegExp.phone_re s = true <->
  String.length s = 10 /\ JsString.forallb (RegExp.code_in 48 57) s = true.
Proof.
  unfold RegExp.test, RegExp.phone_re. rewrite matches_Repeat_Class.
  rewrite andb_true_iff, Nat.eqb_eq. reflexivity.
Qed.

Lemma phone_re_language_witness :
  RegExp.test RegExp.phone_re "3105550000" = true.
Proof.
  apply (proj2 (phone_re_language "3105550000")). split; reflexivity.
Defined.

Lemma forallb_append (q : ascii -> bool) (s1 s2 : string) :
  JsString.forallb q (s1 ++ s2) = JsString.forallb q s1 && JsString.forallb q s2.
Proof.
  induction s1 as [|c s1 IH]; simpl; [reflexivity|].
  rewrite IH. apply andb_assoc.
Qed.

(** A string of a pattern is made of characters of the pattern's classes. *)
Lemma lang_within (q : ascii -> bool) (r : RegExp.regex) (s : string) :
  RegExp.lang r s -> classes_within q r -> JsString.forallb q s = true.
Proof.
  intros H. induction H as [|p c Hp|r1 r2 s1 s2 _ IH1 _ IH2|r1 r2 s _ IH|r1 r2 s _ IH
                            | |r0 s1 s2 _ IH1 _ IH2]; simpl; intros Hw.
  - reflexivity.
  - rewrite (Hw c Hp). reflexivity.
  - rewrite forallb_append, (IH1 (proj1 Hw)), (IH2 (proj2 Hw)). reflexivity.
  - apply IH, Hw.
  - apply IH, Hw.
  - reflexivity.
  - rewrite forallb_append, (IH1 Hw), (IH2 Hw). reflexivity.
Qed.

Lemma lang_Cat_inv (r1 r2 : RegExp.regex) (s : string) :
  RegExp.lang (RegExp.Cat r1 r2) s ->
  exists s1 s2, s = s1 ++ s2 /\ RegExp.lang r1 s1 /\ RegExp.lang r2 s2.
Proof.
  intros H. inversion H; subst. eexists _, _. repeat split; eassumption.
Qed.

Lemma lang_Class_inv (p : ascii -> bool) (s : string) :
  RegExp.lang (RegExp.Class p) s -> exists c, s = String c "" /\ p c = true.
Proof.
  intros H. inversion H; subst. eexists. split; [reflexivity | assumption].
Qed.

Lemma address_class_1 (c : ascii) :
  RegExp.one_of [RegExp.word; RegExp.chr "-"%char; RegExp.chr "."%char] c = true ->
  address_char c = true.
Proof.
  unfold RegExp.one_of, address_char. cbv [existsb]. rewrite orb_false_r.
  rewrite orb_assoc. trivial.
Qed.

Lemma address_class_2 (c : ascii) :
  RegExp.one_of [RegExp.word; RegExp.chr "-"%char] c = true -> address_char c = true.
Proof.
  unfold RegExp.one_of, address_char. cbv [existsb]. rewrite orb_false_r.
  intros H. rewrite H. reflexivity.
Qed.

Lemma address_class_dot (c : ascii) :
  RegExp.chr "."%char c = true -> address_char c = true.
Proof.
  unfold address_char. intros H. rewrite H. apply orb_true_r.
Qed.

Lemma address_char_plain (c : ascii) :
  address_char c = true -> c <> "@"%char /\ JsString.is_white_space c = false.
Proof.
  destruct c as [[] [] [] [] [] [] [] []]; intros H;
    (split; [discriminate | reflexivity]) || discriminate H.
Qed.

(** X10.  An e-mail accepted by the registration pattern has the form
    [local@domain] with a local part and a domain that are both non-empty
    and made only of letters, digits, underscores, hyphens and dots: it has
    exactly one at sign and no white space. *)
Theorem email_re_shape (s : string) :
  RegExp.test RegExp.email_re s = true ->
  exists local domain,
    s = local ++ String "@"%char domain /\
    local <> "" /\ domain <> "" /\
    JsString.forallb address_char local = true /\
    JsString.forallb address_char domain = true /\
    (forall c, address_char c = true ->
               c <> "@"%char /\ JsString.is_white_space c = false).
Proof.
  intros H. apply RegExpFacts.matches_lang in H. unfold RegExp.email_re in H.
  apply lang_Cat_inv in H. destruct H as [local [rest [-> [Hlocal H]]]].
  apply lang_Cat_inv in H. destruct H as [at_ [rest' [-> [Hat H]]]].
  apply lang_Class_inv in Hat. destruct Hat as [c [-> Hc]].
  apply Ascii.eqb_eq in Hc. subst c.
  apply lang_Cat_inv in H. destruct H as [labels [tld [-> [Hlabels Htld]]]].
  exists local, (labels ++ tld). split; [reflexivity|].
  split; [|split; [|split; [|split; [|exact address_char_plain]]]].
  - unfold RegExp.Plus in Hlocal. apply lang_Cat_inv in Hlocal.
    destruct Hlocal as [s1 [s2 [-> [H1 _]]]].
    apply lang_Class_inv in H1. destruct H1 as [c [-> _]]. discriminate.
  - unfold RegExp.Plus in Hlabels. apply lang_Cat_inv in Hlabels.
    destruct Hlabels as [s1 [s2 [-> [H1 _]]]].
    apply lang_Cat_inv in H1. destruct H1 as [s3 [s4 [-> [H3 _]]]].
    apply lang_Cat_inv in H3. destruct H3 as [s5 [s6 [-> [H5 _]]]].
    apply lang_Class_inv in H5. destruct H5 as [c [-> _]]. discriminate.
  - apply (lang_within address_char _ _ Hlocal). simpl.
    split; exact address_class_1.
  - rewrite forallb_append.
    rewrite (lang_within address_char _ _ Hlabels), (lang_within address_char _ _ Htld).
    + reflexivity.
    + simpl. repeat split; try exact address_class_2; exact I.
    + simpl. repeat split; try exact address_class_2; try exact address_class_dot.
Qed.

Lemma email_re_shape_witness :
  exists local domain,
    "a.b-c@mail.x.info" = local ++ String "@"%char domain /\
    local <> "" /\ domain <> "" /\
    JsString.forallb address_char local = true /\
    JsString.forallb address_char domain = true /\
    (forall c, address_char c = true ->
               c <> "@"%char /\ JsString.is_white_space c = false).
Proof.
  apply (email_re_shape "a.b-c@mail.x.info"). reflexivity.
Defined.

(* ================================================================== *)
(** ** Further properties: local sign-in *)
(* ================================================================== *)

(** The two ways [POST /signin] ends. *)
Lemma signin_cases (env : Env) (st : Store) (req : SigninBody.t) :
  (exists m, In m signin_failures /\ signin env st req = reply st (json (failed m))) \/
  (exists first others,
     JsString.trim (SigninBody.email req) <> "" /\
     JsString.trim (SigninBody.password req) <> "" /\
     Passenger_find env st (JsString.trim (SigninBody.email req)) = Ok (first :: others) /\
     bcrypt_compare env (JsString.trim (SigninBody.password req))
       (Passenger.password first) = Ok true /\
     signin env st req = reply st (signed_in (first :: others) (Passenger._id first))).
Proof.
  unfold signin.
  destruct (String.eqb_spec (JsString.trim (SigninBody.email req)) "") as [He|He];
    simpl; [left; eexists; split; [|reflexivity]; simpl; tauto|].
  destruct (String.eqb_spec (JsString.trim (SigninBody.password req)) "") as [Hp|Hp];
    simpl; [left; eexists; split; [|reflexivity]; simpl; tauto|].
  destruct (Passenger_find env st _) as [[|first others]|e] eqn:Hfind; simpl;
    [left; eexists; split; [|reflexivity]; simpl; tauto| |
     left; eexists; split; [|reflexivity]; simpl; tauto].
  destruct (bcrypt_compare env _ _) as [[|]|e] eqn:Hcmp;
    [|left; eexists; split; [|reflexivity]; simpl; tauto
     |left; eexists; split; [|reflexivity]; simpl; tauto].
  right. exists first, others. repeat split; try assumption.
Qed.

(** X11.  A sign-in with a non-empty trimmed e-mail and password, against
    a stored passenger whose hash bcrypt matches with the trimmed password,
    answers [Success] with the documents of all passengers having that
    e-mail and a token signed over the identifier of the first of them,
    valid for 24 hours; nothing is stored. *)
Theorem signin_success
    (env : Env) (st : Store) (req : SigninBody.t)
    (first : Passenger.t) (others : list Passenger.t) :
  JsString.trim (SigninBody.email req) <> "" ->
  JsString.trim (SigninBody.password req) <> "" ->
  Passenger_find env st (JsString.trim (SigninBody.email req)) = Ok (first :: others) ->
  bcrypt_compare env (JsString.trim (SigninBody.password req)) (Passenger.password first)
    = Ok true ->
  store (signin env st req) = st /\
  code (response (signin env st req)) = 200 /\
  answer_status (response (signin env st req)) = VStr "Success" /\
  answer_token (response (signin env st req))
    = VJwt [ ("userId", VId (Passenger._id first)) ] "24h" /\
  body (response (signin env st req))
    = VObj [ ("status", VStr "Success");
             ("message", VStr "User Successfully logged in");
             ("data", VArr (map (fun p => VObj (Passenger._doc p)) (first :: others)));
             ("token", VJwt [ ("userId", VId (Passenger._id first)) ] "24h") ].
Proof.
  intros He Hp Hfind Hcmp.
  rewrite (signin_accepts env st req first others He Hp Hfind Hcmp).
  repeat split; reflexivity.
Qed.

Lemma signin_success_witness :
  let answer :=
    signin Sample.env Sample.st
      {| SigninBody.email := " a@b.com"; SigninBody.password := "password1 " |} in
  store answer = Sample.st /\
  code (response answer) = 200 /\
  answer_status (response answer) = VStr "Success" /\
  answer_token (response answer) = VJwt [ ("userId", VId 1) ] "24h" /\
  body (response answer)
    = VObj [ ("status", VStr "Success");
             ("message", VStr "User Successfully logged in");
             ("data", VArr [ VObj (Passenger._doc Sample.alice) ]);
             ("token", VJwt [ ("userId", VId 1) ] "24h") ].
Proof.
  apply (signin_success Sample.env Sample.st
           {| SigninBody.email := " a@b.com"; SigninBody.password := "password1 " |}
           Sample.alice []).
  - vm_compute. discriminate.
  - vm_compute. discriminate.
  - reflexivity.
  - reflexivity.
Defined.

(** Once the two fields have been read as strings, a sign-in is answered
    with status 200, stores nothing and logs nothing; a failure carries one
    of four messages, and the message [Invalid credential] of the source is
    never sent, because the array that [Passenger.find] resolves to is
    always truthy. *)
Lemma signin_answers
    (env : Env) (st : Store) (req : SigninBody.t) :
  store (signin env st req) = st /\
  console (signin env st req) = [] /\
  code (response (signin env st req)) = 200 /\
  body (response (signin env st req)) <> failed "Invalid credential" /\
  ((exists m, In m signin_failures /\
              body (response (signin env st req)) = failed m) \/
   answer_status (response (signin env st req)) = VStr "Success").
Proof.
  destruct (signin_cases env st req) as [[m [Hm H]]|[first [others [_ [_ [_ [_ H]]]]]]];
    rewrite H; repeat split; try reflexivity.
  - simpl. intros E. inversion E as [E']. subst m.
    simpl in Hm. intuition discriminate.
  - left. exists m. split; [assumption | reflexivity].
  - discriminate.
  - right. reflexivity.
Qed.

(** X13.  A token is issued only upon a matching password: whenever the
    answer of a sign-in has a [token] member, the trimmed inputs were
    non-empty, bcrypt resolved to true for the trimmed password against the
    hash of the first stored passenger with the trimmed e-mail, and the
    token is the one signed over that passenger's identifier. *)
Theorem signin_token_only_on_match
    (env : Env) (st : Store) (req : SigninBody.t) :
  answer_token (response (signin env st req)) <> VUndefined ->
  exists first others,
    JsString.trim (SigninBody.email req) <> "" /\
    JsString.trim (SigninBody.password req) <> "" /\
    Passenger_find env st (JsString.trim (SigninBody.email req)) = Ok (first :: others) /\
    bcrypt_compare env (JsString.trim (SigninBody.password req))
      (Passenger.password first) = Ok true /\
    answer_token (response (signin env st req))
      = VJwt [ ("userId", VId (Passenger._id first)) ] "24h".
Proof.
  intros Htok.
  destruct (signin_cases env st req) as [[m [_ H]]|[first [others [He [Hp [Hf [Hc H]]]]]]].
  - rewrite H in Htok. exfalso. apply Htok. reflexivity.
  - exists first, others. rewrite H. repeat split; assumption.
Qed.

Lemma signin_token_only_on_match_witness :
  exists first others,
    JsString.trim " a@b.com" <> "" /\
    JsString.trim "password1 " <> "" /\
    Passenger_find Sample.env Sample.st (JsString.trim " a@b.com") = Ok (first :: others) /\
    bcrypt_compare Sample.env (JsString.trim "password1 ") (Passenger.password first)
      = Ok true /\
    answer_token (response (signin Sample.env Sample.st
       {| SigninBody.email := " a@b.com"; SigninBody.password := "password1 " |}))
      = VJwt [ ("userId", VId (Passenger._id first)) ] "24h".
Proof.
  apply (signin_token_only_on_match Sample.env Sample.st
           {| SigninBody.email := " a@b.com"; SigninBody.password := "password1 " |}).
  vm_compute. discriminate.
Defined.

(** X14.  Signing in with an e-mail that no passenger has (the inputs
    non-empty and the database answering) is answered [No existing User with
    input email], also when a driver has that e-mail: this route looks among
    the passengers only. *)
Theorem signin_unknown_email
    (env : Env) (st : Store) (req : SigninBody.t) :
  db_read_error env = None ->
  JsString.trim (SigninBody.email req) <> "" ->
  JsString.trim (SigninBody.password req) <> "" ->
  ~ In (JsString.trim (SigninBody.email req)) (map Passenger.email (passengers st)) ->
  signin env st req = reply st (json (failed "No existing User with input email")).
Proof.
  intros Hdb He Hp Hnone. unfold signin.
  destruct (String.eqb_spec (JsString.trim (SigninBody.email req)) "") as [|_];
    [contradiction|].
  destruct (String.eqb_spec (JsString.trim (SigninBody.password req)) "") as [|_];
    [contradiction|].
  simpl. unfold Passenger_find, query. rewrite Hdb.
  assert (Hf : filter (fun p => Passenger.email p =? JsString.trim (SigninBody.email req))
                 (passengers st) = []).
  { induction (passengers st) as [|p l IH]; simpl in *; [reflexivity|].
    destruct (String.eqb_spec (Passenger.email p) (JsString.trim (SigninBody.email req)))
      as [E|_].
    - exfalso. apply Hnone. left. exact E.
    - apply IH. intros Hc. apply Hnone. right. exact Hc. }
  rewrite Hf. reflexivity.
Qed.

(** Dave is a driver; the passenger sign-in does not know him. *)
Lemma signin_unknown_email_witness :
  In "dave@cars.io" (map Driver.email (drivers Sample.st)) /\
  signin Sample.env Sample.st
    {| SigninBody.email := "dave@cars.io"; SigninBody.password := "password1" |}
  = reply Sample.st (json (failed "No existing User with input email")).
Proof.
  split; [left; reflexivity|].
  apply (signin_unknown_email Sample.env Sample.st
           {| SigninBody.email := "dave@cars.io"; SigninBody.password := "password1" |}).
  - reflexivity.
  - vm_compute. discriminate.
  - vm_compute. discriminate.
  - simpl. intros [H|[H|[]]]; discriminate.
Defined.

(* ================================================================== *)
(** ** Further properties: profile update *)
(* ================================================================== *)

(** The answer of a successful update. *)
Lemma update_cases (env : Env) (st : Store) (userId : ObjectId) (req : UpdateBody.t) :
  (store (update env st userId req) = st /\
   console (update env st userId req) = [] /\
   In (code (response (update env st userId req))) [400; 404; 500] /\
   update_refused env st userId req) \/
  (exists user u',
     db_read_error env = None /\
     db_save_error env = None /\
     find (fun p => Nat.eqb (Passenger._id p) userId) (passengers st) = Some user /\
     update env st userId req =
       reply (with_passengers st
                (map (fun q => if Nat.eqb (Passenger._id q) (Passenger._id u') then u' else q)
                     (passengers st)))
             (status 200 (VObj [ ("status", VStr "SUCCESS");
                                 ("message", VStr "Profile updated successfully");
                                 ("data", VObj (Passenger._doc u')) ])) /\
     Passenger._id u' = Passenger._id user /\
     Passenger.avatar u' = Passenger.avatar user /\
     Passenger.password u' =
       match given (UpdateBody.newPassword req) with
       | Some p => match bcrypt_hash env p with
                   | Ok h => h
                   | Throw _ => Passenger.password user
                   end
       | None => Passenger.password user
       end /\
     (forall p, given (UpdateBody.newPassword req) = Some p ->
                exists h, bcrypt_hash env p = Ok h) /\
     (forall e, given (UpdateBody.email req) = Some e ->
                e <> Passenger.email user -> email_in_use st e = false)).
Proof.
  unfold update, Passenger_findById, query.
  destruct (db_read_error env) as [m|] eqn:Hdb; simpl.
  { left. repeat split; try reflexivity; [simpl; tauto|].
    left. rewrite Hdb. discriminate. }
  destruct (find _ (passengers st)) as [user|] eqn:Hfind; simpl.
  2: { left. repeat split; try reflexivity; [simpl; tauto|].
       right. left. exact Hfind. }
  assert (K : Passenger._id (update_name_phone user req) = Passenger._id user /\
              Passenger.email (update_name_phone user req) = Passenger.email user /\
              Passenger.avatar (update_name_phone user req) = Passenger.avatar user /\
              Passenger.password (update_name_phone user req) = Passenger.password user).
  { unfold update_name_phone.
    destruct (given (UpdateBody.name req)), (given (UpdateBody.phonenumber req));
      repeat split; reflexivity. }
  destruct K as [Kid [Kemail [Kavatar Kpw]]]. rewrite Kemail.
  remember (update_name_phone user req) as u0 eqn:Eu0. clear Eu0.
  unfold save.
  assert (Tail : forall u,
    Passenger._id u = Passenger._id user ->
    Passenger.avatar u = Passenger.avatar user ->
    Passenger.password u = Passenger.password user ->
    forall G : Outcome -> Prop,
    (forall o, store o = st -> console o = [] -> In (code (response o)) [400; 404; 500] ->
               ((exists p err, given (UpdateBody.newPassword req) = Some p /\
                               bcrypt_hash env p = Throw err) \/
                db_save_error env <> None) ->
               G o) ->
    (forall u',
       db_save_error env = None ->
       Passenger._id u' = Passenger._id user ->
       Passenger.avatar u' = Passenger.avatar user ->
       Passenger.password u' =
         match given (UpdateBody.newPassword req) with
         | Some p => match bcrypt_hash env p with
                     | Ok h => h
                     | Throw _ => Passenger.password user
                     end
         | None => Passenger.password user
         end ->
       (forall p, given (UpdateBody.newPassword req) = Some p ->
                  exists h, bcrypt_hash env p = Ok h) ->
       G (reply (with_passengers st
                   (map (fun q => if Nat.eqb (Passenger._id q) (Passenger._id u')
                                  then u' else q) (passengers st)))
                (status 200 (VObj [ ("status", VStr "SUCCESS");
                                    ("message", VStr "Profile updated successfully");
                                    ("data", VObj (Passenger._doc u')) ])))) ->
    G (match
         (user0 <- match given (UpdateBody.newPassword req) with
                   | Some newPassword =>
                       hashPassword <- bcrypt_hash env newPassword ;;
                       Ok (set_password u hashPassword)
                   | None => Ok u
                   end ;;
          st' <- match db_save_error env with
                 | Some m => Throw (Failure m)
                 | None =>
                     Ok (with_passengers st
                           (map (fun q => if Nat.eqb (Passenger._id q) (Passenger._id user0)
                                          then user0 else q) (passengers st)))
                 end ;;
          Ok (st', status 200 (VObj (object
                 [ Field "status" (VStr "SUCCESS");
                   Field "message" (VStr "Profile updated successfully");
                   Field "data" (VObj (Passenger._doc user0)) ]))))
       with
       | Ok (st', r) => reply st' r
       | Throw err => reply st (status 500 (message_body (message err)))
       end)).
  { intros u Uid Uav Upw G Gfail Gok.
    destruct (given (UpdateBody.newPassword req)) as [p|] eqn:Gp.
    - destruct (bcrypt_hash env p) as [h|err] eqn:Hh; simpl.
      + destruct (db_save_error env) as [ms|]; simpl.
        * apply Gfail; try reflexivity; [simpl; tauto | right; discriminate].
        * apply (Gok (set_password u h)); simpl;
            [reflexivity | assumption | assumption | reflexivity
            | intros p' E; inversion E; subst; exists h; assumption].
      + apply Gfail; try reflexivity; [simpl; tauto|].
        left. exists p, err. split; [reflexivity | assumption].
    - simpl. destruct (db_save_error env) as [ms|]; simpl.
      + apply Gfail; try reflexivity; [simpl; tauto | right; discriminate].
      + apply (Gok u); simpl;
          [reflexivity | assumption | assumption | assumption
          | intros p' E; discriminate]. }
  assert (Hrefused : forall o,
    store o = st -> console o = [] -> In (code (response o)) [400; 404; 500] ->
    ((exists p err, given (UpdateBody.newPassword req) = Some p /\
                    bcrypt_hash env p = Throw err) \/
     db_save_error env <> None) ->
    store o = st /\ console o = [] /\ In (code (response o)) [400; 404; 500] /\
    update_refused env st userId req).
  { intros o H1 H2 H3 H4. repeat split; try assumption.
    destruct H4 as [H4|H4]; [right; right; right; left | right; right; right; right];
      assumption. }
  destruct (given (UpdateBody.email req)) as [e|] eqn:Ge.
  - destruct (String.eqb_spec e (Passenger.email user)) as [Ee|Ee]; simpl.
    + apply (Tail u0 Kid Kavatar Kpw).
      * intros o H1 H2 H3 H4. left. apply Hrefused; assumption.
      * intros u' H0 H1 H2 H3 H4. right. exists user, u'.
        repeat split; try assumption. intros e' E Hne. inversion E; subst. contradiction.
    + rewrite (emailExistsInBoth_ok env st e Hdb).
      destruct (email_in_use st e) eqn:Hu; simpl.
      * left. repeat split; try reflexivity; [simpl; tauto|].
        right. right. left. exists user, e. repeat split; assumption.
      * apply (Tail (set_email u0 (JsString.trim e)) Kid Kavatar Kpw).
        -- intros o H1 H2 H3 H4. left. apply Hrefused; assumption.
        -- intros u' H0 H1 H2 H3 H4. right. exists user, u'.
           repeat split; try assumption. intros e' E Hne. inversion E; subst. assumption.
  - simpl. apply (Tail u0 Kid Kavatar Kpw).
    + intros o H1 H2 H3 H4. left. apply Hrefused; assumption.
    + intros u' H0 H1 H2 H3 H4. right. exists user, u'.
      repeat split; try assumption. intros e' E. discriminate.
Qed.

(** For fields that are strings or absent, a profile update is answered
    200 exactly when none of five things happens (the database not
    answering, an unknown passenger, a different e-mail that is in use,
    bcrypt failing on the new password, the save failing); in each of those
    cases the answer is 400, 404 or 500 and nothing at all is stored. *)
Lemma update_all_or_nothing
    (env : Env) (st : Store) (userId : ObjectId) (req : UpdateBody.t) :
  (code (response (update env st userId req)) = 200 <->
   ~ update_refused env st userId req) /\
  (update_refused env st userId req ->
   store (update env st userId req) = st /\
   In (code (response (update env st userId req))) [400; 404; 500]).
Proof.
  destruct (update_cases env st userId req)
    as [[Hst [_ [Hcode Href]]]
       |[user [u' [Hdb [Hsave [Hfind [H [_ [_ [_ [Hhash Hfree]]]]]]]]]]].
  - split.
    + split; [|intros Hn; contradiction].
      intros H200. rewrite H200 in Hcode. simpl in Hcode. intuition discriminate.
    + intros _. split; assumption.
  - assert (Hnot : ~ update_refused env st userId req).
    { intros [R|[R|[[user0 [e [Hf [Hg [Hne Hu]]]]]|[[p [err [Hg Ht]]]|R]]]].
      - contradiction.
      - congruence.
      - rewrite Hfind in Hf. inversion Hf; subst user0.
        rewrite (Hfree e Hg Hne) in Hu. discriminate.
      - destruct (Hhash p Hg) as [h Hh]. congruence.
      - contradiction. }
    split.
    + split; [intros _; exact Hnot | intros _; rewrite H; reflexivity].
    + intros R. contradiction.
Qed.

(** Bob asks for a new password while bcrypt is out of order: 500, and his
    new name is not stored either. *)
Lemma update_all_or_nothing_witness :
  let env :=
    {| db_read_error := None; db_save_error := None;
       bcrypt_hash := fun _ => Throw (Failure "out of memory");
       bcrypt_compare := bcrypt_compare Sample.env;
       verifyGoogleToken := verifyGoogleToken Sample.env;
       math_random := ""; new_object_id := 100; base64 := fun s => s |} in
  let req :=
    {| UpdateBody.name := Some "Robert"; UpdateBody.phonenumber := None;
       UpdateBody.email := None; UpdateBody.newPassword := Some "correct horse" |} in
  store (update env Sample.st 2 req) = Sample.st /\
  In (code (response (update env Sample.st 2 req))) [400; 404; 500].
Proof.
  intros env req.
  apply (proj2 (update_all_or_nothing env Sample.st 2 req)).
  right. right. right. left. exists "correct horse", (Failure "out of memory").
  split; reflexivity.
Defined.



Lemma map_id_replace (l : list Passenger.t) (u' : Passenger.t) :
  map Passenger._id
    (map (fun q => if Nat.eqb (Passenger._id q) (Passenger._id u') then u' else q) l)
  = map Passenger._id l.
Proof.
  induction l as [|q l IH]; simpl; [reflexivity|].
  rewrite IH. destruct (Nat.eqb_spec (Passenger._id q) (Passenger._id u')) as [E|_];
    [rewrite E|]; reflexivity.
Qed.

(** X17.  A profile update touches one passenger only: drivers, join
    requests and posts are as before, the identifiers of the passengers are
    the same in the same order, and every passenger whose identifier is not
    the caller's is stored unchanged. *)
Theorem update_frame
    (env : Env) (st : Store) (userId : ObjectId) (req : UpdateBody.t) :
  let st' := store (update env st userId req) in
  drivers st' = drivers st /\
  joinRequests st' = joinRequests st /\
  driverPosts st' = driverPosts st /\
  passengerPosts st' = passengerPosts st /\
  map Passenger._id (passengers st') = map Passenger._id (passengers st) /\
  (forall q, In q (passengers st) -> Passenger._id q <> userId ->
             In q (passengers st')) /\
  (forall q, In q (passengers st') -> Passenger._id q <> userId ->
             In q (passengers st)).
Proof.
  intros st'. unfold st'.
  destruct (update_cases env st userId req)
    as [[Hst _]|[user [u' [_ [_ [Hfind [H [Hid _]]]]]]]].
  - rewrite Hst. repeat split; trivial.
  - rewrite H. simpl.
    assert (Hu : Passenger._id u' = userId).
    { apply find_some in Hfind. destruct Hfind as [_ E]. apply Nat.eqb_eq in E.
      congruence. }
    repeat split; try reflexivity.
    + apply map_id_replace.
    + intros q Hq Hne. apply in_map_iff. exists q. split; [|assumption].
      destruct (Nat.eqb_spec (Passenger._id q) (Passenger._id u')) as [E|_];
        [congruence | reflexivity].
    + intros q Hq Hne. apply in_map_iff in Hq. destruct Hq as [q0 [E Hq0]].
      destruct (Nat.eqb (Passenger._id q0) (Passenger._id u')); subst q;
        [congruence | assumption].
Qed.

Lemma update_frame_witness :
  In Sample.alice
     (passengers (store (update Sample.env Sample.st 2
        {| UpdateBody.name := Some "Robert"; UpdateBody.phonenumber := Some "2";
           UpdateBody.email := Some "rob@x.org"; UpdateBody.newPassword := Some "pw" |}))).
Proof.
  apply (update_frame Sample.env Sample.st 2).
  - left. reflexivity.
  - vm_compute. discriminate.
Defined.

(** X18.  A new password is hashed exactly as submitted: for an existing
    passenger (the database answering, any submitted e-mail free), every
    non-empty [newPassword], of any length and with its white space kept, is
    given to bcrypt untrimmed and the result is what the stored record then
    holds; without a [newPassword] the stored hash is kept. *)
Theorem update_password_hashes_as_submitted
    (env : Env) (st : Store) (userId : ObjectId) (user : Passenger.t)
    (req : UpdateBody.t) :
  db_read_error env = None ->
  db_save_error env = None ->
  find (fun p => Nat.eqb (Passenger._id p) userId) (passengers st) = Some user ->
  (forall e, given (UpdateBody.email req) = Some e ->
             e <> Passenger.email user -> email_in_use st e = false) ->
  (forall p, given (UpdateBody.newPassword req) = Some p ->
             exists h, bcrypt_hash env p = Ok h) ->
  exists u',
    code (response (update env st userId req)) = 200 /\
    find (fun p => Nat.eqb (Passenger._id p) userId)
         (passengers (store (update env st userId req))) = Some u' /\
    (forall p h, given (UpdateBody.newPassword req) = Some p ->
                 bcrypt_hash env p = Ok h -> Passenger.password u' = h) /\
    (given (UpdateBody.newPassword req) = None ->
     Passenger.password u' = Passenger.password user).
Proof.
  intros Hdb Hsave Hfind Hfree Hhash.
  destruct (update_cases env st userId req)
    as [[_ [_ [_ Href]]]
       |[user0 [u' [_ [_ [Hfind0 [H [Hid [_ [Hpw _]]]]]]]]]].
  - exfalso.
    destruct Href as [R|[R|[[user0 [e [Hf [Hg [Hne Hu]]]]]|[[p [err [Hg Ht]]]|R]]]].
    + contradiction.
    + congruence.
    + rewrite Hfind in Hf. inversion Hf; subst user0.
      rewrite (Hfree e Hg Hne) in Hu. discriminate.
    + destruct (Hhash p Hg) as [h Hh]. congruence.
    + contradiction.
  - rewrite Hfind in Hfind0. inversion Hfind0; subst user0.
    exists u'. rewrite H. split; [reflexivity|]. split.
    + simpl. apply find_replaced with (user := user); assumption.
    + split.
      * intros p h Hg Hh. rewrite Hpw, Hg, Hh. reflexivity.
      * intros Hg. rewrite Hpw, Hg. reflexivity.
Qed.

(** Bob's new password is a blank and a letter. *)
Lemma update_password_hashes_as_submitted_witness :
  exists u',
    code (response (update Sample.env Sample.st 2
       {| UpdateBody.name := None; UpdateBody.phonenumber := None;
          UpdateBody.email := None; UpdateBody.newPassword := Some " x" |})) = 200 /\
    find (fun p => Nat.eqb (Passenger._id p) 2)
         (passengers (store (update Sample.env Sample.st 2
       {| UpdateBody.name := None; UpdateBody.phonenumber := None;
          UpdateBody.email := None; UpdateBody.newPassword := Some " x" |}))) = Some u' /\
    Passenger.password u' = "$2b$10$ x".
Proof.
  destruct (update_password_hashes_as_submitted Sample.env Sample.st 2 Sample.bob
              {| UpdateBody.name := None; UpdateBody.phonenumber := None;
                 UpdateBody.email := None; UpdateBody.newPassword := Some " x" |})
    as [u' [Hcode [Hfind [Hpw _]]]].
  - reflexivity.
  - reflexivity.
  - reflexivity.
  - intros e Hg. vm_compute in Hg. discriminate.
  - intros p Hg. vm_compute in Hg. inversion Hg. eexists. reflexivity.
  - exists u'. split; [exact Hcode|]. split; [exact Hfind|].
    apply (Hpw " x"); reflexivity.
Defined.

(* ================================================================== *)
(** ** Further properties: federated sign-up *)
(* ================================================================== *)

(** The three ways [POST /google-signup] ends. *)
Lemma google_signup_cases (env : Env) (st : Store) (token : string) :
  (exists e,
     google_signup env st token =
       {| store := st;
          response := status 500 (VObj [ ("message", VStr "Internal server error") ]);
          console := [LogError "Error verifying Google token:" e] |}) \/
  (exists email name,
     verifyGoogleToken env token = Ok (email, name) /\
     email_in_use st email = true /\
     google_signup env st token =
       reply st
         (status 200
            (VObj [ ("message", VStr "User authenticated successfully");
                    ("token", VJwt [ ("userId", VUndefined) ] "24h");
                    ("user", VBool true) ]))) \/
  (exists email name h,
     verifyGoogleToken env token = Ok (email, name) /\
     email_in_use st email = false /\
     bcrypt_hash env (math_random env) = Ok h /\
     let user :=
       {| Passenger._id := new_object_id env; Passenger.email := email;
          Passenger.password := h; Passenger.name := name;
          Passenger.phonenumber := ""; Passenger.avatar := None |} in
     google_signup env st token =
       reply (with_passengers st (passengers st ++ [user]))
         (status 200
            (VObj [ ("message", VStr "User authenticated successfully");
                    ("token", VJwt [ ("userId", VId (new_object_id env)) ] "24h");
                    ("user", VObj (Passenger._doc user)) ]))).
Proof.
  unfold google_signup.
  destruct (verifyGoogleToken env token) as [[email name]|e] eqn:Hv; simpl;
    [|left; eexists; reflexivity].
  destruct (emailExistsInBoth_cases env st email) as [Hq|[m Hq]]; rewrite Hq; simpl;
    [|left; eexists; reflexivity].
  destruct (email_in_use st email) eqn:Hu; simpl.
  - right. left. exists email, name. repeat split; try assumption; reflexivity.
  - destruct (bcrypt_hash env (math_random env)) as [h|e] eqn:Hh; simpl;
      [|left; eexists; reflexivity].
    unfold save_new. destruct (db_save_error env) as [m|] eqn:Hs; simpl;
      [left; eexists; reflexivity|].
    right. right. exists email, name, h. repeat split; try assumption; reflexivity.
Qed.

(** X19.  A first federated sign-up (the assertion verifying to an e-mail
    that nobody has, bcrypt and the database working) appends one passenger
    with the e-mail and name of the assertion as they are, an empty phone
    number, no avatar and, as password, the bcrypt hash of the text of a
    random number; the answer is 200 with that document and a token signed
    over the new identifier, valid for 24 hours.  The record so created does
    not pass the phone pattern of registration. *)
Theorem google_signup_creates_passenger
    (env : Env) (st : Store) (token email name h : string) :
  verifyGoogleToken env token = Ok (email, name) ->
  db_read_error env = None ->
  db_save_error env = None ->
  email_in_use st email = false ->
  bcrypt_hash env (math_random env) = Ok h ->
  let user :=
    {| Passenger._id := new_object_id env; Passenger.email := email;
       Passenger.password := h; Passenger.name := name;
       Passenger.phonenumber := ""; Passenger.avatar := None |} in
  passengers (store (google_signup env st token)) = (passengers st ++ [user])%list /\
  drivers (store (google_signup env st token)) = drivers st /\
  response (google_signup env st token) =
    status 200
      (VObj [ ("message", VStr "User authenticated successfully");
              ("token", VJwt [ ("userId", VId (new_object_id env)) ] "24h");
              ("user", VObj (Passenger._doc user)) ]) /\
  RegExp.test RegExp.phone_re (Passenger.phonenumber user) = false.
Proof.
  intros Hv Hdb Hsave Hu Hh user. unfold google_signup.
  rewrite Hv. simpl. rewrite (emailExistsInBoth_ok env st email Hdb), Hu. simpl.
  rewrite Hh. simpl. unfold save_new. rewrite Hsave. simpl.
  repeat split; reflexivity.
Qed.

Lemma google_signup_creates_passenger_witness :
  let st := with_passengers Sample.st [Sample.bob] in
  let user :=
    {| Passenger._id := 100; Passenger.email := "a@b.com";
       Passenger.password := "$2b$10$271828.1828"; Passenger.name := "Alice";
       Passenger.phonenumber := ""; Passenger.avatar := None |} in
  passengers (store (google_signup Sample.env st "google-id-token-of-alice"))
    = [Sample.bob; user] /\
  drivers (store (google_signup Sample.env st "google-id-token-of-alice")) = drivers st /\
  response (google_signup Sample.env st "google-id-token-of-alice") =
    status 200
      (VObj [ ("message", VStr "User authenticated successfully");
              ("token", VJwt [ ("userId", VId 100) ] "24h");
              ("user", VObj (Passenger._doc user)) ]) /\
  RegExp.test RegExp.phone_re (Passenger.phonenumber user) = false.
Proof.
  intros st user.
  apply (google_signup_creates_passenger Sample.env st
           "google-id-token-of-alice" "a@b.com" "Alice" "$2b$10$271828.1828");
    reflexivity.
Defined.


(** A federated sign-up that runs with no other write between its
    existence check and its save keeps e-mails unique. *)
Lemma google_signup_preserves_unique_emails
    (env : Env) (st : Store) (token : string) :
  NoDup (emails st) -> NoDup (emails (store (google_signup env st token))).
Proof.
  intros Hnd.
  destruct (google_signup_cases env st token)
    as [[e H]|[[email [name [_ [_ H]]]]|[email [name [h [_ [Hu [_ H]]]]]]]].
  - rewrite H. exact Hnd.
  - rewrite H. exact Hnd.
  - simpl in H. rewrite H.
    assert (Hfresh : ~ In email (emails st)).
    { intros Hc. apply email_in_use_In in Hc. congruence. }
    unfold emails in *. simpl. rewrite map_app. simpl.
    rewrite <- app_assoc. simpl.
    apply NoDup_app.
    + apply NoDup_app_remove_r in Hnd. exact Hnd.
    + constructor.
      * intros Hc. apply Hfresh. apply in_or_app. right. exact Hc.
      * apply NoDup_app_remove_l in Hnd. exact Hnd.
    + intros a Ha [<-|Hd].
      * apply Hfresh. apply in_or_app. left. exact Ha.
      * revert a Ha Hd. clear -Hnd.
        induction (map Passenger.email (passengers st)) as [|x l IH];
          intros a Ha Hd; [contradiction|].
        simpl in Hnd. inversion Hnd as [|y l' Hx Hl]; subst.
        destruct Ha as [->|Ha].
        -- apply Hx. apply in_or_app. right. exact Hd.
        -- apply (IH Hl a Ha Hd).
Qed.

Lemma google_signup_preserves_unique_emails_witness :
  NoDup (emails (store (google_signup Sample.env
                          (with_passengers Sample.st [Sample.bob])
                          "google-id-token-of-alice"))).
Proof.
  apply google_signup_preserves_unique_emails.
  vm_compute.
  repeat (constructor; [simpl; intuition discriminate|]). constructor.
Defined.

(* ================================================================== *)
(** ** Further properties: the profile and the listings *)
(* ================================================================== *)

Lemma mapM_Forall2 {A B : Type} (f : A -> Result B) (l : list A) (bs : list B) :
  mapM f l = Ok bs -> Forall2 (fun a b => f a = Ok b) l bs.
Proof.
  revert bs. induction l as [|a l IH]; intros bs H; simpl in H.
  - inversion H. constructor.
  - destruct (f a) as [b|e] eqn:Ea; simpl in H; [|discriminate].
    destruct (mapM f l) as [bs0|e] eqn:El; simpl in H; [|discriminate].
    inversion H; subst. constructor; [assumption | apply IH; reflexivity].
Qed.

Lemma Forall2_map_l {A B C : Type} (g : A -> B) (R : B -> C -> Prop)
    (l : list A) (cs : list C) :
  Forall2 R (map g l) cs -> Forall2 (fun a c => R (g a) c) l cs.
Proof.
  revert cs. induction l as [|a l IH]; intros cs H; simpl in H.
  - inversion H. constructor.
  - inversion H; subst. constructor; [assumption | apply IH; assumption].
Qed.

Lemma view_of_populated (st : Store) (r : JoinRequest.t) (v : Obj) :
  rideshareDetails (populate st r) = Ok v ->
  exists p, In p (driverPosts st) /\
            DriverPost._id p = JoinRequest.driverPostId r /\
            view_of r p v.
Proof.
  intros H. destruct (rideshareDetails_ok _ _ H) as [p [Hp ->]].
  simpl in Hp. apply find_some in Hp. destruct Hp as [Hin Hid].
  apply Nat.eqb_eq in Hid. exists p. split; [assumption|]. split; [assumption|].
  unfold view_of. simpl. rewrite Hid.
  destruct (String.eqb_spec (JoinRequest.status r) "accepted") as [E|E].
  - repeat split; reflexivity.
  - repeat split; try reflexivity; contradiction.
Qed.

(** X22.  When the database answers and every join request of the
    passenger resolves, [GET /my-join-requests] returns exactly one view per
    join request of that passenger and of nobody else, in stored order; each
    view carries the identifier and route members of the post its request
    references, the request's own status and, for an accepted request, the
    post's four contact members. *)
Theorem my_join_requests_lists_own_requests
    (env : Env) (st : Store) (passengerId : ObjectId) :
  db_read_error env = None ->
  (forall r, ~ dangling st passengerId r) ->
  exists views,
    my_join_requests env st passengerId = reply st (json (VArr (map VObj views))) /\
    Forall2 (fun r v => exists p, In p (driverPosts st) /\
                                  DriverPost._id p = JoinRequest.driverPostId r /\
                                  view_of r p v)
            (requests_of st passengerId) views.
Proof.
  intros Hdb Hres. destruct (resolved_maps _ _ Hres) as [views Hv].
  exists views. split.
  - unfold my_join_requests, joinRequest_find_populate, query.
    rewrite Hdb. simpl. rewrite Hv. reflexivity.
  - apply mapM_Forall2 in Hv. apply Forall2_map_l in Hv. unfold requests_of.
    revert Hv. apply Forall2_impl. intros r v. apply view_of_populated.
Qed.

Lemma my_join_requests_lists_own_requests_witness :
  exists views,
    my_join_requests Sample.env Sample.st 1 = reply Sample.st (json (VArr (map VObj views))) /\
    Forall2 (fun r v => exists p, In p (driverPosts Sample.st) /\
                                  DriverPost._id p = JoinRequest.driverPostId r /\
                                  view_of r p v)
            (requests_of Sample.st 1) views.
Proof.
  apply (my_join_requests_lists_own_requests Sample.env Sample.st 1).
  - reflexivity.
  - intros r [Hin [_ Hf]]. simpl in Hin.
    destruct Hin as [<-|[<-|[]]]; vm_compute in Hf; discriminate.
Defined.

(** X23.  For a passenger that exists, the [rideshares] of [GET /profile]
    are the very list that [GET /my-join-requests] returns, and both are
    empty together when the database fails or a reference dangles. *)
Theorem profile_and_listing_agree
    (env : Env) (st : Store) (userId : ObjectId) (user : Passenger.t) :
  find (fun p => Nat.eqb (Passenger._id p) userId) (passengers st) = Some user ->
  profile_rideshares (response (profile env st userId)) =
  listing_rideshares (response (my_join_requests env st userId)).
Proof.
  intros Hfind.
  unfold profile, my_join_requests, Passenger_findById, joinRequest_find_populate,
    Passengerpost_find, query.
  destruct (db_read_error env); simpl; [reflexivity|].
  rewrite Hfind. simpl.
  destruct (mapM rideshareDetails _) as [rideshares|e]; simpl; [|reflexivity].
  match goal with
  | |- context [userProfile user ?a ?r ?p] =>
      unfold profile_rideshares; cbv beta iota delta [body json];
      destruct (userProfile_get user a r p) as [-> _]
  end.
  reflexivity.
Qed.

Lemma profile_and_listing_agree_witness :
  profile_rideshares (response (profile Sample.env Sample.st 1)) =
  listing_rideshares (response (my_join_requests Sample.env Sample.st 1)).
Proof.
  apply (profile_and_listing_agree Sample.env Sample.st 1 Sample.alice). reflexivity.
Defined.


(* ================================================================== *)
(** ** Further properties: the driver-post listing and the avatar *)
(* ================================================================== *)

(** X25.  [GET /driverposts] gives every caller every driver post, in
    stored order, and each entry carries the post's licence number, vehicle
    model, phone number and e-mail, whether or not the caller has any join
    request against it; when the database fails the answer is a 500 with a
    fixed message and the error is only logged. *)
Theorem driverposts_discloses_every_post (env : Env) (st : Store) :
  (db_read_error env = None ->
   store (driverposts env st) = st /\
   code (response (driverposts env st)) = 200 /\
   map (obj_get "_id")
       (map own_props (answer_array (response (driverposts env st))))
     = map (fun p => VId (DriverPost._id p)) (driverPosts st) /\
   forall p, In p (driverPosts st) ->
     exists o,
       In (VObj o) (answer_array (response (driverposts env st))) /\
       obj_get "_id" o = VId (DriverPost._id p) /\
       obj_get "licensenumber" o = DriverPost.licensenumber p /\
       obj_get "model" o = DriverPost.model p /\
       obj_get "phonenumber" o = DriverPost.phonenumber p /\
       obj_get "email" o = DriverPost.email p) /\
  (forall m, db_read_error env = Some m ->
     driverposts env st =
       {| store := st;
          response := status 500 (VObj [ ("message", VStr "Failed to fetch driver posts") ]);
          console := [LogError "Failed to fetch driver posts:" (Failure m)] |}).
Proof.
  unfold driverposts, Driverpost_find, query. split.
  - intros Hdb. rewrite Hdb. simpl. unfold answer_array. simpl.
    split; [reflexivity|]. split; [reflexivity|]. split.
    + rewrite !map_map. apply map_ext. intros p. reflexivity.
    + intros p Hp. exists (DriverPost_doc p). split.
      * apply in_map_iff. exists p. split; [reflexivity | assumption].
      * repeat split; reflexivity.
  - intros m Hdb. rewrite Hdb. reflexivity.
Qed.

(** The pending request of Alice does not hide the contact members of
    post 10 in the listing of all posts. *)
Lemma driverposts_discloses_every_post_witness :
  exists o,
    In (VObj o) (answer_array (response (driverposts Sample.env Sample.st))) /\
    obj_get "_id" o = VId 10 /\
    obj_get "licensenumber" o = VStr "7ABC123" /\
    obj_get "model" o = VStr "Civic" /\
    obj_get "phonenumber" o = VStr "5559998888" /\
    obj_get "email" o = VStr "dave@cars.io".
Proof.
  destruct (proj1 (driverposts_discloses_every_post Sample.env Sample.st) eq_refl)
    as [_ [_ [_ H]]].
  apply (H (Sample.post 10 "UCLA" "LAX")). left. reflexivity.
Defined.

Lemma matches_lit (w s : string) : RegExp.matches (Upload.lit w) s = (s =? w).
Proof.
  revert s. induction w as [|a w IH]; intros s; simpl Upload.lit.
  - apply matches_Eps.
  - rewrite matches_Cat_Class. destruct s as [|c s]; [reflexivity|].
    rewrite IH. unfold RegExp.chr. simpl. destruct (Ascii.eqb c a); reflexivity.
Qed.

Lemma matches_image_re (s : string) :
  RegExp.matches Upload.image_re s =
    (s =? ".jpg") || (s =? ".jpeg") || (s =? ".png").
Proof.
  unfold Upload.image_re. rewrite matches_Cat_Class.
  destruct s as [|c s]; [reflexivity|].
  rewrite !RegExpFacts.matches_Alt, !matches_lit. unfold RegExp.chr. simpl.
  destruct (Ascii.eqb c "."); simpl; [apply orb_assoc | reflexivity].
Qed.

Lemma match_to_end_spec (r : RegExp.regex) (s : string) :
  Upload.match_to_end r s = true <->
  exists stem suffix, s = stem ++ suffix /\ RegExp.matches r suffix = true.
Proof.
  induction s as [|c s IH]; simpl.
  - rewrite orb_false_r. split.
    + intros H. exists "", "". split; [reflexivity | exact H].
    + intros [stem [suffix [E H]]]. symmetry in E.
      apply RegExpFacts.append_empty in E. destruct E; subst. exact H.
  - rewrite orb_true_iff, IH. split.
    + intros [H|[stem [suffix [-> H]]]].
      * exists "", (String c s). split; [reflexivity | exact H].
      * exists (String c stem), suffix. split; [reflexivity | exact H].
    + intros [stem [suffix [E H]]]. destruct stem as [|c' stem]; simpl in E.
      * left. subst suffix. exact H.
      * right. inversion E; subst. exists stem, suffix. split; [reflexivity | exact H].
Qed.

(** X26.  The upload filter accepts a file exactly when its original name
    ends in [.jpg], [.jpeg] or [.png], in lower case, whatever precedes the
    extension; any other name is refused with the message asking for an
    image file. *)
Theorem fileFilter_accepts_image_extensions (file : UploadedFile.t) :
  (Upload.fileFilter file = Ok true <->
   exists stem,
     UploadedFile.originalname file = stem ++ ".jpg" \/
     UploadedFile.originalname file = stem ++ ".jpeg" \/
     UploadedFile.originalname file = stem ++ ".png") /\
  (Upload.fileFilter file = Ok true \/
   Upload.fileFilter file
     = Throw (Failure "Please upload an image file (jpg, jpeg, or png).")).
Proof.
  unfold Upload.fileFilter.
  destruct (Upload.match_to_end Upload.image_re (UploadedFile.originalname file)) eqn:E;
    simpl.
  - split; [|left; reflexivity]. split; [intros _|reflexivity].
    apply match_to_end_spec in E. destruct E as [stem [suffix [-> H]]].
    rewrite matches_image_re in H. exists stem.
    apply orb_true_iff in H. destruct H as [H|H];
      [apply orb_true_iff in H; destruct H as [H|H]|];
      apply String.eqb_eq in H; subst; tauto.
  - split; [|right; reflexivity]. split; [discriminate|].
    intros [stem H]. exfalso.
    assert (Ht : Upload.match_to_end Upload.image_re (UploadedFile.originalname file) = true).
    { apply match_to_end_spec.
      destruct H as [H|[H|H]]; rewrite H; eexists _, _; (split; [reflexivity|]);
        reflexivity. }
    congruence.
Qed.

Lemma fileFilter_accepts_image_extensions_witness :
  Upload.fileFilter {| UploadedFile.originalname := "me.at.the.beach.jpeg";
                       UploadedFile.size := 1024; UploadedFile.buffer := "bytes" |}
  = Ok true.
Proof.
  apply (proj2 (proj1 (fileFilter_accepts_image_extensions
           {| UploadedFile.originalname := "me.at.the.beach.jpeg";
              UploadedFile.size := 1024; UploadedFile.buffer := "bytes" |}))).
  exists "me.at.the.beach". right. left. reflexivity.
Defined.




(** The limit is exclusive: a picture of exactly 16 MiB is refused. *)
Lemma avatar_of_exactly_the_limit
    (env : Env) (sharp_png : string -> Result string)
    (st : Store) (userId : ObjectId) (f : UploadedFile.t) :
  Upload.fileFilter f = Ok true ->
  UploadedFile.size f = Upload.fileSize ->
  avatar env sharp_png st userId (Some f)
    = reply st (status 400 (VObj [ ("error", VStr "File too large") ])).
Proof.
  intros Hf Hs. unfold avatar, Upload.single. rewrite Hf, Hs. reflexivity.
Qed.

(** X28.  Upload and profile compose: after an accepted upload (a name
    with an image extension, fewer than 16 MiB, the passenger existing, the
    image library and the database working), the passenger's stored record
    differs only by its avatar, which holds the converted bytes under the
    content type [image/png] whatever the extension of the upload was, and
    [GET /profile] then shows it as the data URL
    [data:image/png;base64,] followed by the base64 text of those bytes. *)
Theorem avatar_then_profile
    (env : Env) (sharp_png : string -> Result string)
    (st : Store) (userId : ObjectId) (user : Passenger.t)
    (f : UploadedFile.t) (buffer : string) :
  db_read_error env = None ->
  db_save_error env = None ->
  find (fun p => Nat.eqb (Passenger._id p) userId) (passengers st) = Some user ->
  Upload.fileFilter f = Ok true ->
  (UploadedFile.size f < Upload.fileSize)%N ->
  sharp_png (UploadedFile.buffer f) = Ok buffer ->
  (forall r, ~ dangling st userId r) ->
  let st' := store (avatar env sharp_png st userId (Some f)) in
  response (avatar env sharp_png st userId (Some f))
    = json (VObj [ ("message", VStr "Avatar updated successfully") ]) /\
  find (fun p => Nat.eqb (Passenger._id p) userId) (passengers st')
    = Some (set_avatar user (Some (png_avatar buffer))) /\
  exists o,
    response (profile env st' userId) = json (VObj o) /\
    obj_get "avatar" o = VStr ("data:image/png;base64," ++ base64 env buffer) /\
    obj_get "email" o = VStr (Passenger.email user) /\
    obj_get "name" o = VStr (Passenger.name user) /\
    obj_get "phonenumber" o = VStr (Passenger.phonenumber user).
Proof.
  intros Hdb Hsave Hfind Hf Hs Hsharp Hres st'.
  assert (Hav : avatar env sharp_png st userId (Some f) =
    reply (with_passengers st
             (map (fun q => if Nat.eqb (Passenger._id q) (Passenger._id user)
                            then set_avatar user (Some (png_avatar buffer)) else q)
                  (passengers st)))
          (json (VObj [ ("message", VStr "Avatar updated successfully") ]))).
  { unfold avatar, Upload.single. rewrite Hf. simpl.
    destruct (N.leb_spec Upload.fileSize (UploadedFile.size f)) as [Hlt|_]; [lia|].
    unfold Passenger_findById, query. rewrite Hdb. simpl. rewrite Hfind. simpl.
    rewrite Hsharp. simpl. unfold save. rewrite Hsave. reflexivity. }
  assert (Hfind' : find (fun p => Nat.eqb (Passenger._id p) userId) (passengers st')
                   = Some (set_avatar user (Some (png_avatar buffer)))).
  { unfold st'. rewrite Hav. simpl.
    apply (find_replaced (passengers st) userId user
             (set_avatar user (Some (png_avatar buffer)))); [assumption | reflexivity]. }
  split; [rewrite Hav; reflexivity|]. split; [exact Hfind'|].
  assert (Hres' : forall r, ~ dangling st' userId r).
  { intros r Hd. apply (Hres r). unfold st' in Hd. rewrite Hav in Hd. exact Hd. }
  destruct (resolved_maps _ _ Hres') as [vs Hvs].
  unfold profile, Passenger_findById, joinRequest_find_populate,
    Passengerpost_find, query.
  rewrite Hdb. simpl. rewrite Hfind'. simpl. rewrite Hvs. simpl.
  match goal with
  | |- context [userProfile ?u ?a ?r ?p] =>
      destruct (userProfile_get u a r p) as [_ [H1 [_ [H2 [H3 [H4 _]]]]]];
      exists (userProfile u a r p)
  end.
  repeat split; assumption.
Qed.

(** Alice uploads a JPEG. *)
Lemma avatar_then_profile_witness :
  let f := {| UploadedFile.originalname := "alice.jpg"; UploadedFile.size := 2048;
              UploadedFile.buffer := "jpeg-bytes" |} in
  let st' := store (avatar Sample.env (fun b => Ok ("png:" ++ b)) Sample.st 1 (Some f)) in
  response (avatar Sample.env (fun b => Ok ("png:" ++ b)) Sample.st 1 (Some f))
    = json (VObj [ ("message", VStr "Avatar updated successfully") ]) /\
  find (fun p => Nat.eqb (Passenger._id p) 1) (passengers st')
    = Some (set_avatar Sample.alice (Some (png_avatar "png:jpeg-bytes"))) /\
  exists o,
    response (profile Sample.env st' 1) = json (VObj o) /\
    obj_get "avatar" o = VStr "data:image/png;base64,png:jpeg-bytes" /\
    obj_get "email" o = VStr "a@b.com" /\
    obj_get "name" o = VStr "Alice" /\
    obj_get "phonenumber" o = VStr "1234567890".
Proof.
  intros f.
  apply (avatar_then_profile Sample.env (fun b => Ok ("png:" ++ b)) Sample.st 1
           Sample.alice f "png:jpeg-bytes").
  - reflexivity.
  - reflexivity.
  - reflexivity.
  - reflexivity.
  - vm_compute. reflexivity.
  - reflexivity.
  - intros r [Hin [_ Hfd]]. simpl in Hin.
    destruct Hin as [<-|[<-|[]]]; vm_compute in Hfd; discriminate.
Defined.

(* ================================================================== *)
(** ** Bodies whose fields are not strings *)
(* ================================================================== *)

Lemma trim_string_field (x k : string) (raw : Json.fields) (s : string) :
  Json.string_field k raw = Some s ->
  Json.trim x (Json.get k raw) = Ok (JsString.trim s).
Proof.
  unfold Json.string_field.
  destruct (Json.get k raw) as [[| | |s'| |]|]; intros H; inversion H. reflexivity.
Qed.

Lemma trim_other_field (x k : string) (raw : Json.fields) :
  Json.string_field k raw = None ->
  exists m, Json.trim x (Json.get k raw) = Throw (TypeError m).
Proof.
  unfold Json.string_field.
  destruct (Json.get k raw) as [[| | |s'| |]|]; intros H; try discriminate;
    eexists; reflexivity.
Qed.

Lemma register_of_trimmed (env : Env) (st : Store) (e p n ph : string) :
  register env st
    {| RegisterBody.email := JsString.trim e; RegisterBody.password := JsString.trim p;
       RegisterBody.name := JsString.trim n; RegisterBody.phonenumber := JsString.trim ph |}
  = register env st
      {| RegisterBody.email := e; RegisterBody.password := p;
         RegisterBody.name := n; RegisterBody.phonenumber := ph |}.
Proof.
  unfold register. simpl. rewrite !trim_idempotent. reflexivity.
Qed.

Lemma signin_of_trimmed (env : Env) (st : Store) (e p : string) :
  signin env st
    {| SigninBody.email := JsString.trim e; SigninBody.password := JsString.trim p |}
  = signin env st {| SigninBody.email := e; SigninBody.password := p |}.
Proof.
  unfold signin. simpl. rewrite !trim_idempotent. reflexivity.
Qed.

(** On a body of four strings the handler is [register]. *)
Lemma register_request_typed (env : Env) (st : Store) (raw : Json.fields)
    (req : RegisterBody.t) :
  register_typed raw = Some req ->
  register_request env st raw = Answered (register env st req).
Proof.
  unfold register_typed.
  destruct (Json.string_field "email" raw) as [e|] eqn:He; [|discriminate].
  destruct (Json.string_field "password" raw) as [p|] eqn:Hp; [|discriminate].
  destruct (Json.string_field "name" raw) as [n|] eqn:Hn; [|discriminate].
  destruct (Json.string_field "phonenumber" raw) as [ph|] eqn:Hph; [|discriminate].
  intros H. inversion H. subst req. unfold register_request.
  rewrite (trim_string_field "email" _ _ _ He),
          (trim_string_field "password" _ _ _ Hp),
          (trim_string_field "name" _ _ _ Hn),
          (trim_string_field "phonenumber" _ _ _ Hph).
  simpl. rewrite register_of_trimmed. reflexivity.
Qed.

(** On any other body one of the four [.trim()] calls throws. *)
Lemma register_request_untyped (env : Env) (st : Store) (raw : Json.fields) :
  register_typed raw = None ->
  exists m, register_request env st raw = Thrown (TypeError m).
Proof.
  unfold register_typed, register_request.
  destruct (Json.string_field "email" raw) as [e|] eqn:He.
  2: { intros _. destruct (trim_other_field "email" _ _ He) as [m ->].
       exists m. reflexivity. }
  rewrite (trim_string_field "email" _ _ _ He).
  destruct (Json.string_field "password" raw) as [p|] eqn:Hp.
  2: { intros _. destruct (trim_other_field "password" _ _ Hp) as [m ->].
       exists m. reflexivity. }
  rewrite (trim_string_field "password" _ _ _ Hp).
  destruct (Json.string_field "name" raw) as [n|] eqn:Hn.
  2: { intros _. destruct (trim_other_field "name" _ _ Hn) as [m ->].
       exists m. reflexivity. }
  rewrite (trim_string_field "name" _ _ _ Hn).
  destruct (Json.string_field "phonenumber" raw) as [ph|] eqn:Hph; [discriminate|].
  intros _. destruct (trim_other_field "phonenumber" _ _ Hph) as [m ->].
  exists m. reflexivity.
Qed.

Lemma signin_request_typed (env : Env) (st : Store) (raw : Json.fields)
    (req : SigninBody.t) :
  signin_typed raw = Some req ->
  signin_request env st raw = Answered (signin env st req).
Proof.
  unfold signin_typed.
  destruct (Json.string_field "email" raw) as [e|] eqn:He; [|discriminate].
  destruct (Json.string_field "password" raw) as [p|] eqn:Hp; [|discriminate].
  intros H. inversion H. subst req. unfold signin_request.
  rewrite (trim_string_field "email" _ _ _ He),
          (trim_string_field "password" _ _ _ Hp).
  simpl. rewrite signin_of_trimmed. reflexivity.
Qed.

Lemma signin_request_untyped (env : Env) (st : Store) (raw : Json.fields) :
  signin_typed raw = None ->
  exists m, signin_request env st raw = Thrown (TypeError m).
Proof.
  unfold signin_typed, signin_request.
  destruct (Json.string_field "email" raw) as [e|] eqn:He.
  2: { intros _. destruct (trim_other_field "email" _ _ He) as [m ->].
       exists m. reflexivity. }
  rewrite (trim_string_field "email" _ _ _ He).
  destruct (Json.string_field "password" raw) as [p|] eqn:Hp; [discriminate|].
  intros _. destruct (trim_other_field "password" _ _ Hp) as [m ->].
  exists m. reflexivity.
Qed.

(** C10, as stated, fails: a registration whose body lacks the password is
    not delivered with a success status.  The second [.trim()] throws
    before any [res.json], nothing is answered by the handler and the
    client sees status 500. *)
Lemma register_missing_field_counterexample :
  register_request Sample.env Sample.st
    [ ("email", Json.JStr "carol@x.org"); ("name", Json.JStr "Carol");
      ("phonenumber", Json.JStr "3105550000") ]
  = Thrown (TypeError "Cannot read properties of undefined (reading 'trim')") /\
  status_code
    (register_request Sample.env Sample.st
       [ ("email", Json.JStr "carol@x.org"); ("name", Json.JStr "Carol");
         ("phonenumber", Json.JStr "3105550000") ])
  = 500.
Proof.
  split; reflexivity.
Qed.

(** C10, amended.  Every registration whose body holds [email],
    [password], [name] and [phonenumber] as strings is answered by the
    handler itself, with HTTP status 200 whatever the outcome: the answer is
    the success object or a [FAILED] object whose message is one of the nine
    failure messages, so these outcomes differ only in the body.  A
    registration in which one of the four fields is absent or is not a
    string is not answered by the handler: a [.trim()] throws a TypeError
    before any [res.json], nothing is stored and the status is 500. *)
Theorem register_answers_200_unless_trim_throws
    (env : Env) (st : Store) (raw : Json.fields) :
  (forall req, register_typed raw = Some req ->
     register_request env st raw = Answered (register env st req) /\
     status_code (register_request env st raw) = 200 /\
     ((exists m, In m register_failures /\
                 body (response (register env st req)) = failed m) \/
      (exists data,
         body (response (register env st req)) =
           VObj [ ("status", VStr "SUCCESS");
                  ("message", VStr "Registration Successfully");
                  ("data", data) ]))) /\
  (register_typed raw = None ->
     (exists m, register_request env st raw = Thrown (TypeError m)) /\
     status_code (register_request env st raw) = 500 /\
     store_after st (register_request env st raw) = st).
Proof.
  split.
  - intros req Hreq. rewrite (register_request_typed env st raw req Hreq).
    destruct (register_always_answers_200 env st req) as [Hcode Hbody].
    split; [reflexivity|]. split; [exact Hcode | exact Hbody].
  - intros Hnone. destruct (register_request_untyped env st raw Hnone) as [m Hm].
    split; [exists m; exact Hm|]. rewrite Hm. split; reflexivity.
Qed.

(** Carol registers; then she sends her password as a number. *)
Lemma register_answers_200_unless_trim_throws_witness :
  status_code
    (register_request Sample.env Sample.st
       [ ("email", Json.JStr "carol@x.org"); ("password", Json.JStr "password1");
         ("name", Json.JStr "Carol"); ("phonenumber", Json.JStr "3105550000") ]) = 200 /\
  status_code
    (register_request Sample.env Sample.st
       [ ("email", Json.JStr "carol@x.org"); ("password", Json.JNum 12345678);
         ("name", Json.JStr "Carol"); ("phonenumber", Json.JStr "3105550000") ]) = 500.
Proof.
  split.
  - destruct (proj1 (register_answers_200_unless_trim_throws Sample.env Sample.st
               [ ("email", Json.JStr "carol@x.org"); ("password", Json.JStr "password1");
                 ("name", Json.JStr "Carol"); ("phonenumber", Json.JStr "3105550000") ])
               {| RegisterBody.email := "carol@x.org"; RegisterBody.password := "password1";
                  RegisterBody.name := "Carol"; RegisterBody.phonenumber := "3105550000" |}
               eq_refl) as [_ [H _]].
    exact H.
  - destruct (proj2 (register_answers_200_unless_trim_throws Sample.env Sample.st
               [ ("email", Json.JStr "carol@x.org"); ("password", Json.JNum 12345678);
                 ("name", Json.JStr "Carol"); ("phonenumber", Json.JStr "3105550000") ])
               eq_refl) as [_ [H _]].
    exact H.
Defined.

(** X12.  A sign-in whose body holds [email] and [password] as strings is
    answered by the handler with status 200 and logs nothing; a failure
    carries one of four messages, and the message [Invalid credential] of
    the source is never sent, because the array that [Passenger.find]
    resolves to is always truthy.  A sign-in in which either field is
    absent or is not a string is not answered by the handler: a [.trim()]
    throws a TypeError and the status is 500.  No sign-in stores anything. *)
Theorem signin_request_answers
    (env : Env) (st : Store) (raw : Json.fields) :
  store_after st (signin_request env st raw) = st /\
  (forall req, signin_typed raw = Some req ->
     signin_request env st raw = Answered (signin env st req) /\
     status_code (signin_request env st raw) = 200 /\
     console (signin env st req) = [] /\
     body (response (signin env st req)) <> failed "Invalid credential" /\
     ((exists m, In m signin_failures /\
                 body (response (signin env st req)) = failed m) \/
      answer_status (response (signin env st req)) = VStr "Success")) /\
  (signin_typed raw = None ->
     (exists m, signin_request env st raw = Thrown (TypeError m)) /\
     status_code (signin_request env st raw) = 500).
Proof.
  assert (Htyped : forall req, signin_typed raw = Some req ->
            signin_request env st raw = Answered (signin env st req)).
  { intros req. apply signin_request_typed. }
  assert (Hother : signin_typed raw = None ->
            exists m, signin_request env st raw = Thrown (TypeError m)).
  { apply signin_request_untyped. }
  split; [|split].
  - destruct (signin_typed raw) as [req|].
    + rewrite (Htyped req eq_refl). simpl.
      destruct (signin_answers env st req) as [H _]. exact H.
    + destruct (Hother eq_refl) as [m ->]. reflexivity.
  - intros req Hreq. rewrite (Htyped req Hreq).
    destruct (signin_answers env st req) as [_ [Hc [Hcode [Hne Hbody]]]].
    split; [reflexivity|]. split; [exact Hcode|]. split; [exact Hc|].
    split; [exact Hne | exact Hbody].
  - intros Hnone. destruct (Hother Hnone) as [m Hm].
    split; [exists m; exact Hm|]. rewrite Hm. reflexivity.
Qed.

(** Alice signs in; then her password arrives as [null]. *)
Lemma signin_request_answers_witness :
  status_code
    (signin_request Sample.env Sample.st
       [ ("email", Json.JStr "a@b.com"); ("password", Json.JStr "password1") ]) = 200 /\
  status_code
    (signin_request Sample.env Sample.st
       [ ("email", Json.JStr "a@b.com"); ("password", Json.JNull) ]) = 500.
Proof.
  split.
  - destruct (proj1 (proj2 (signin_request_answers Sample.env Sample.st
               [ ("email", Json.JStr "a@b.com"); ("password", Json.JStr "password1") ]))
               {| SigninBody.email := "a@b.com"; SigninBody.password := "password1" |}
               eq_refl) as [_ [H _]].
    exact H.
  - destruct (proj2 (proj2 (signin_request_answers Sample.env Sample.st
               [ ("email", Json.JStr "a@b.com"); ("password", Json.JNull) ]))
               eq_refl) as [_ H].
    exact H.
Defined.

Lemma assign_typed (set : Passenger.t -> string -> Passenger.t) (x : string)
    (v : option Json.t) (o : option string) (u : Passenger.t) :
  Json.typed v = Some o ->
  assign set x v u =
    Ok (match given o with
        | Some s => set u (JsString.trim s)
        | None => u
        end).
Proof.
  unfold Json.typed, assign.
  destruct v as [[|b|n|s|l|l]|]; simpl; intros H;
    try discriminate; try (inversion H; reflexivity).
  - destruct b; [discriminate | inversion H; reflexivity].
  - destruct (n =? 0)%Z; simpl in *; [inversion H; reflexivity | discriminate].
  - inversion H. simpl. destruct (JsString.truthy s); reflexivity.
Qed.

Lemma assign_untyped (set : Passenger.t -> string -> Passenger.t) (x : string)
    (v : option Json.t) (u : Passenger.t) :
  Json.typed v = None ->
  exists m, assign set x v u = Throw (TypeError m).
Proof.
  unfold Json.typed, assign.
  destruct v as [[|b|n|s|l|l]|]; simpl; intros H; try discriminate;
    try (eexists; reflexivity).
  - destruct b; [eexists; reflexivity | discriminate].
  - destruct (n =? 0)%Z; simpl in *; [discriminate | eexists; reflexivity].
Qed.

Lemma email_block_typed (env : Env) (st : Store) (other : option Json.t -> Result bool)
    (v : option Json.t) (o : option string) (u : Passenger.t) :
  Json.typed v = Some o ->
  email_block env st other v u =
    match given o with
    | Some email =>
        if negb (email =? Passenger.email u) then
          emailTaken <- emailExistsInBoth env st email ;;
          if emailTaken then
            Ok (inl (status 400 (message_body "Email already in use")))
          else
            Ok (inr (set_email u (JsString.trim email)))
        else Ok (inr u)
    | None => Ok (inr u)
    end.
Proof.
  unfold Json.typed, email_block.
  destruct v as [[|b|n|s|l|l]|]; simpl; intros H;
    try discriminate; try (inversion H; reflexivity).
  - destruct b; [discriminate | inversion H; reflexivity].
  - destruct (n =? 0)%Z; simpl in *; [inversion H; reflexivity | discriminate].
  - inversion H. simpl. destruct (JsString.truthy s); simpl; [|reflexivity].
    destruct (negb (s =? Passenger.email u)); [|reflexivity].
    destruct (emailExistsInBoth env st s) as [[|]|e]; reflexivity.
Qed.

(** The early return of the e-mail block is the 400 answer. *)
Lemma email_block_early (env : Env) (st : Store) (other : option Json.t -> Result bool)
    (v : option Json.t) (u : Passenger.t) (r : Response) :
  email_block env st other v u = Ok (inl r) ->
  r = status 400 (message_body "Email already in use").
Proof.
  unfold email_block.
  destruct (Json.truthy v && Json.differs v (Passenger.email u)); [|discriminate].
  destruct (emailExistsInBoth_of env st other v) as [[|]|e]; simpl;
    [intros H; inversion H; reflexivity | | discriminate].
  destruct (Json.trim "email" v); simpl; discriminate.
Qed.

(** A truthy e-mail that is not a string never gets through the block. *)
Lemma email_block_untyped (env : Env) (st : Store) (other : option Json.t -> Result bool)
    (v : option Json.t) (u : Passenger.t) :
  Json.typed v = None ->
  email_block env st other v u
    = Ok (inl (status 400 (message_body "Email already in use"))) \/
  exists e, email_block env st other v u = Throw e.
Proof.
  unfold Json.typed, email_block.
  destruct v as [[|b|n|s|l|l]|]; simpl; intros H; try discriminate.
  - destruct b; [|discriminate]. simpl.
    destruct (other _) as [[|]|e]; simpl;
      [left; reflexivity | right; eexists; reflexivity | right; eexists; reflexivity].
  - destruct (n =? 0)%Z; simpl in *; [discriminate|].
    destruct (other _) as [[|]|e]; simpl;
      [left; reflexivity | right; eexists; reflexivity | right; eexists; reflexivity].
  - destruct (other _) as [[|]|e]; simpl;
      [left; reflexivity | right; eexists; reflexivity | right; eexists; reflexivity].
  - destruct (other _) as [[|]|e]; simpl;
      [left; reflexivity | right; eexists; reflexivity | right; eexists; reflexivity].
Qed.

Lemma password_block_typed (env : Env) (v : option Json.t) (o : option string)
    (u : Passenger.t) :
  Json.typed v = Some o ->
  password_block env v u =
    match given o with
    | Some newPassword =>
        hashPassword <- bcrypt_hash env newPassword ;;
        Ok (set_password u hashPassword)
    | None => Ok u
    end.
Proof.
  unfold Json.typed, password_block.
  destruct v as [[|b|n|s|l|l]|]; simpl; intros H;
    try discriminate; try (inversion H; reflexivity).
  - destruct b; [discriminate | inversion H; reflexivity].
  - destruct (n =? 0)%Z; simpl in *; [inversion H; reflexivity | discriminate].
  - inversion H. simpl. destruct (JsString.truthy s); reflexivity.
Qed.

Lemma password_block_untyped (env : Env) (v : option Json.t) (u : Passenger.t) :
  Json.typed v = None ->
  exists e, password_block env v u = Throw e.
Proof.
  unfold Json.typed, password_block.
  destruct v as [[|b|n|s|l|l]|]; simpl; intros H; try discriminate;
    try (eexists; reflexivity).
  - destruct b; [eexists; reflexivity | discriminate].
  - destruct (n =? 0)%Z; simpl in *; [discriminate | eexists; reflexivity].
Qed.

(** On a body whose four fields are strings or falsy the handler is
    [update]. *)
Lemma update_request_typed (env : Env) (other : option Json.t -> Result bool)
    (st : Store) (userId : ObjectId) (raw : Json.fields) (req : UpdateBody.t) :
  update_typed raw = Some req ->
  update_request env other st userId raw = update env st userId req.
Proof.
  unfold update_typed.
  destruct (Json.typed (Json.get "name" raw)) as [n|] eqn:Hn; [|discriminate].
  destruct (Json.typed (Json.get "phonenumber" raw)) as [p|] eqn:Hp; [|discriminate].
  destruct (Json.typed (Json.get "email" raw)) as [e|] eqn:He; [|discriminate].
  destruct (Json.typed (Json.get "newPassword" raw)) as [w|] eqn:Hw; [|discriminate].
  intros H. inversion H. subst req. clear H.
  unfold update_request, update.
  destruct (Passenger_findById env st userId) as [[user|]|err]; simpl;
    try reflexivity.
  rewrite (assign_typed set_name "name" _ _ user Hn). simpl.
  rewrite (assign_typed set_phonenumber "phonenumber" _ _ _ Hp). simpl.
  rewrite (email_block_typed env st other _ _ _ He).
  unfold update_name_phone. simpl.
  match goal with
  | |- context [given e] =>
      destruct (given e) as [email|]; simpl
  end.
  - match goal with
    | |- context [negb (email =? ?x)] => destruct (negb (email =? x)); simpl
    end.
    + destruct (emailExistsInBoth env st email) as [[|]|err]; simpl;
        try reflexivity.
      rewrite (password_block_typed env _ _ _ Hw). reflexivity.
    + rewrite (password_block_typed env _ _ _ Hw). reflexivity.
  - rewrite (password_block_typed env _ _ _ Hw). reflexivity.
Qed.

(** On any other body nothing is stored and the answer is no 200. *)
Lemma update_request_untyped (env : Env) (other : option Json.t -> Result bool)
    (st : Store) (userId : ObjectId) (raw : Json.fields) :
  update_typed raw = None ->
  store (update_request env other st userId raw) = st /\
  console (update_request env other st userId raw) = [] /\
  In (code (response (update_request env other st userId raw))) [400; 404; 500].
Proof.
  intros Hnone. unfold update_request.
  destruct (Passenger_findById env st userId) as [[user|]|err]; simpl;
    [| repeat split; tauto | repeat split; tauto].
  destruct (Json.typed (Json.get "name" raw)) as [n|] eqn:Hn.
  2: { destruct (assign_untyped set_name "name" _ user Hn) as [m ->]. simpl.
       repeat split; tauto. }
  rewrite (assign_typed set_name "name" _ _ user Hn). simpl.
  match goal with
  | |- context [assign set_phonenumber "phonenumber" _ ?u] => generalize u
  end.
  intros u1.
  destruct (Json.typed (Json.get "phonenumber" raw)) as [p|] eqn:Hp.
  2: { destruct (assign_untyped set_phonenumber "phonenumber" _ u1 Hp) as [m ->]. simpl.
       repeat split; tauto. }
  rewrite (assign_typed set_phonenumber "phonenumber" _ _ u1 Hp). simpl.
  match goal with
  | |- context [email_block env st other _ ?u] => generalize u
  end.
  intros u2.
  destruct (Json.typed (Json.get "email" raw)) as [e|] eqn:He.
  2: { destruct (email_block_untyped env st other _ u2 He) as [->|[err ->]]; simpl;
         repeat split; tauto. }
  destruct (email_block env st other (Json.get "email" raw) u2)
    as [[early|u3]|err] eqn:Eb; simpl.
  - apply email_block_early in Eb. subst early. simpl. repeat split; tauto.
  - destruct (Json.typed (Json.get "newPassword" raw)) as [w|] eqn:Hw.
    + unfold update_typed in Hnone. rewrite Hn, Hp, He, Hw in Hnone. discriminate.
    + destruct (password_block_untyped env _ u3 Hw) as [err ->]. simpl.
      repeat split; tauto.
  - repeat split; tauto.
Qed.

(** X15.  A profile update is all or nothing, whatever the body holds.  It
    is answered 200 exactly when each of [name], [phonenumber], [email] and
    [newPassword] is a string or falsy and none of five things happens (the
    database not answering, an unknown passenger, a different e-mail that is
    in use, bcrypt failing on the new password, the save failing).  In every
    other case, a truthy field that is not a string included, whose
    [.trim()] or hashing throws into the route's [catch], the answer is 400,
    404 or 500 and nothing at all is stored, even though the name and the
    phone number may already have been assigned to the document in memory. *)
Theorem update_request_all_or_nothing
    (env : Env) (other : option Json.t -> Result bool)
    (st : Store) (userId : ObjectId) (raw : Json.fields) :
  (code (response (update_request env other st userId raw)) = 200 <->
   exists req, update_typed raw = Some req /\ ~ update_refused env st userId req) /\
  (code (response (update_request env other st userId raw)) <> 200 ->
   store (update_request env other st userId raw) = st /\
   In (code (response (update_request env other st userId raw))) [400; 404; 500]) /\
  (forall req, update_typed raw = Some req ->
   update_request env other st userId raw = update env st userId req).
Proof.
  destruct (update_typed raw) as [req|] eqn:Ht.
  - rewrite (update_request_typed env other st userId raw req Ht).
    destruct (update_cases env st userId req)
      as [[Hst [_ [Hcode Href]]]
         |[user [u' [Hdb [Hsave [Hfind [H [_ [_ [_ [Hhash Hfree]]]]]]]]]]].
    + split; [|split].
      * split.
        -- intros H200. rewrite H200 in Hcode. simpl in Hcode. intuition discriminate.
        -- intros [req' [E Hn]]. inversion E. subst req'. contradiction.
      * intros _. split; assumption.
      * intros req' E. inversion E. reflexivity.
    + assert (Hnot : ~ update_refused env st userId req).
      { intros [R|[R|[[user0 [e [Hf [Hg [Hne Hu]]]]]|[[p [err [Hg Hthrow]]]|R]]]].
        - contradiction.
        - congruence.
        - rewrite Hfind in Hf. inversion Hf; subst user0.
          rewrite (Hfree e Hg Hne) in Hu. discriminate.
        - destruct (Hhash p Hg) as [h Hh]. congruence.
        - contradiction. }
      split; [|split].
      * split; [intros _; exists req; split; [reflexivity | exact Hnot]
               | intros _; rewrite H; reflexivity].
      * intros Hne. exfalso. apply Hne. rewrite H. reflexivity.
      * intros req' E. inversion E. reflexivity.
  - destruct (update_request_untyped env other st userId raw Ht) as [Hst [_ Hcode]].
    split; [|split].
    + split.
      * intros H200. rewrite H200 in Hcode. simpl in Hcode. intuition discriminate.
      * intros [req [E _]]. discriminate.
    + intros _. split; assumption.
    + intros req E. discriminate.
Qed.

(** Bob sends his new name as a number: 500, and the phone number sent
    along is not stored either. *)
Lemma update_request_all_or_nothing_witness :
  store (update_request Sample.env (fun _ => Ok false) Sample.st 2
           [ ("phonenumber", Json.JStr "5550002222"); ("name", Json.JNum 42) ])
    = Sample.st /\
  In (code (response
        (update_request Sample.env (fun _ => Ok false) Sample.st 2
           [ ("phonenumber", Json.JStr "5550002222"); ("name", Json.JNum 42) ])))
     [400; 404; 500].
Proof.
  apply (proj1 (proj2 (update_request_all_or_nothing Sample.env (fun _ => Ok false)
                         Sample.st 2
                         [ ("phonenumber", Json.JStr "5550002222");
                           ("name", Json.JNum 42) ]))).
  vm_compute. discriminate.
Defined.

(* ================================================================== *)
(** ** Further properties: requests that overlap *)
(* ================================================================== *)

(** When nothing is written between the check and the save, the handlers
    are [register] and [google_signup]. *)
Lemma register_interleaved_atomic (env : Env) (st : Store) (req : RegisterBody.t) :
  register_interleaved env st st req = register env st req.
Proof. reflexivity. Qed.

Lemma google_signup_interleaved_atomic (env : Env) (st : Store) (token : string) :
  google_signup_interleaved env st st token = google_signup env st token.
Proof. reflexivity. Qed.

(** Appending an e-mail that is already there breaks uniqueness. *)
Lemma NoDup_append_used (P D : list string) (e : string) :
  In e (P ++ D)%list -> ~ NoDup ((P ++ [e]) ++ D)%list.
Proof.
  intros Hin Hnd. rewrite <- app_assoc in Hnd. simpl in Hnd.
  apply NoDup_remove_2 in Hnd. contradiction.
Qed.

(** What a registration answers depends on the store only through its
    existence check, and a successful one appends to the store it finds at
    its save. *)
Lemma register_interleaved_cases (env : Env) (st st' : Store) (req : RegisterBody.t) :
  response (register_interleaved env st st' req) = response (register env st req) /\
  (store (register_interleaved env st st' req) = st' /\
   answer_status (response (register_interleaved env st st' req)) = VStr "FAILED" \/
   exists h,
     email_in_use st (JsString.trim (RegisterBody.email req)) = false /\
     answer_status (response (register_interleaved env st st' req)) = VStr "SUCCESS" /\
     store (register_interleaved env st st' req)
       = with_passengers st' (passengers st' ++ [registered env req h])).
Proof.
  unfold register_interleaved, register.
  destruct (_ || _); [split; [reflexivity | left; split; reflexivity]|].
  destruct (negb _); [split; [reflexivity | left; split; reflexivity]|].
  destruct (negb _); [split; [reflexivity | left; split; reflexivity]|].
  destruct (negb _); [split; [reflexivity | left; split; reflexivity]|].
  destruct (_ <? _)%nat; [split; [reflexivity | left; split; reflexivity]|].
  destruct (emailExistsInBoth_cases env st (JsString.trim (RegisterBody.email req)))
    as [->|[m ->]]; [|split; [reflexivity | left; split; reflexivity]].
  destruct (email_in_use st _) eqn:Hu;
    [split; [reflexivity | left; split; reflexivity]|].
  destruct (bcrypt_hash env _) as [h|e];
    [|split; [reflexivity | left; split; reflexivity]].
  unfold save_new.
  destruct (db_save_error env) as [m|];
    [split; [reflexivity | left; split; reflexivity]|].
  split; [reflexivity|]. right. exists h. repeat split; reflexivity.
Qed.

(** X6.  Registration keeps e-mails unique only as long as nothing is
    written between its existence check and its save.  When the store it
    saves to is the store it checked, no e-mail occurs twice among the
    passengers and drivers after it if none did before, whatever the request
    and whatever bcrypt and the database do.  The check, the hashing and the
    save are separate asynchronous steps, though, and what the handler
    answers depends on the store only through the check: when another
    request has stored the same trimmed e-mail in between, the registration
    is still answered [SUCCESS] and the e-mail is then stored twice. *)
Theorem register_unique_emails_unless_interleaved :
  (forall (env : Env) (st : Store) (req : RegisterBody.t),
     NoDup (emails st) ->
     NoDup (emails (store (register_interleaved env st st req)))) /\
  (forall (env : Env) (st st' : Store) (req : RegisterBody.t),
     response (register_interleaved env st st' req) = response (register env st req)) /\
  (forall (env : Env) (st st' : Store) (req : RegisterBody.t),
     answer_status (response (register env st req)) = VStr "SUCCESS" ->
     In (JsString.trim (RegisterBody.email req)) (emails st') ->
     answer_status (response (register_interleaved env st st' req)) = VStr "SUCCESS" /\
     ~ NoDup (emails (store (register_interleaved env st st' req)))).
Proof.
  split; [|split].
  - intros env st req Hnd. rewrite register_interleaved_atomic.
    apply register_preserves_unique_emails. exact Hnd.
  - intros env st st' req.
    destruct (register_interleaved_cases env st st' req) as [H _]. exact H.
  - intros env st st' req Hok Hin.
    destruct (register_interleaved_cases env st st' req)
      as [Hr [[_ Hf]|[h [_ [Hs Hst]]]]].
    + rewrite Hr in Hf. rewrite Hf in Hok. discriminate.
    + split; [exact Hs|]. rewrite Hst. unfold emails in *. simpl.
      rewrite map_app. simpl. apply NoDup_append_used. exact Hin.
Qed.

(** Two registrations of Carol overlap: both pass the check before either
    saves, and both are stored. *)
Lemma register_unique_emails_unless_interleaved_witness :
  let req :=
    {| RegisterBody.email := "carol@x.org"; RegisterBody.password := "password1";
       RegisterBody.name := "Carol"; RegisterBody.phonenumber := "3105550000" |} in
  let env' :=
    {| db_read_error := None; db_save_error := None;
       bcrypt_hash := bcrypt_hash Sample.env;
       bcrypt_compare := bcrypt_compare Sample.env;
       verifyGoogleToken := verifyGoogleToken Sample.env;
       math_random := math_random Sample.env;
       new_object_id := 101; base64 := base64 Sample.env |} in
  let st1 := store (register_interleaved Sample.env Sample.st Sample.st req) in
  NoDup (emails Sample.st) /\
  answer_status (response (register_interleaved env' Sample.st st1 req)) = VStr "SUCCESS" /\
  ~ NoDup (emails (store (register_interleaved env' Sample.st st1 req))).
Proof.
  intros req env' st1. split.
  - vm_compute.
    repeat (constructor; [simpl; intuition discriminate|]). constructor.
  - apply (proj2 (proj2 register_unique_emails_unless_interleaved) env' Sample.st st1 req).
    + reflexivity.
    + vm_compute. tauto.
Defined.

(** What the federated sign-up does to the store it finds at its save. *)
Lemma google_signup_interleaved_cases (env : Env) (st st' : Store) (token : string) :
  response (google_signup_interleaved env st st' token)
    = response (google_signup env st token) /\
  (store (google_signup_interleaved env st st' token) = st' \/
   exists email name h,
     verifyGoogleToken env token = Ok (email, name) /\
     email_in_use st email = false /\
     code (response (google_signup_interleaved env st st' token)) = 200 /\
     store (google_signup_interleaved env st st' token)
       = with_passengers st'
           (passengers st' ++
            [ {| Passenger._id := new_object_id env; Passenger.email := email;
                 Passenger.password := h; Passenger.name := name;
                 Passenger.phonenumber := ""; Passenger.avatar := None |} ])).
Proof.
  unfold google_signup_interleaved, google_signup.
  destruct (verifyGoogleToken env token) as [[email name]|e] eqn:Hv; simpl;
    [|split; [reflexivity | left; reflexivity]].
  destruct (emailExistsInBoth_cases env st email) as [->|[m ->]]; simpl;
    [|split; [reflexivity | left; reflexivity]].
  destruct (email_in_use st email) eqn:Hu; simpl;
    [split; [reflexivity | left; reflexivity]|].
  destruct (bcrypt_hash env (math_random env)) as [h|e]; simpl;
    [|split; [reflexivity | left; reflexivity]].
  unfold save_new.
  destruct (db_save_error env) as [m|]; simpl;
    [split; [reflexivity | left; reflexivity]|].
  split; [reflexivity|]. right. exists email, name, h.
  repeat split; first [assumption | reflexivity].
Qed.

(** X21.  The federated sign-up keeps e-mails unique only as long as
    nothing is written between its existence check and its save.  When the
    store it saves to is the store it checked, no e-mail occurs twice among
    the passengers and drivers after it if none did before.  What it
    answers depends on the store only through the check: when the verified
    e-mail was free at the check and another request (a second sign-up, or a
    registration) has stored it in between, the sign-up still creates its
    passenger, is answered 200, and the e-mail is then stored twice. *)
Theorem google_signup_unique_emails_unless_interleaved :
  (forall (env : Env) (st : Store) (token : string),
     NoDup (emails st) ->
     NoDup (emails (store (google_signup_interleaved env st st token)))) /\
  (forall (env : Env) (st st' : Store) (token : string),
     response (google_signup_interleaved env st st' token)
       = response (google_signup env st token)) /\
  (forall (env : Env) (st st' : Store) (token email name : string),
     verifyGoogleToken env token = Ok (email, name) ->
     email_in_use st email = false ->
     code (response (google_signup env st token)) = 200 ->
     In email (emails st') ->
     code (response (google_signup_interleaved env st st' token)) = 200 /\
     ~ NoDup (emails (store (google_signup_interleaved env st st' token)))).
Proof.
  split; [|split].
  - intros env st token Hnd. rewrite google_signup_interleaved_atomic.
    apply google_signup_preserves_unique_emails. exact Hnd.
  - intros env st st' token.
    destruct (google_signup_interleaved_cases env st st' token) as [H _]. exact H.
  - intros env st st' token email name Hv Hfree H200 Hin.
    destruct (google_signup_interleaved_cases env st st' token) as [Hr _].
    split; [rewrite Hr; exact H200|].
    assert (Hst : exists h,
      store (google_signup_interleaved env st st' token)
        = with_passengers st'
            (passengers st' ++
             [ {| Passenger._id := new_object_id env; Passenger.email := email;
                  Passenger.password := h; Passenger.name := name;
                  Passenger.phonenumber := ""; Passenger.avatar := None |} ])).
    { revert H200. unfold google_signup_interleaved, google_signup. rewrite Hv. simpl.
      destruct (emailExistsInBoth_cases env st email) as [->|[m ->]]; simpl;
        [|discriminate].
      rewrite Hfree. simpl.
      destruct (bcrypt_hash env (math_random env)) as [h|e]; simpl; [|discriminate].
      unfold save_new.
      destruct (db_save_error env) as [m|]; simpl; [discriminate|].
      intros _. exists h. reflexivity. }
    destruct Hst as [h ->]. unfold emails in *. simpl.
    rewrite map_app. simpl. apply NoDup_append_used. exact Hin.
Qed.

(** Alice signs up with Google twice at once, no Alice being stored yet:
    both sign-ups find her e-mail free and both store her. *)
Lemma google_signup_unique_emails_unless_interleaved_witness :
  let st0 := with_passengers Sample.st [Sample.bob] in
  let env' :=
    {| db_read_error := None; db_save_error := None;
       bcrypt_hash := bcrypt_hash Sample.env;
       bcrypt_compare := bcrypt_compare Sample.env;
       verifyGoogleToken := verifyGoogleToken Sample.env;
       math_random := "314159.2653";
       new_object_id := 101; base64 := base64 Sample.env |} in
  let st1 :=
    store (google_signup_interleaved Sample.env st0 st0 "google-id-token-of-alice") in
  NoDup (emails st0) /\
  code (response (google_signup_interleaved env' st0 st1 "google-id-token-of-alice")) = 200 /\
  ~ NoDup (emails (store (google_signup_interleaved env' st0 st1
                            "google-id-token-of-alice"))).
Proof.
  intros st0 env' st1. split.
  - vm_compute.
    repeat (constructor; [simpl; intuition discriminate|]). constructor.
  - apply (proj2 (proj2 google_signup_unique_emails_unless_interleaved)
             env' st0 st1 "google-id-token-of-alice" "a@b.com" "Alice").
    + reflexivity.
    + reflexivity.
    + reflexivity.
    + vm_compute. tauto.
Defined.

(* ================================================================== *)
(** ** Disclosure follows the stored status *)
(* ================================================================== *)

Lemma Forall2_map_r {A B C : Type} (g : B -> C) (R : A -> C -> Prop)
    (l : list A) (bs : list B) :
  Forall2 (fun a b => R a (g b)) l bs -> Forall2 R l (map g bs).
Proof.
  intros H. induction H as [|a b l bs Hab _ IH]; simpl; constructor; assumption.
Qed.

(** The view made of a stored join request gives away what the stored
    status allows. *)
Lemma discloses_populated (st : Store) (r : JoinRequest.t) (v : Obj) :
  rideshareDetails (populate st r) = Ok v -> discloses st r (VObj v).
Proof.
  intros H.
  destruct (view_of_populated st r v H) as [p [Hin [Hid Hview]]].
  destruct (view_keys _ _ H) as [_ [Hroute Hcontact]]. simpl in Hcontact.
  exists p, v. split; [reflexivity|]. split; [exact Hin|]. split; [exact Hid|].
  split; [exact Hview|]. split; [exact Hroute|].
  intros k Hk.
  assert (Hhas : has_key k v = true <-> JoinRequest.status r = "accepted").
  { rewrite (Hcontact k Hk). apply String.eqb_eq. }
  assert (Hval : JoinRequest.status r = "accepted" -> obj_get k v = contact_member p k).
  { intros Hacc.
    destruct Hview as [_ [_ [_ [_ [_ [_ [_ Hc]]]]]]].
    destruct (Hc Hacc) as [H1 [H2 [H3 H4]]].
    simpl in Hk. destruct Hk as [<-|[<-|[<-|[<-|[]]]]]; assumption. }
  split; [exact Hhas|]. split; [exact Hval|].
  unfold sent. split.
  - intros Hs. apply andb_true_iff in Hs. destruct Hs as [Hk1 Hk2].
    apply Hhas in Hk1. split; [exact Hk1|].
    rewrite (Hval Hk1) in Hk2. intros E. rewrite E in Hk2. discriminate.
  - intros [Hacc Hdef]. apply andb_true_iff. split; [apply Hhas; exact Hacc|].
    rewrite (Hval Hacc). destruct (contact_member p k); try reflexivity.
    contradiction.
Qed.

Lemma views_disclose (st : Store) (passengerId : ObjectId) (views : list Obj) :
  mapM rideshareDetails
    (map (populate st)
       (filter (fun r => Nat.eqb (JoinRequest.passengerId r) passengerId)
               (joinRequests st))) = Ok views ->
  Forall2 (discloses st) (requests_of st passengerId) (map VObj views).
Proof.
  intros Hv. apply mapM_Forall2 in Hv. apply Forall2_map_l in Hv.
  apply Forall2_map_r. unfold requests_of.
  revert Hv. apply Forall2_impl. intros r v. apply discloses_populated.
Qed.

(** C1.  The join-request views that the passenger profile aggregation and
    the my-join-requests listing return are, one for one and in stored
    order, the views of the passenger's stored join requests: each is made
    from the driver post its request references, always has the route,
    time, seat-count, additional-notes and status members, its status being
    the one stored in the request, and has each of the four contact and
    vehicle members ([licensenumber], [model], [phonenumber], [email]) if
    and only if the stored status of the request is [accepted], then with
    the post's value; with any other stored status the four keys are absent
    from the object.  On the wire a contact member appears exactly when the
    stored status is [accepted] and the post holds a value for it.  Both
    routes do return the views (status 200) whenever the database answers
    and every request of the passenger resolves (for the profile, the
    passenger existing). *)
Theorem views_disclose_by_stored_status
    (env : Env) (st : Store) (userId : ObjectId) :
  (code (response (profile env st userId)) = 200 ->
   Forall2 (discloses st) (requests_of st userId)
     (profile_rideshares (response (profile env st userId)))) /\
  (code (response (my_join_requests env st userId)) = 200 ->
   Forall2 (discloses st) (requests_of st userId)
     (listing_rideshares (response (my_join_requests env st userId)))) /\
  (db_read_error env = None ->
   (forall r, ~ dangling st userId r) ->
   code (response (my_join_requests env st userId)) = 200 /\
   ((exists user,
       find (fun p => Nat.eqb (Passenger._id p) userId) (passengers st) = Some user) ->
    code (response (profile env st userId)) = 200)).
Proof.
  split; [|split].
  - unfold profile, Passenger_findById, joinRequest_find_populate,
      Passengerpost_find, query.
    destruct (db_read_error env); simpl; [discriminate|].
    destruct (find _ (passengers st)) as [user|]; simpl; [|discriminate].
    destruct (mapM rideshareDetails _) as [rideshares|e] eqn:Em; simpl;
      [|discriminate].
    intros _.
    match goal with
    | |- context [userProfile user ?a ?r ?p] =>
        unfold profile_rideshares; cbv beta iota delta [body json];
        destruct (userProfile_get user a r p) as [-> _]
    end.
    apply views_disclose. exact Em.
  - unfold my_join_requests, joinRequest_find_populate, query.
    destruct (db_read_error env); simpl; [discriminate|].
    destruct (mapM rideshareDetails _) as [rideshares|e] eqn:Em; simpl;
      [|discriminate].
    intros _. apply views_disclose. exact Em.
  - intros Hdb Hres. destruct (resolved_maps _ _ Hres) as [views Hv]. split.
    + unfold my_join_requests, joinRequest_find_populate, query.
      rewrite Hdb. simpl. rewrite Hv. reflexivity.
    + intros [user Hfind].
      unfold profile, Passenger_findById, joinRequest_find_populate,
        Passengerpost_find, query.
      rewrite Hdb. simpl. rewrite Hfind. simpl. rewrite Hv. reflexivity.
Qed.

(** Alice's two requests, the pending one and the accepted one, and her
    two views, in her profile and in her listing. *)
Lemma views_disclose_by_stored_status_witness :
  Forall2 (discloses Sample.st)
    [ Sample.request 20 1 10 "pending"; Sample.request 21 1 11 "accepted" ]
    (profile_rideshares (response (profile Sample.env Sample.st 1))) /\
  Forall2 (discloses Sample.st)
    [ Sample.request 20 1 10 "pending"; Sample.request 21 1 11 "accepted" ]
    (listing_rideshares (response (my_join_requests Sample.env Sample.st 1))).
Proof.
  split.
  - apply (proj1 (views_disclose_by_stored_status Sample.env Sample.st 1)).
    reflexivity.
  - apply (proj1 (proj2 (views_disclose_by_stored_status Sample.env Sample.st 1))).
    reflexivity.
Defined.

(* ================================================================== *)
(** ** The e-mail guard of the update *)
(* ================================================================== *)

(** What an update that gets through stores as the passenger's e-mail. *)
Lemma update_stored_email
    (env : Env) (st : Store) (userId : ObjectId) (user : Passenger.t)
    (req : UpdateBody.t) (email : string) :
  db_read_error env = None ->
  db_save_error env = None ->
  find (fun p => Nat.eqb (Passenger._id p) userId) (passengers st) = Some user ->
  given (UpdateBody.email req) = Some email ->
  email <> Passenger.email user ->
  email_in_use st email = false ->
  (forall p, given (UpdateBody.newPassword req) = Some p ->
             exists h, bcrypt_hash env p = Ok h) ->
  exists user',
    code (response (update env st userId req)) = 200 /\
    find (fun p => Nat.eqb (Passenger._id p) userId)
         (passengers (store (update env st userId req))) = Some user' /\
    Passenger.email user' = JsString.trim email.
Proof.
  intros Hdb Hsave Hfind Hgiven Hne Hfree Hhash.
  destruct (update_name_phone_keeps user req) as [Kid [Kemail _]].
  unfold update, Passenger_findById, query. rewrite Hdb. simpl.
  rewrite Hfind. simpl. rewrite Kemail, Hgiven.
  destruct (String.eqb_spec email (Passenger.email user)) as [|_]; [contradiction|].
  simpl. rewrite (emailExistsInBoth_ok env st email Hdb), Hfree. simpl.
  assert (Hpw :
    exists u',
      match given (UpdateBody.newPassword req) with
      | Some newPassword =>
          hashPassword <- bcrypt_hash env newPassword;;
          Ok (set_password (set_email (update_name_phone user req) (JsString.trim email))
                hashPassword)
      | None => Ok (set_email (update_name_phone user req) (JsString.trim email))
      end = Ok u' /\
      Passenger._id u' = Passenger._id user /\
      Passenger.email u' = JsString.trim email).
  { destruct (given (UpdateBody.newPassword req)) as [p|].
    - destruct (Hhash p eq_refl) as [h ->]. simpl.
      eexists. split; [reflexivity|]. split; [exact Kid | reflexivity].
    - eexists. split; [reflexivity|]. split; [exact Kid | reflexivity]. }
  destruct Hpw as [u' [-> [Pid Pemail]]]. simpl.
  unfold save. rewrite Hsave. simpl.
  exists u'. split; [reflexivity|]. split.
  - apply find_replaced with (user := user); [assumption | exact Pid].
  - exact Pemail.
Qed.

(** C8, where the code departs from it.  The uniqueness guard of the
    profile update is passed by an e-mail that already belongs to another
    identity as soon as white space surrounds it: the guard looks up the string as submitted, and what is
    stored is that string trimmed.  For an existing passenger, the database
    answering and any new password hashing: when the submitted e-mail is not
    itself the e-mail of any identity but its trimmed form is the e-mail of
    an identity and differs from the passenger's own, the update is answered
    200, not with the duplicate-e-mail error, and the passenger's stored
    e-mail becomes that trimmed form, the e-mail of the other identity. *)
Theorem update_email_guard_misses_untrimmed_email
    (env : Env) (st : Store) (userId : ObjectId) (user : Passenger.t)
    (req : UpdateBody.t) (email : string) :
  db_read_error env = None ->
  db_save_error env = None ->
  find (fun p => Nat.eqb (Passenger._id p) userId) (passengers st) = Some user ->
  UpdateBody.email req = Some email ->
  (forall p, given (UpdateBody.newPassword req) = Some p ->
             exists h, bcrypt_hash env p = Ok h) ->
  email_in_use st email = false ->
  email_in_use st (JsString.trim email) = true ->
  JsString.trim email <> Passenger.email user ->
  code (response (update env st userId req)) = 200 /\
  exists user',
    find (fun p => Nat.eqb (Passenger._id p) userId)
         (passengers (store (update env st userId req))) = Some user' /\
    Passenger.email user' = JsString.trim email /\
    Passenger.email user' <> Passenger.email user /\
    email_in_use st (Passenger.email user') = true.
Proof.
  intros Hdb Hsave Hfind Hemail Hhash Hfree Hused Hother.
  assert (Hnonempty : JsString.truthy email = true).
  { unfold JsString.truthy. destruct (String.eqb_spec email "") as [E|_]; [|reflexivity].
    subst email. change (JsString.trim "") with "" in Hused. congruence. }
  assert (Hgiven : given (UpdateBody.email req) = Some email).
  { rewrite Hemail. unfold given. rewrite Hnonempty. reflexivity. }
  assert (Hne : email <> Passenger.email user).
  { intros E. apply find_some in Hfind. destruct Hfind as [Hin _].
    assert (Hc : email_in_use st email = true).
    { apply email_in_use_In. unfold emails. apply in_or_app. left.
      rewrite E. apply in_map. exact Hin. }
    congruence. }
  destruct (update_stored_email env st userId user req email
              Hdb Hsave Hfind Hgiven Hne Hfree Hhash) as [user' [Hcode [Hfind' Hmail]]].
  split; [exact Hcode|]. exists user'. split; [exact Hfind'|].
  split; [exact Hmail|]. rewrite Hmail. split; assumption.
Qed.

(** Bob asks for Alice's e-mail with a blank on either side: he gets it,
    and two passengers then hold [a@b.com]. *)
Lemma update_email_guard_misses_untrimmed_email_witness :
  let req :=
    {| UpdateBody.name := None; UpdateBody.phonenumber := None;
       UpdateBody.email := Some " a@b.com "; UpdateBody.newPassword := None |} in
  (code (response (update Sample.env Sample.st 2 req)) = 200 /\
   exists bob',
     find (fun p => Nat.eqb (Passenger._id p) 2)
          (passengers (store (update Sample.env Sample.st 2 req))) = Some bob' /\
     Passenger.email bob' = JsString.trim " a@b.com " /\
     Passenger.email bob' <> Passenger.email Sample.bob /\
     email_in_use Sample.st (Passenger.email bob') = true) /\
  map Passenger.email (passengers (store (update Sample.env Sample.st 2 req)))
    = [ "a@b.com"; "a@b.com" ].
Proof.
  intros req. split.
  - apply (update_email_guard_misses_untrimmed_email Sample.env Sample.st 2 Sample.bob
             req " a@b.com ").
    + reflexivity.
    + reflexivity.
    + reflexivity.
    + reflexivity.
    + intros p Hp. vm_compute in Hp. discriminate.
    + reflexivity.
    + reflexivity.
    + vm_compute. discriminate.
  - reflexivity.
Defined.
